(** * Weekly Challenges: the React client (v1.0.0 and v1.1.0)

    A shallow embedding of the client's [App] component: its hook state,
    its handlers ([handleAuth], [fetchCurrentChallenge], [createChallenge],
    [updateDayEntry], [openEditDay], ...) and the part of its render that
    decides what the user sees (the seven-day grid, the main content and
    the error toast), for both released versions of [App.tsx].

    Handlers are written in a small state/writer/exception monad: the
    state is the component's hook state, the writer logs the HTTP requests
    issued through [apiCall], and exceptions are the values thrown by
    [apiCall].  What a handler reads comes from the closure of the render
    that created it; what it writes goes through the setters. *)

From Stdlib Require Import ZArith List String Ascii Bool Lia.
From Stdlib Require Import Numbers.DecimalString.
From Stdlib Require Import Permutation.
Import ListNotations.

Open Scope string_scope.
Open Scope Z_scope.

(* ===================================================================== *)
(** * The JavaScript runtime the component relies on *)
(* ===================================================================== *)

Module Js.

(** Strings hold text as its UTF-8 bytes.  The code points that
    [String.prototype.trim] strips are the WhiteSpace and LineTerminator
    code points of ECMAScript: U+0009 to U+000D and U+0020 (one byte),
    U+00A0 (two bytes), and U+1680, U+2000 to U+200A, U+2028, U+2029,
    U+202F, U+205F, U+3000 and U+FEFF (three bytes). *)
Definition whiteSpace1 (b1 : nat) : bool :=
  (((9 <=? b1) && (b1 <=? 13)) || (b1 =? 32))%nat.

Definition whiteSpace2 (b1 b2 : nat) : bool :=
  ((b1 =? 194) && (b2 =? 160))%nat.

Definition whiteSpace3 (b1 b2 b3 : nat) : bool :=
  (((b1 =? 225) && (b2 =? 154) && (b3 =? 128))
   || ((b1 =? 226) && (b2 =? 128)
       && (((128 <=? b3) && (b3 <=? 138)) || (b3 =? 168) || (b3 =? 169) || (b3 =? 175)))
   || ((b1 =? 226) && (b2 =? 129) && (b3 =? 159))
   || ((b1 =? 227) && (b2 =? 128) && (b3 =? 128))
   || ((b1 =? 239) && (b2 =? 187) && (b3 =? 191)))%nat.

(** The text after the first code point of [s], when that code point is
    one of those. *)
Definition afterWhiteSpace (s : string) : option string :=
  match s with
  | String c1 s1 =>
      if whiteSpace1 (nat_of_ascii c1) then Some s1
      else
        match s1 with
        | String c2 s2 =>
            if whiteSpace2 (nat_of_ascii c1) (nat_of_ascii c2) then Some s2
            else
              match s2 with
              | String c3 s3 =>
                  if whiteSpace3 (nat_of_ascii c1) (nat_of_ascii c2) (nat_of_ascii c3)
                  then Some s3 else None
              | EmptyString => None
              end
        | EmptyString => None
        end
  | EmptyString => None
  end.

(** [w] is exactly one such code point. *)
Definition isWhiteSpace (w : string) : bool :=
  match afterWhiteSpace w with
  | Some EmptyString => true
  | _ => false
  end.

Fixpoint trimStart (s : string) : string :=
  match s with
  | String c1 s1 =>
      if whiteSpace1 (nat_of_ascii c1) then trimStart s1
      else
        match s1 with
        | String c2 s2 =>
            if whiteSpace2 (nat_of_ascii c1) (nat_of_ascii c2) then trimStart s2
            else
              match s2 with
              | String c3 s3 =>
                  if whiteSpace3 (nat_of_ascii c1) (nat_of_ascii c2) (nat_of_ascii c3)
                  then trimStart s3 else s
              | EmptyString => s
              end
        | EmptyString => s
        end
  | EmptyString => EmptyString
  end.

(** From the right: what is left of the tail, with its first byte put
    back, is dropped when it is one white space code point. *)
Fixpoint trimEnd (s : string) : string :=
  match s with
  | EmptyString => EmptyString
  | String c s' =>
      let t := String c (trimEnd s') in
      if isWhiteSpace t then EmptyString else t
  end.

(** [s.trim()] *)
Definition trim (s : string) : string := trimEnd (trimStart s).

(** Truthiness of the values the component tests. *)
Definition truthyString (s : string) : bool :=
  match s with EmptyString => false | _ => true end.

Definition truthyNumber (n : Z) : bool := negb (n =? 0).

Definition truthyOpt {A} (truthy : A -> bool) (o : option A) : bool :=
  match o with Some a => truthy a | None => false end.

(** [a || b] on a nullable value with a default of the same type. *)
Definition orElse {A} (truthy : A -> bool) (o : option A) (dflt : A) : A :=
  match o with
  | Some a => if truthy a then a else dflt
  | None => dflt
  end.

(** [String(value)] for a value that is a string or [undefined]; storing
    a value in [localStorage] converts it this way. *)
Definition toStringOr (v : option string) : string :=
  match v with
  | Some s => s
  | None => "undefined"
  end.

(** Number to string, as a template literal does for an integer. *)
Definition numberToString (n : Z) : string :=
  NilZero.string_of_int (Z.to_int n).

(** [array.find(p)] is [List.find]; [array.map((x, index) => f)] is
    [mapIndexed]. *)
Fixpoint mapIndexedFrom {A B} (f : A -> nat -> B) (index : nat) (l : list A) : list B :=
  match l with
  | [] => []
  | x :: l' => f x index :: mapIndexedFrom f (S index) l'
  end.

Definition mapIndexed {A B} (f : A -> nat -> B) (l : list A) : list B :=
  mapIndexedFrom f 0%nat l.

(** ** Dates

    A [Date] holds a time value: milliseconds since the epoch, UTC.
    Local time is the time value plus the offset [tza] (milliseconds)
    the zone has at that time.  A zone that changes its clocks has
    different offsets at different times, so every operation takes the
    offsets in force at the times it converts. *)

Record Date := mkDate { timeValue : Z }.

Definition msPerDay : Z := 86400000.

Definition Day (t : Z) : Z := t / msPerDay.
Definition TimeWithinDay (t : Z) : Z := t mod msPerDay.

(** 1 January 1970, day 0, was a Thursday; Sunday is 0. *)
Definition WeekDay (t : Z) : Z := (Day t + 4) mod 7.

(** Year, month (1-12) and day of month (1-31) of a day number, in the
    proleptic Gregorian calendar. *)
Definition civilFromDays (z : Z) : Z * Z * Z :=
  let z := z + 719468 in
  let era := z / 146097 in
  let doe := z - era * 146097 in
  let yoe := (doe - doe / 1460 + doe / 36524 - doe / 146096) / 365 in
  let doy := doe - (365 * yoe + yoe / 4 - yoe / 100) in
  let mp := (5 * doy + 2) / 153 in
  let d := doy - (153 * mp + 2) / 5 + 1 in
  let m := if mp <? 10 then mp + 3 else mp - 9 in
  let y := yoe + era * 400 in
  (if m <=? 2 then y + 1 else y, m, d).

Definition DateFromTime (t : Z) : Z := snd (civilFromDays (Day t)).

Definition LocalTime (tza t : Z) : Z := t + tza.
Definition UTC (tza t : Z) : Z := t - tza.

(** [new Date(d)] copies the time value. *)
Definition copyDate (d : Date) : Date := mkDate (timeValue d).

(** [d.getDate()]: day of the month, local time. *)
Definition getDate (tza : Z) (d : Date) : Z :=
  DateFromTime (LocalTime tza (timeValue d)).

(** [d.getDay()]: day of the week, local time, Sunday = 0. *)
Definition getDay (tza : Z) (d : Date) : Z :=
  WeekDay (LocalTime tza (timeValue d)).

(** [MakeDay(year, month, dt)] for the year and month of local time [t]:
    the day number of the first of that month, plus [dt - 1]; a [dt]
    outside the month rolls over into the neighbouring months. *)
Definition MakeDayInMonthOf (t dt : Z) : Z :=
  (Day t - DateFromTime t + 1) + dt - 1.

Definition MakeDate (day time : Z) : Z := day * msPerDay + time.

(** [d.setDate(dt)]: the local fields of [d] are read with [tza], the
    offset in force at [d]; the local time built from them is turned back
    into a time value with [tzaSet], the offset in force at that local
    time.  The two are the same unless the zone changes its clocks
    between the two dates. *)
Definition setDate (tza tzaSet : Z) (d : Date) (dt : Z) : Date :=
  let t := LocalTime tza (timeValue d) in
  mkDate (UTC tzaSet (MakeDate (MakeDayInMonthOf t dt) (TimeWithinDay t))).

(** [d.toISOString()]: the UTC fields, YYYY-MM-DDTHH:mm:ss.sssZ. *)
Fixpoint zeros (n : nat) : string :=
  match n with
  | O => EmptyString
  | S n' => String "0" (zeros n')
  end.

Definition padStart (width : nat) (s : string) : string :=
  zeros (width - String.length s) ++ s.

Definition digits (width : nat) (n : Z) : string :=
  padStart width (NilZero.string_of_uint (N.to_uint (Z.to_N n))).

Definition yearString (y : Z) : string :=
  if (0 <=? y) && (y <=? 9999) then digits 4 y
  else if y <? 0 then "-" ++ digits 6 (- y)
  else "+" ++ digits 6 y.

Definition toISOString (d : Date) : string :=
  let t := timeValue d in
  let '(y, m, dd) := civilFromDays (Day t) in
  let ms := TimeWithinDay t in
  yearString y ++ "-" ++ digits 2 m ++ "-" ++ digits 2 dd ++ "T"
    ++ digits 2 (ms / 3600000) ++ ":" ++ digits 2 ((ms / 60000) mod 60) ++ ":"
    ++ digits 2 ((ms / 1000) mod 60) ++ "." ++ digits 3 (ms mod 1000) ++ "Z".

End Js.

(* ===================================================================== *)
(** * Data model: the two interfaces of [App.tsx] *)
(* ===================================================================== *)

Record Challenge := mkChallenge {
  id : Z;
  title : string;
  is_active : bool;
  week_start_date : string;
  created_at : string
}.

Record DailyEntry := mkDailyEntry {
  entry_id : Z;
  challenge_id : Z;
  day_index : Z;
  completed : bool;
  difficulty : option Z;          (* number | null *)
  note : option string;           (* string | null *)
  entry_created_at : string
}.

Inductive AuthMode := login | register.

(* ===================================================================== *)
(** * Hook state *)
(* ===================================================================== *)

(** One field per [useState] of [App], plus the [token] entry of
    [localStorage]. *)
Record State := mkState {
  token : option string;
  authMode : AuthMode;
  loading : bool;
  error : string;
  currentChallenge : option Challenge;
  dailyEntries : list DailyEntry;
  challenges : list Challenge;
  showEditDay : option Z;
  showNewChallenge : bool;
  showHistory : bool;
  showPassword : bool;
  email : string;
  password : string;
  editCompleted : bool;
  editDifficulty : Z;
  editNote : string;
  newChallengeTitle : string;
  localStorageToken : option string
}.

(** The state of the first render: every [useState] initial value. *)
Definition initialState (stored : option string) : State :=
  {| token := stored; authMode := login; loading := false; error := "";
     currentChallenge := None; dailyEntries := []; challenges := [];
     showEditDay := None; showNewChallenge := false; showHistory := false;
     showPassword := false; email := ""; password := "";
     editCompleted := false; editDifficulty := 1; editNote := "";
     newChallengeTitle := ""; localStorageToken := stored |}.

Definition withToken (v : option string) (s : State) : State :=
  mkState v (authMode s) (loading s) (error s) (currentChallenge s) (dailyEntries s)
    (challenges s) (showEditDay s) (showNewChallenge s) (showHistory s) (showPassword s)
    (email s) (password s) (editCompleted s) (editDifficulty s) (editNote s)
    (newChallengeTitle s) (localStorageToken s).

Definition withAuthMode (v : AuthMode) (s : State) : State :=
  mkState (token s) v (loading s) (error s) (currentChallenge s) (dailyEntries s)
    (challenges s) (showEditDay s) (showNewChallenge s) (showHistory s) (showPassword s)
    (email s) (password s) (editCompleted s) (editDifficulty s) (editNote s)
    (newChallengeTitle s) (localStorageToken s).

Definition withLoading (v : bool) (s : State) : State :=
  mkState (token s) (authMode s) v (error s) (currentChallenge s) (dailyEntries s)
    (challenges s) (showEditDay s) (showNewChallenge s) (showHistory s) (showPassword s)
    (email s) (password s) (editCompleted s) (editDifficulty s) (editNote s)
    (newChallengeTitle s) (localStorageToken s).

Definition withError (v : string) (s : State) : State :=
  mkState (token s) (authMode s) (loading s) v (currentChallenge s) (dailyEntries s)
    (challenges s) (showEditDay s) (showNewChallenge s) (showHistory s) (showPassword s)
    (email s) (password s) (editCompleted s) (editDifficulty s) (editNote s)
    (newChallengeTitle s) (localStorageToken s).

Definition withCurrentChallenge (v : option Challenge) (s : State) : State :=
  mkState (token s) (authMode s) (loading s) (error s) v (dailyEntries s)
    (challenges s) (showEditDay s) (showNewChallenge s) (showHistory s) (showPassword s)
    (email s) (password s) (editCompleted s) (editDifficulty s) (editNote s)
    (newChallengeTitle s) (localStorageToken s).

Definition withDailyEntries (v : list DailyEntry) (s : State) : State :=
  mkState (token s) (authMode s) (loading s) (error s) (currentChallenge s) v
    (challenges s) (showEditDay s) (showNewChallenge s) (showHistory s) (showPassword s)
    (email s) (password s) (editCompleted s) (editDifficulty s) (editNote s)
    (newChallengeTitle s) (localStorageToken s).

Definition withChallenges (v : list Challenge) (s : State) : State :=
  mkState (token s) (authMode s) (loading s) (error s) (currentChallenge s) (dailyEntries s)
    v (showEditDay s) (showNewChallenge s) (showHistory s) (showPassword s)
    (email s) (password s) (editCompleted s) (editDifficulty s) (editNote s)
    (newChallengeTitle s) (localStorageToken s).

Definition withShowEditDay (v : option Z) (s : State) : State :=
  mkState (token s) (authMode s) (loading s) (error s) (currentChallenge s) (dailyEntries s)
    (challenges s) v (showNewChallenge s) (showHistory s) (showPassword s)
    (email s) (password s) (editCompleted s) (editDifficulty s) (editNote s)
    (newChallengeTitle s) (localStorageToken s).

Definition withShowNewChallenge (v : bool) (s : State) : State :=
  mkState (token s) (authMode s) (loading s) (error s) (currentChallenge s) (dailyEntries s)
    (challenges s) (showEditDay s) v (showHistory s) (showPassword s)
    (email s) (password s) (editCompleted s) (editDifficulty s) (editNote s)
    (newChallengeTitle s) (localStorageToken s).

Definition withShowHistory (v : bool) (s : State) : State :=
  mkState (token s) (authMode s) (loading s) (error s) (currentChallenge s) (dailyEntries s)
    (challenges s) (showEditDay s) (showNewChallenge s) v (showPassword s)
    (email s) (password s) (editCompleted s) (editDifficulty s) (editNote s)
    (newChallengeTitle s) (localStorageToken s).

Definition withShowPassword (v : bool) (s : State) : State :=
  mkState (token s) (authMode s) (loading s) (error s) (currentChallenge s) (dailyEntries s)
    (challenges s) (showEditDay s) (showNewChallenge s) (showHistory s) v
    (email s) (password s) (editCompleted s) (editDifficulty s) (editNote s)
    (newChallengeTitle s) (localStorageToken s).

Definition withEmail (v : string) (s : State) : State :=
  mkState (token s) (authMode s) (loading s) (error s) (currentChallenge s) (dailyEntries s)
    (challenges s) (showEditDay s) (showNewChallenge s) (showHistory s) (showPassword s)
    v (password s) (editCompleted s) (editDifficulty s) (editNote s)
    (newChallengeTitle s) (localStorageToken s).

Definition withPassword (v : string) (s : State) : State :=
  mkState (token s) (authMode s) (loading s) (error s) (currentChallenge s) (dailyEntries s)
    (challenges s) (showEditDay s) (showNewChallenge s) (showHistory s) (showPassword s)
    (email s) v (editCompleted s) (editDifficulty s) (editNote s)
    (newChallengeTitle s) (localStorageToken s).

Definition withEditCompleted (v : bool) (s : State) : State :=
  mkState (token s) (authMode s) (loading s) (error s) (currentChallenge s) (dailyEntries s)
    (challenges s) (showEditDay s) (showNewChallenge s) (showHistory s) (showPassword s)
    (email s) (password s) v (editDifficulty s) (editNote s)
    (newChallengeTitle s) (localStorageToken s).

Definition withEditDifficulty (v : Z) (s : State) : State :=
  mkState (token s) (authMode s) (loading s) (error s) (currentChallenge s) (dailyEntries s)
    (challenges s) (showEditDay s) (showNewChallenge s) (showHistory s) (showPassword s)
    (email s) (password s) (editCompleted s) v (editNote s)
    (newChallengeTitle s) (localStorageToken s).

Definition withEditNote (v : string) (s : State) : State :=
  mkState (token s) (authMode s) (loading s) (error s) (currentChallenge s) (dailyEntries s)
    (challenges s) (showEditDay s) (showNewChallenge s) (showHistory s) (showPassword s)
    (email s) (password s) (editCompleted s) (editDifficulty s) v
    (newChallengeTitle s) (localStorageToken s).

Definition withNewChallengeTitle (v : string) (s : State) : State :=
  mkState (token s) (authMode s) (loading s) (error s) (currentChallenge s) (dailyEntries s)
    (challenges s) (showEditDay s) (showNewChallenge s) (showHistory s) (showPassword s)
    (email s) (password s) (editCompleted s) (editDifficulty s) (editNote s)
    v (localStorageToken s).

Definition withLocalStorageToken (v : option string) (s : State) : State :=
  mkState (token s) (authMode s) (loading s) (error s) (currentChallenge s) (dailyEntries s)
    (challenges s) (showEditDay s) (showNewChallenge s) (showHistory s) (showPassword s)
    (email s) (password s) (editCompleted s) (editDifficulty s) (editNote s)
    (newChallengeTitle s) v.

(* ===================================================================== *)
(** * HTTP requests and responses *)
(* ===================================================================== *)

(** The [body] option of [fetch]: absent, [JSON.stringify] of one of the
    object literals the component builds (kept as its fields), or the
    login [FormData]. *)
Inductive Body :=
| NoBody
| RegisterJson (email password : string)
| LoginForm (username password : string)
| ChallengeJson (title week_start_date : string)
| DayJson (completed : bool) (difficulty : option Z) (note : option string).

Definition isFormData (b : Body) : bool :=
  match b with LoginForm _ _ => true | _ => false end.

Record RequestInit := mkInit { init_method : option string; init_body : Body }.

Definition noOptions : RequestInit := mkInit None NoBody.

Record Request := mkRequest {
  url : string;
  method : option string;
  headers : list (string * string);
  body : Body
}.

(** A thrown value: an [Error] with its message, or something else. *)
Inductive Exn :=
| JsError (message : string)
| NotAnError.

(** A JSON value as far as the client looks at it: a string, or another
    value (number, boolean, list, object) known by its truthiness and by
    the string [String(value)] gives, which is what [new Error(value)]
    takes as its message: "[object Object]" for an object, "" for an
    empty list. *)
Inductive JsonValue :=
| JsonString (s : string)
| JsonOther (truthy : bool) (shown : string).

Definition truthyJson (v : JsonValue) : bool :=
  match v with
  | JsonString s => Js.truthyString s
  | JsonOther truthy _ => truthy
  end.

Definition showJson (v : JsonValue) : string :=
  match v with
  | JsonString s => s
  | JsonOther _ shown => shown
  end.

(** What [fetch] and the reading of the response body come to:
    [FetchRejects] when [fetch] or the reading of the body throws,
    [ResponseNotOk] for a response that is not ok, [ResponseOk] for a
    response that is.  [errorData] is [None] when the body of a failed
    response is not JSON, otherwise the [detail] field of that body, if
    it has one.  A failed response whose JSON body is [null] makes the
    reading of [detail] throw a [TypeError]: that is a [FetchRejects]
    with an [Error]. *)
Inductive FetchOutcome (A : Type) :=
| FetchRejects (e : Exn)
| ResponseNotOk (status : Z) (errorData : option (option JsonValue))
| ResponseOk (json : A).

Arguments FetchRejects {A} e.
Arguments ResponseNotOk {A} status errorData.
Arguments ResponseOk {A} json.

(** The body of the answer to /token: [response.access_token] is a string,
    or [undefined] ([None]) when the body has no such field.  A body that
    is [null] makes the reading of the field throw a [TypeError], which
    [handleAuth] catches as it catches a rejected [fetch]. *)
Record TokenResponse := mkTokenResponse { access_token : option string }.

(** The responses to the two requests of [fetchCurrentChallenge]. *)
Record CurrentResponses := mkCurrentResponses {
  currentResponse : FetchOutcome (option Challenge);
  daysResponse : FetchOutcome (list DailyEntry)
}.

(* ===================================================================== *)
(** * The handler monad *)
(* ===================================================================== *)

Inductive Completion (A : Type) :=
| Normal (a : A)
| Throw (e : Exn).

Arguments Normal {A} a.
Arguments Throw {A} e.

Definition M (A : Type) : Type := State -> Completion A * State * list Request.

Definition ret {A} (a : A) : M A := fun s => (Normal a, s, []).

Definition bind {A B} (m : M A) (k : A -> M B) : M B :=
  fun s =>
    match m s with
    | (Normal a, s1, rs1) => let '(c, s2, rs2) := k a s1 in (c, s2, (rs1 ++ rs2)%list)
    | (Throw e, s1, rs1) => (Throw e, s1, rs1)
    end.

Definition throw {A} (e : Exn) : M A := fun s => (Throw e, s, []).

(** A setter call. *)
Definition set (f : State -> State) : M unit := fun s => (Normal tt, f s, []).

(** [fetch(url, init)] leaves the client. *)
Definition emit (r : Request) : M unit := fun s => (Normal tt, s, [r]).

Declare Scope handler_scope.
Delimit Scope handler_scope with handler.
Notation "x <- m ;; k" := (bind m (fun x => k))
  (at level 61, m at next level, right associativity) : handler_scope.
Notation "m ;; k" := (bind m (fun _ => k))
  (at level 61, right associativity) : handler_scope.

(** [try { body } catch (err) { handler }] *)
Definition tryCatch {A} (body : M A) (handler : Exn -> M A) : M A :=
  fun s =>
    match body s with
    | (Normal a, s1, rs1) => (Normal a, s1, rs1)
    | (Throw e, s1, rs1) => let '(c, s2, rs2) := handler e s1 in (c, s2, (rs1 ++ rs2)%list)
    end.

(** [try { body } finally { fin }] *)
Definition tryFinally {A} (body : M A) (fin : M unit) : M A :=
  fun s =>
    let '(c, s1, rs1) := body s in
    match fin s1 with
    | (Normal _, s2, rs2) => (c, s2, (rs1 ++ rs2)%list)
    | (Throw e, s2, rs2) => (Throw e, s2, (rs1 ++ rs2)%list)
    end.

Definition tryCatchFinally {A} (body : M A) (handler : Exn -> M A) (fin : M unit) : M A :=
  tryFinally (tryCatch body handler) fin.

(** A call of an async function whose promise is dropped.  The callee's
    updates are applied in place: the functions called this way catch
    their own exceptions and write fields ([currentChallenge],
    [dailyEntries], [challenges]) that the rest of the caller does not
    touch, so the order of the writes does not show in the final state. *)
Definition spawn (m : M unit) : M unit :=
  fun s => let '(_, s1, rs1) := m s in (Normal tt, s1, rs1).

(** The state and the requests a handler leaves behind. *)
Definition finalState {A} (r : Completion A * State * list Request) : State := snd (fst r).
Definition requestsOf {A} (r : Completion A * State * list Request) : list Request := snd r.

(* ===================================================================== *)
(** * What the render shows *)
(* ===================================================================== *)

Inductive Icon :=
| CheckIcon (className : string)
| EmojiDiv (className : string) (text : option string)
| XIcon (className : string).

(** One day of the grid: the [div] with key [index], its label, and the
    button that opens the edit dialog for [index]. *)
Record DayBox := mkDayBox {
  box_key : nat;
  box_label : string;
  box_labelClass : string;
  box_openEditDay : Z;
  box_className : string;
  box_icon : Icon;
  box_noteIcon : option string       (* class of the MessageSquare, when shown *)
}.

Inductive MainContent :=
| CurrentChallengeView (title week_start_date : string) (grid : list DayBox)
| NoActiveChallengeView (message : string).

(** The edit dialog: the day named in its heading, the two "Completed?"
    buttons, the levels of the difficulty buttons, the note text. *)
Record EditDialog := mkEditDialog {
  dialog_heading : option string;
  dialog_completed : bool;
  dialog_levels : list (Z * string * bool);   (* level, emoji, highlighted *)
  dialog_note : string;
  dialog_saveDisabled : bool
}.

Inductive Screen :=
| AuthScreen (errorBox : option string) (submitLabel : string) (submitDisabled : bool)
| AppScreen (main : MainContent) (version : string)
    (editDialog : option EditDialog) (newChallengeDialog : option string)
    (history : option (list Challenge)) (errorToast : option string).

(* ===================================================================== *)
(** * User and runtime events *)
(* ===================================================================== *)

(** What can happen to the component.  An event that makes the component
    call the server carries the server's responses; the new-challenge
    submit also carries the clock: [now], the zone's offset [tza] at
    [now], and its offset [tzaSet] at the local time [setDate] builds. *)
Inductive Event :=
| ChangeEmail (value : string)
| ChangePassword (value : string)
| ToggleShowPassword
| SubmitAuth (registerResponse : FetchOutcome unit) (tokenResponse : FetchOutcome TokenResponse)
| SwitchAuthMode
| ClickLogout
| ClickDayBox (k : nat)
| ClickNewChallenge
| ClickHistory
| ClickCompleted (value : bool)
| ClickDifficultyButton (k : nat)
| ChangeNote (value : string)
| ClickCancelEdit
| ClickSave (putResponse : FetchOutcome DailyEntry) (refetch : CurrentResponses)
| ChangeTitle (value : string)
| ClickCancelNewChallenge
| SubmitNewChallenge (tza tzaSet : Z) (now : Js.Date) (postResponse : FetchOutcome Challenge)
    (refetch : CurrentResponses) (listResponse : FetchOutcome (list Challenge))
| ClickCloseHistory
| ClickDismissError
| TokenEffect (refetch : CurrentResponses) (listResponse : FetchOutcome (list Challenge)).

(* ===================================================================== *)
(** * Version 1.0.0: [src/frontend/src/App.tsx] *)
(* ===================================================================== *)

Module V1_0_0.

Definition APP_VERSION : string := "1.0.0".

(** The emoji literals are kept as their UTF-8 bytes; nothing inspects
    them. *)
Definition difficultyEmojis : list string := [""; "😅"; "😐"; "😬"; "😰"; "🔥"].
Definition dayNames : list string := ["Mon"; "Tue"; "Wed"; "Thu"; "Fri"; "Sat"; "Sun"].

(** [array[i]] for a number [i]: [undefined] outside the array. *)
Definition at_ {A} (l : list A) (i : Z) : option A :=
  if i <? 0 then None else nth_error l (Z.to_nat i).

Section App.

(** [process.env.REACT_APP_API_BASE] *)
Variable REACT_APP_API_BASE : option string.

(** The hook values of the render that created the handlers. *)
Variable props : State.

Definition API_BASE : string :=
  Js.orElse Js.truthyString REACT_APP_API_BASE "http://localhost:8000".

Local Open Scope handler_scope.

Definition apiCall {A} (endpoint : string) (options : RequestInit)
    (response : FetchOutcome A) : M A :=
  let url := API_BASE ++ endpoint in
  let defaultHeaders :=
    match token props with
    | Some t => if Js.truthyString t then [("Authorization", "Bearer " ++ t)] else []
    | None => []
    end in
  let defaultHeaders :=
    if negb (isFormData (init_body options))
    then (defaultHeaders ++ [("Content-Type", "application/json")])%list
    else defaultHeaders in
  emit (mkRequest url (init_method options) defaultHeaders (init_body options)) ;;
  match response with
  | FetchRejects e => throw e
  | ResponseNotOk status errorData =>
      let detail :=
        match errorData with
        | Some detail => detail
        | None => Some (JsonString "Network error")
        end in
      throw (JsError (showJson (Js.orElse truthyJson detail
                                  (JsonString ("HTTP " ++ Js.numberToString status)))))
  | ResponseOk json => ret json
  end.

(** [err instanceof Error ? err.message : fallback] *)
Definition messageOr (err : Exn) (fallback : string) : string :=
  match err with
  | JsError message => message
  | NotAnError => fallback
  end.

Definition handleAuth (registerResponse : FetchOutcome unit)
    (tokenResponse : FetchOutcome TokenResponse) : M unit :=
  set (withLoading true) ;;
  set (withError "") ;;
  tryCatchFinally
    (match authMode props with
     | register =>
         apiCall "/register"
           (mkInit (Some "POST") (RegisterJson (email props) (password props)))
           registerResponse ;;
         set (withAuthMode login) ;;
         set (withPassword "") ;;
         set (withError "Registration successful! Please log in.")
     | login =>
         let formData := LoginForm (email props) (password props) in
         response <- apiCall "/token" (mkInit (Some "POST") formData) tokenResponse ;;
         set (withLocalStorageToken (Some (Js.toStringOr (access_token response)))) ;;
         set (withToken (access_token response))
     end)
    (fun err => set (withError (messageOr err "Authentication failed")))
    (set (withLoading false)).

Definition handleLogout : M unit :=
  set (withLocalStorageToken None) ;;
  set (withToken None) ;;
  set (withCurrentChallenge None) ;;
  set (withDailyEntries []) ;;
  set (withChallenges []).

Definition fetchCurrentChallenge (responses : CurrentResponses) : M unit :=
  tryCatch
    (challenge <- apiCall "/challenges/current" noOptions (currentResponse responses) ;;
     set (withCurrentChallenge challenge) ;;
     challenge_id <-
       match challenge with
       | Some c => ret (id c)
       | None => throw (JsError "Cannot read properties of null (reading 'id')")
       end ;;
     entries <- apiCall ("/challenges/" ++ Js.numberToString challenge_id ++ "/days")
                  noOptions (daysResponse responses) ;;
     set (withDailyEntries entries))
    (fun err =>
       (* No current challenge *)
       set (withCurrentChallenge None) ;;
       set (withDailyEntries [])).

Definition fetchChallenges (listResponse : FetchOutcome (list Challenge)) : M unit :=
  tryCatch
    (challenges <- apiCall "/challenges" noOptions listResponse ;;
     set (withChallenges challenges))
    (fun err => ret tt).                      (* console.error *)

Definition createChallenge (tza tzaSet : Z) (now : Js.Date)
    (postResponse : FetchOutcome Challenge) (refetch : CurrentResponses)
    (listResponse : FetchOutcome (list Challenge)) : M unit :=
  if negb (Js.truthyString (Js.trim (newChallengeTitle props))) then ret tt
  else
    set (withLoading true) ;;
    tryCatchFinally
      (let monday := Js.copyDate now in
       let monday :=
         Js.setDate tza tzaSet monday (Js.getDate tza now - Js.getDay tza now + 1) in
                                                      (* This week's Monday *)
       apiCall "/challenges"
         (mkInit (Some "POST")
            (ChallengeJson (newChallengeTitle props) (Js.toISOString monday)))
         postResponse ;;
       set (withNewChallengeTitle "") ;;
       set (withShowNewChallenge false) ;;
       spawn (fetchCurrentChallenge refetch) ;;
       spawn (fetchChallenges listResponse))
      (fun err => set (withError (messageOr err "Failed to create challenge")))
      (set (withLoading false)).

Definition updateDayEntry (dayIndex : Z) (putResponse : FetchOutcome DailyEntry)
    (refetch : CurrentResponses) : M unit :=
  match currentChallenge props with
  | None => ret tt
  | Some current =>
      set (withLoading true) ;;
      tryCatchFinally
        (apiCall ("/challenges/" ++ Js.numberToString (id current) ++ "/days/"
                    ++ Js.numberToString dayIndex)
           (mkInit (Some "PUT")
              (DayJson (editCompleted props) (Some (editDifficulty props))
                 (let trimmed := Js.trim (editNote props) in
                  if Js.truthyString trimmed then Some trimmed else None)))
           putResponse ;;
         spawn (fetchCurrentChallenge refetch) ;;
         set (withShowEditDay None))
        (fun err => set (withError (messageOr err "Failed to update day")))
        (set (withLoading false))
  end.

Definition openEditDay (dayIndex : Z) : M unit :=
  let entry := find (fun e => day_index e =? dayIndex) (dailyEntries props) in
  match entry with
  | Some entry =>
      set (withEditCompleted (completed entry)) ;;
      set (withEditDifficulty (Js.orElse Js.truthyNumber (difficulty entry) 1)) ;;
      set (withEditNote (Js.orElse Js.truthyString (note entry) ""))
  | None =>
      set (withEditCompleted false) ;;
      set (withEditDifficulty 1) ;;
      set (withEditNote "")
  end ;;
  set (withShowEditDay (Some dayIndex)).

(** ** Render *)

(** [entry?.completed], [entry?.difficulty], [entry?.note] as tested by
    the grid. *)
Definition entryCompleted (entry : option DailyEntry) : bool :=
  match entry with Some e => completed e | None => false end.

Definition entryDifficulty (entry : option DailyEntry) : option Z :=
  match entry with Some e => difficulty e | None => None end.

Definition entryNote (entry : option DailyEntry) : option string :=
  match entry with Some e => note e | None => None end.

(** The JSX returned by the callback of [dayNames.map]. *)
Definition dayBox (day : string) (index : nat) (entry : option DailyEntry) : DayBox :=
  {| box_key := index;
     box_label := day;
     box_labelClass := "text-xs text-gray-600 mb-1";
     box_openEditDay := Z.of_nat index;
     box_className :=
       "w-full h-16 rounded-lg border-2 transition-colors flex flex-col items-center justify-center "
       ++ (if entryCompleted entry
           then "border-green-500 bg-green-50"
           else "border-gray-200 bg-gray-50 hover:bg-gray-100");
     box_icon :=
       if entryCompleted entry then CheckIcon "text-green-600"
       else match entryDifficulty entry with
            | Some d =>
                if Js.truthyNumber d then EmojiDiv "text-sm" (at_ difficultyEmojis d)
                else XIcon "text-gray-400"
            | None => XIcon "text-gray-400"
            end;
     box_noteIcon :=
       if Js.truthyOpt Js.truthyString (entryNote entry)
       then Some "text-gray-400 mt-1" else None |}.

Definition dayGrid : list DayBox :=
  Js.mapIndexed
    (fun day index =>
       let entry :=
         find (fun e => day_index e =? Z.of_nat index) (dailyEntries props) in
       dayBox day index entry)
    dayNames.

Definition mainContent : MainContent :=
  match currentChallenge props with
  | Some current =>
      CurrentChallengeView (title current) (week_start_date current) dayGrid
  | None => NoActiveChallengeView "No active challenge"
  end.

Definition editDialog : option EditDialog :=
  match showEditDay props with
  | Some day =>
      Some {| dialog_heading := at_ dayNames day;
              dialog_completed := editCompleted props;
              dialog_levels :=
                map (fun level =>
                       (level, nth (Z.to_nat level) difficultyEmojis "",
                        editDifficulty props =? level))
                    [1; 2; 3; 4; 5];
              dialog_note := editNote props;
              dialog_saveDisabled := loading props |}
  | None => None
  end.

Definition errorToast : option string :=
  if Js.truthyString (error props) then Some (error props) else None.

Definition loggedIn : bool := Js.truthyOpt Js.truthyString (token props).

Definition render : Screen :=
  if negb loggedIn then
    AuthScreen errorToast
      (if loading props then "Please wait..."
       else match authMode props with login => "Log In" | register => "Register" end)
      (loading props)
  else
    AppScreen mainContent APP_VERSION editDialog
      (if showNewChallenge props then Some (newChallengeTitle props) else None)
      (if showHistory props then Some (challenges props) else None)
      errorToast.

(** ** The handlers the render attaches

    [dispatch ev] is the handler that the element [ev] addresses
    carries in this render, if the render has that element and it is
    enabled.  Inputs marked [required] hold back the submit of an
    empty field; a disabled submit button holds back its form.  The
    format check of the email input is left out, so the model offers
    the auth submit at least as often as a browser does. *)
Definition dispatch (ev : Event) : option (M unit) :=
  if negb loggedIn then
    match ev with
    | ChangeEmail value => Some (set (withEmail value))
    | ChangePassword value => Some (set (withPassword value))
    | ToggleShowPassword => Some (set (withShowPassword (negb (showPassword props))))
    | SubmitAuth registerResponse tokenResponse =>
        if negb (loading props) && Js.truthyString (email props)
           && Js.truthyString (password props)
        then Some (handleAuth registerResponse tokenResponse) else None
    | SwitchAuthMode =>
        Some (set (withAuthMode
                     (match authMode props with login => register | register => login end)) ;;
              set (withError ""))
    | _ => None
    end
  else
    match ev with
    | ClickLogout => Some handleLogout
    | ClickDayBox k =>
        match mainContent with
        | CurrentChallengeView _ _ grid =>
            match nth_error grid k with
            | Some box => Some (openEditDay (box_openEditDay box))
            | None => None
            end
        | NoActiveChallengeView _ => None
        end
    | ClickNewChallenge => Some (set (withShowNewChallenge true))
    | ClickHistory => Some (set (withShowHistory true))
    | ClickCompleted value =>
        match editDialog with
        | Some _ => Some (set (withEditCompleted value))
        | None => None
        end
    | ClickDifficultyButton k =>
        match editDialog with
        | Some dialog =>
            match nth_error (dialog_levels dialog) k with
            | Some (level, _, _) => Some (set (withEditDifficulty level))
            | None => None
            end
        | None => None
        end
    | ChangeNote value =>
        match editDialog with
        | Some _ => Some (set (withEditNote value))
        | None => None
        end
    | ClickCancelEdit =>
        match editDialog with
        | Some _ => Some (set (withShowEditDay None))
        | None => None
        end
    | ClickSave putResponse refetch =>
        match showEditDay props with
        | Some day =>
            if loading props then None
            else Some (updateDayEntry day putResponse refetch)
        | None => None
        end
    | ChangeTitle value =>
        if showNewChallenge props then Some (set (withNewChallengeTitle value)) else None
    | ClickCancelNewChallenge =>
        if showNewChallenge props then Some (set (withShowNewChallenge false)) else None
    | SubmitNewChallenge tza tzaSet now postResponse refetch listResponse =>
        if showNewChallenge props && negb (loading props)
           && Js.truthyString (newChallengeTitle props)
        then Some (createChallenge tza tzaSet now postResponse refetch listResponse)
        else None
    | ClickCloseHistory =>
        if showHistory props then Some (set (withShowHistory false)) else None
    | ClickDismissError =>
        if Js.truthyString (error props) then Some (set (withError "")) else None
    | TokenEffect refetch listResponse =>
        Some (spawn (fetchCurrentChallenge refetch) ;;
              spawn (fetchChallenges listResponse))
    | _ => None
    end.

End App.

End V1_0_0.

(* ===================================================================== *)
(** * Version 1.1.0: [src/unnamed/part_000] *)
(* ===================================================================== *)

Module V1_1_0.

Definition APP_VERSION : string := "1.1.0".

(** The emoji literals are kept as their UTF-8 bytes; nothing inspects
    them. *)
Definition difficultyEmojis : list string := [""; "😅"; "😐"; "😬"; "😰"; "🔥"].
Definition dayNames : list string := ["Mon"; "Tue"; "Wed"; "Thu"; "Fri"; "Sat"; "Sun"].

(** [array[i]] for a number [i]: [undefined] outside the array. *)
Definition at_ {A} (l : list A) (i : Z) : option A :=
  if i <? 0 then None else nth_error l (Z.to_nat i).

Section App.

(** [process.env.REACT_APP_API_BASE] *)
Variable REACT_APP_API_BASE : option string.

(** The hook values of the render that created the handlers. *)
Variable props : State.

Definition API_BASE : string :=
  Js.orElse Js.truthyString REACT_APP_API_BASE "http://localhost:8000".

Local Open Scope handler_scope.

Definition apiCall {A} (endpoint : string) (options : RequestInit)
    (response : FetchOutcome A) : M A :=
  let url := API_BASE ++ endpoint in
  let defaultHeaders :=
    match token props with
    | Some t => if Js.truthyString t then [("Authorization", "Bearer " ++ t)] else []
    | None => []
    end in
  let defaultHeaders :=
    if negb (isFormData (init_body options))
    then (defaultHeaders ++ [("Content-Type", "application/json")])%list
    else defaultHeaders in
  emit (mkRequest url (init_method options) defaultHeaders (init_body options)) ;;
  match response with
  | FetchRejects e => throw e
  | ResponseNotOk status errorData =>
      let detail :=
        match errorData with
        | Some detail => detail
        | None => Some (JsonString "Network error")
        end in
      throw (JsError (showJson (Js.orElse truthyJson detail
                                  (JsonString ("HTTP " ++ Js.numberToString status)))))
  | ResponseOk json => ret json
  end.

(** [err instanceof Error ? err.message : fallback] *)
Definition messageOr (err : Exn) (fallback : string) : string :=
  match err with
  | JsError message => message
  | NotAnError => fallback
  end.

Definition handleAuth (registerResponse : FetchOutcome unit)
    (tokenResponse : FetchOutcome TokenResponse) : M unit :=
  set (withLoading true) ;;
  set (withError "") ;;
  tryCatchFinally
    (match authMode props with
     | register =>
         apiCall "/register"
           (mkInit (Some "POST") (RegisterJson (email props) (password props)))
           registerResponse ;;
         set (withAuthMode login) ;;
         set (withPassword "") ;;
         set (withError "Registration successful! Please log in.")
     | login =>
         let formData := LoginForm (email props) (password props) in
         response <- apiCall "/token" (mkInit (Some "POST") formData) tokenResponse ;;
         set (withLocalStorageToken (Some (Js.toStringOr (access_token response)))) ;;
         set (withToken (access_token response))
     end)
    (fun err => set (withError (messageOr err "Authentication failed")))
    (set (withLoading false)).

Definition handleLogout : M unit :=
  set (withLocalStorageToken None) ;;
  set (withToken None) ;;
  set (withCurrentChallenge None) ;;
  set (withDailyEntries []) ;;
  set (withChallenges []).

Definition fetchCurrentChallenge (responses : CurrentResponses) : M unit :=
  tryCatch
    (challenge <- apiCall "/challenges/current" noOptions (currentResponse responses) ;;
     set (withCurrentChallenge challenge) ;;
     challenge_id <-
       match challenge with
       | Some c => ret (id c)
       | None => throw (JsError "Cannot read properties of null (reading 'id')")
       end ;;
     entries <- apiCall ("/challenges/" ++ Js.numberToString challenge_id ++ "/days")
                  noOptions (daysResponse responses) ;;
     set (withDailyEntries entries))
    (fun _ =>
       set (withCurrentChallenge None) ;;
       set (withDailyEntries [])).

Definition fetchChallenges (listResponse : FetchOutcome (list Challenge)) : M unit :=
  tryCatch
    (challenges <- apiCall "/challenges" noOptions listResponse ;;
     set (withChallenges challenges))
    (fun err => ret tt).                      (* console.error *)

Definition createChallenge (tza tzaSet : Z) (now : Js.Date)
    (postResponse : FetchOutcome Challenge) (refetch : CurrentResponses)
    (listResponse : FetchOutcome (list Challenge)) : M unit :=
  if negb (Js.truthyString (Js.trim (newChallengeTitle props))) then ret tt
  else
    set (withLoading true) ;;
    tryCatchFinally
      (let monday := Js.copyDate now in
       let monday :=
         Js.setDate tza tzaSet monday (Js.getDate tza now - Js.getDay tza now + 1) in
       apiCall "/challenges"
         (mkInit (Some "POST")
            (ChallengeJson (newChallengeTitle props) (Js.toISOString monday)))
         postResponse ;;
       set (withNewChallengeTitle "") ;;
       set (withShowNewChallenge false) ;;
       spawn (fetchCurrentChallenge refetch) ;;
       spawn (fetchChallenges listResponse))
      (fun err => set (withError (messageOr err "Failed to create challenge")))
      (set (withLoading false)).

Definition updateDayEntry (dayIndex : Z) (putResponse : FetchOutcome DailyEntry)
    (refetch : CurrentResponses) : M unit :=
  match currentChallenge props with
  | None => ret tt
  | Some current =>
      set (withLoading true) ;;
      tryCatchFinally
        (apiCall ("/challenges/" ++ Js.numberToString (id current) ++ "/days/"
                    ++ Js.numberToString dayIndex)
           (mkInit (Some "PUT")
              (DayJson (editCompleted props) (Some (editDifficulty props))
                 (let trimmed := Js.trim (editNote props) in
                  if Js.truthyString trimmed then Some trimmed else None)))
           putResponse ;;
         spawn (fetchCurrentChallenge refetch) ;;
         set (withShowEditDay None))
        (fun err => set (withError (messageOr err "Failed to update day")))
        (set (withLoading false))
  end.

Definition openEditDay (dayIndex : Z) : M unit :=
  let entry := find (fun e => day_index e =? dayIndex) (dailyEntries props) in
  match entry with
  | Some entry =>
      set (withEditCompleted (completed entry)) ;;
      set (withEditDifficulty (Js.orElse Js.truthyNumber (difficulty entry) 1)) ;;
      set (withEditNote (Js.orElse Js.truthyString (note entry) ""))
  | None =>
      set (withEditCompleted false) ;;
      set (withEditDifficulty 1) ;;
      set (withEditNote "")
  end ;;
  set (withShowEditDay (Some dayIndex)).

(** ** Render *)

(** [entry?.completed], [entry?.difficulty], [entry?.note] as tested by
    the grid. *)
Definition entryCompleted (entry : option DailyEntry) : bool :=
  match entry with Some e => completed e | None => false end.

Definition entryDifficulty (entry : option DailyEntry) : option Z :=
  match entry with Some e => difficulty e | None => None end.

Definition entryNote (entry : option DailyEntry) : option string :=
  match entry with Some e => note e | None => None end.

(** The JSX returned by the callback of [dayNames.map]. *)
Definition dayBox (day : string) (index : nat) (entry : option DailyEntry) : DayBox :=
  {| box_key := index;
     box_label := day;
     box_labelClass := "text-xs text-white/80 mb-1";
     box_openEditDay := Z.of_nat index;
     box_className :=
       "day-box w-full h-16 rounded-lg border-2 transition-colors flex flex-col items-center justify-center "
       ++ (if entryCompleted entry
           then "border-green-500"
           else "border-blue-500");
     box_icon :=
       if entryCompleted entry then CheckIcon "text-green-500"
       else match entryDifficulty entry with
            | Some d =>
                if Js.truthyNumber d then EmojiDiv "text-sm" (at_ difficultyEmojis d)
                else XIcon "text-gray-400"
            | None => XIcon "text-gray-400"
            end;
     box_noteIcon :=
       if Js.truthyOpt Js.truthyString (entryNote entry)
       then Some "text-gray-400 mt-1" else None |}.

Definition dayGrid : list DayBox :=
  Js.mapIndexed
    (fun day index =>
       let entry :=
         find (fun e => day_index e =? Z.of_nat index) (dailyEntries props) in
       dayBox day index entry)
    dayNames.

Definition mainContent : MainContent :=
  match currentChallenge props with
  | Some current =>
      CurrentChallengeView (title current) (week_start_date current) dayGrid
  | None => NoActiveChallengeView "No active challenge"
  end.

Definition editDialog : option EditDialog :=
  match showEditDay props with
  | Some day =>
      Some {| dialog_heading := at_ dayNames day;
              dialog_completed := editCompleted props;
              dialog_levels :=
                map (fun level =>
                       (level, nth (Z.to_nat level) difficultyEmojis "",
                        editDifficulty props =? level))
                    [1; 2; 3; 4; 5];
              dialog_note := editNote props;
              dialog_saveDisabled := loading props |}
  | None => None
  end.

Definition errorToast : option string :=
  if Js.truthyString (error props) then Some (error props) else None.

Definition loggedIn : bool := Js.truthyOpt Js.truthyString (token props).

Definition render : Screen :=
  if negb loggedIn then
    AuthScreen errorToast
      (if loading props then "Please wait..."
       else match authMode props with login => "Log In" | register => "Register" end)
      (loading props)
  else
    AppScreen mainContent APP_VERSION editDialog
      (if showNewChallenge props then Some (newChallengeTitle props) else None)
      (if showHistory props then Some (challenges props) else None)
      errorToast.

(** ** The handlers the render attaches

    [dispatch ev] is the handler that the element [ev] addresses
    carries in this render, if the render has that element and it is
    enabled.  Inputs marked [required] hold back the submit of an
    empty field; a disabled submit button holds back its form.  The
    format check of the email input is left out, so the model offers
    the auth submit at least as often as a browser does. *)
Definition dispatch (ev : Event) : option (M unit) :=
  if negb loggedIn then
    match ev with
    | ChangeEmail value => Some (set (withEmail value))
    | ChangePassword value => Some (set (withPassword value))
    | ToggleShowPassword => Some (set (withShowPassword (negb (showPassword props))))
    | SubmitAuth registerResponse tokenResponse =>
        if negb (loading props) && Js.truthyString (email props)
           && Js.truthyString (password props)
        then Some (handleAuth registerResponse tokenResponse) else None
    | SwitchAuthMode =>
        Some (set (withAuthMode
                     (match authMode props with login => register | register => login end)) ;;
              set (withError ""))
    | _ => None
    end
  else
    match ev with
    | ClickLogout => Some handleLogout
    | ClickDayBox k =>
        match mainContent with
        | CurrentChallengeView _ _ grid =>
            match nth_error grid k with
            | Some box => Some (openEditDay (box_openEditDay box))
            | None => None
            end
        | NoActiveChallengeView _ => None
        end
    | ClickNewChallenge => Some (set (withShowNewChallenge true))
    | ClickHistory => Some (set (withShowHistory true))
    | ClickCompleted value =>
        match editDialog with
        | Some _ => Some (set (withEditCompleted value))
        | None => None
        end
    | ClickDifficultyButton k =>
        match editDialog with
        | Some dialog =>
            match nth_error (dialog_levels dialog) k with
            | Some (level, _, _) => Some (set (withEditDifficulty level))
            | None => None
            end
        | None => None
        end
    | ChangeNote value =>
        match editDialog with
        | Some _ => Some (set (withEditNote value))
        | None => None
        end
    | ClickCancelEdit =>
        match editDialog with
        | Some _ => Some (set (withShowEditDay None))
        | None => None
        end
    | ClickSave putResponse refetch =>
        match showEditDay props with
        | Some day =>
            if loading props then None
            else Some (updateDayEntry day putResponse refetch)
        | None => None
        end
    | ChangeTitle value =>
        if showNewChallenge props then Some (set (withNewChallengeTitle value)) else None
    | ClickCancelNewChallenge =>
        if showNewChallenge props then Some (set (withShowNewChallenge false)) else None
    | SubmitNewChallenge tza tzaSet now postResponse refetch listResponse =>
        if showNewChallenge props && negb (loading props)
           && Js.truthyString (newChallengeTitle props)
        then Some (createChallenge tza tzaSet now postResponse refetch listResponse)
        else None
    | ClickCloseHistory =>
        if showHistory props then Some (set (withShowHistory false)) else None
    | ClickDismissError =>
        if Js.truthyString (error props) then Some (set (withError "")) else None
    | TokenEffect refetch listResponse =>
        Some (spawn (fetchCurrentChallenge refetch) ;;
              spawn (fetchChallenges listResponse))
    | _ => None
    end.

End App.

End V1_1_0.


(* ===================================================================== *)
(** * Executions of the component *)
(* ===================================================================== *)

(** The two releases. *)
Inductive Release := v1_0_0 | v1_1_0.

Definition Client : Type := State -> Event -> option (M unit).

(** The handlers the render of a release attaches in a given state. *)
Definition dispatchOf (v : Release) (REACT_APP_API_BASE : option string) : Client :=
  match v with
  | v1_0_0 => V1_0_0.dispatch REACT_APP_API_BASE
  | v1_1_0 => V1_1_0.dispatch REACT_APP_API_BASE
  end.

Definition renderOf (v : Release) : State -> Screen :=
  match v with
  | v1_0_0 => V1_0_0.render
  | v1_1_0 => V1_1_0.render
  end.

Definition dayGridOf (v : Release) : State -> list DayBox :=
  match v with
  | v1_0_0 => V1_0_0.dayGrid
  | v1_1_0 => V1_1_0.dayGrid
  end.

Definition dayBoxOf (v : Release) : string -> nat -> option DailyEntry -> DayBox :=
  match v with
  | v1_0_0 => V1_0_0.dayBox
  | v1_1_0 => V1_1_0.dayBox
  end.

Definition dayNamesOf (v : Release) : list string :=
  match v with
  | v1_0_0 => V1_0_0.dayNames
  | v1_1_0 => V1_1_0.dayNames
  end.

Definition fetchCurrentChallengeOf (v : Release) :=
  match v with
  | v1_0_0 => V1_0_0.fetchCurrentChallenge
  | v1_1_0 => V1_1_0.fetchCurrentChallenge
  end.

Definition createChallengeOf (v : Release) :=
  match v with
  | v1_0_0 => V1_0_0.createChallenge
  | v1_1_0 => V1_1_0.createChallenge
  end.

Definition updateDayEntryOf (v : Release) :=
  match v with
  | v1_0_0 => V1_0_0.updateDayEntry
  | v1_1_0 => V1_1_0.updateDayEntry
  end.

Definition openEditDayOf (v : Release) :=
  match v with
  | v1_0_0 => V1_0_0.openEditDay
  | v1_1_0 => V1_1_0.openEditDay
  end.

(** One event: the handler of the current render runs to completion and
    the component renders again. *)
Definition step (client : Client) (s : State) (ev : Event) : option (State * list Request) :=
  match client s ev with
  | Some handler => let r := handler s in Some (finalState r, requestsOf r)
  | None => None
  end.

(** The events [evs] in turn, from [s]: the final state and the requests
    sent, or [None] when a render does not offer the event it meets. *)
Fixpoint runFrom (client : Client) (s : State) (evs : list Event)
    : option (State * list Request) :=
  match evs with
  | [] => Some (s, [])
  | ev :: evs' =>
      match step client s ev with
      | Some (s1, rs1) =>
          match runFrom client s1 evs' with
          | Some (s2, rs2) => Some (s2, (rs1 ++ rs2)%list)
          | None => None
          end
      | None => None
      end
  end.

(** The entries a server obeying the data model delivers: a difficulty is
    unset or between 1 and 5.  [entryWithin Q] asks [Q] of a difficulty
    that is set. *)
Definition difficultyInRange (d : Z) : Prop := 1 <= d <= 5.

Definition entryWithin (Q : Z -> Prop) (e : DailyEntry) : Prop :=
  match difficulty e with
  | Some d => Q d
  | None => True
  end.

Definition daysWithin (Q : Z -> Prop) (responses : CurrentResponses) : Prop :=
  match daysResponse responses with
  | ResponseOk entries => Forall (entryWithin Q) entries
  | _ => True
  end.

Definition eventWithin (Q : Z -> Prop) (ev : Event) : Prop :=
  match ev with
  | ClickSave _ refetch => daysWithin Q refetch
  | SubmitNewChallenge _ _ _ _ refetch _ => daysWithin Q refetch
  | TokenEffect refetch _ => daysWithin Q refetch
  | _ => True
  end.

Definition eventWithinModel : Event -> Prop := eventWithin difficultyInRange.

(** The entries the answer to the days request of an event delivers. *)
Definition deliveredEntries (ev : Event) : list DailyEntry :=
  match ev with
  | ClickSave _ refetch
  | SubmitNewChallenge _ _ _ _ refetch _
  | TokenEffect refetch _ =>
      match daysResponse refetch with
      | ResponseOk entries => entries
      | _ => []
      end
  | _ => []
  end.

(** A difficulty that some entry delivered along [evs] has. *)
Definition deliveredDifficulty (evs : list Event) (d : Z) : Prop :=
  exists ev e, In ev evs /\ In e (deliveredEntries ev) /\ difficulty e = Some d.

(** A day-upsert request: a PUT with the day literal as its body. *)
Definition isDayUpsert (r : Request) : bool :=
  match body r with DayJson _ _ _ => true | _ => false end.

Definition upsertDifficulty (r : Request) : option Z :=
  match body r with DayJson _ d _ => d | _ => None end.

Definition upsertNote (r : Request) : option string :=
  match body r with DayJson _ _ n => n | _ => None end.

Definition challengeWeekStart (r : Request) : option string :=
  match body r with ChallengeJson _ w => Some w | _ => None end.

(** ** The ISO week, for comparison

    The Monday of the ISO week that contains day number [day]: ISO weeks
    run Monday to Sunday, and day 0 was a Thursday. *)
Definition isoWeekMonday (day : Z) : Z := day - (day + 3) mod 7.

(** The local calendar day of a date. *)
Definition localDay (tza : Z) (d : Js.Date) : Z :=
  Js.Day (Js.LocalTime tza (Js.timeValue d)).

(** The date [createChallenge] sends as the week start, from its lines
    [const monday = new Date(now); monday.setDate(...)]. *)
Definition mondayOf (tza tzaSet : Z) (now : Js.Date) : Js.Date :=
  Js.setDate tza tzaSet (Js.copyDate now) (Js.getDate tza now - Js.getDay tza now + 1).

(* ===================================================================== *)
(** * The challenge store behind the API *)
(* ===================================================================== *)

Module Backend.

(** Modelled from the spec: the server's Challenge record (section 3); the
    backend sources are not part of the files at hand.  A Challenge belongs
    to exactly one user and carries a title, an active flag, a
    week-start-date and a creation timestamp. *)
Record ChallengeRow := mkRow {
  row_id : Z;
  row_user : Z;
  row_title : string;
  row_active : bool;
  row_week_start_date : string;
  row_created_at : Z
}.

Definition Store : Type := list ChallengeRow.

Inductive ApiError := ValidationError | NotFound.

Definition deactivate (user : Z) (r : ChallengeRow) : ChallengeRow :=
  if row_user r =? user
  then mkRow (row_id r) (row_user r) (row_title r) false (row_week_start_date r) (row_created_at r)
  else r.

(** Modelled from the spec: createChallenge of the Challenge Lifecycle
    Manager (section 4.1), missing from the sources.  It fails with
    ValidationError if the title is empty; on success any previously
    active Challenge of the user is deactivated and the new Challenge is
    inserted with active = true, as a single atomic unit. *)
Definition createChallenge (user : Z) (title weekStartDate : string) (clock : Z)
    (store : Store) : (ApiError + ChallengeRow) * Store :=
  match title with
  | EmptyString => (inl ValidationError, store)
  | _ =>
      let row := mkRow (Z.of_nat (List.length store)) user title true weekStartDate clock in
      (inr row, row :: map (deactivate user) store)
  end.

(** Modelled from the spec: listChallenges (section 4.1), all challenges
    of the user, the active one included. *)
Definition listChallenges (user : Z) (store : Store) : list ChallengeRow :=
  filter (fun r => row_user r =? user) store.

(** Modelled from the spec: getCurrentChallenge (section 4.1), the active
    Challenge of the user or NotFound. *)
Definition getCurrentChallenge (user : Z) (store : Store) : ApiError + ChallengeRow :=
  match find row_active (listChallenges user store) with
  | Some r => inr r
  | None => inl NotFound
  end.

Definition activeCount (user : Z) (store : Store) : nat :=
  List.length (filter row_active (listChallenges user store)).

(** Modelled from the spec: the reachable stores.  Challenges are created
    by explicit user action only and no other operation writes the active
    flag (section 3), so a reachable store is what a sequence of
    createChallenge calls, by any users in any order, makes of the empty
    store; each call is atomic (section 5). *)
Inductive Reachable : Store -> Prop :=
| Reachable_empty : Reachable []
| Reachable_create store user title weekStartDate clock :
    Reachable store ->
    Reachable (snd (createChallenge user title weekStartDate clock store)).

End Backend.

(** The PUT request [updateDayEntry] builds. *)
Definition putRequestOf (env : option string) (props : State) (current : Challenge)
    (dayIndex : Z) : Request :=
  mkRequest
    (V1_1_0.API_BASE env ++ "/challenges/" ++ Js.numberToString (id current) ++ "/days/"
       ++ Js.numberToString dayIndex)
    (Some "PUT")
    (List.app
       match token props with
       | Some t => if Js.truthyString t then [("Authorization", "Bearer " ++ t)] else []
       | None => []
       end
       [("Content-Type", "application/json")])
    (DayJson (editCompleted props) (Some (editDifficulty props))
       (if Js.truthyString (Js.trim (editNote props))
        then Some (Js.trim (editNote props)) else None)).

(* ===================================================================== *)
(** * Vocabulary of the statements *)
(* ===================================================================== *)

Fixpoint onlyWhiteSpace (s : string) : bool :=
  match s with
  | String c1 s1 =>
      if Js.whiteSpace1 (nat_of_ascii c1) then onlyWhiteSpace s1
      else
        match s1 with
        | String c2 s2 =>
            if Js.whiteSpace2 (nat_of_ascii c1) (nat_of_ascii c2) then onlyWhiteSpace s2
            else
              match s2 with
              | String c3 s3 =>
                  if Js.whiteSpace3 (nat_of_ascii c1) (nat_of_ascii c2) (nat_of_ascii c3)
                  then onlyWhiteSpace s3 else false
              | EmptyString => false
              end
        | EmptyString => false
        end
  | EmptyString => true
  end.

(** [s] starts, or ends, with a white space code point. *)
Definition startsWithWhiteSpace (s : string) : bool :=
  match Js.afterWhiteSpace s with
  | Some _ => true
  | None => false
  end.

Fixpoint endsWithWhiteSpace (s : string) : bool :=
  match s with
  | EmptyString => false
  | String _ s' => Js.isWhiteSpace s || endsWithWhiteSpace s'
  end.

(** [t] is [s] without the white space at its two ends, and is not empty. *)
Definition TrimmedOf (s t : string) : Prop :=
  exists l r,
    s = l ++ t ++ r /\ onlyWhiteSpace l = true /\ onlyWhiteSpace r = true
    /\ t <> "" /\ startsWithWhiteSpace t = false /\ endsWithWhiteSpace t = false.

(** [e] is the entry [find] returns for [dayIndex]: the first of the list
    with that day index. *)
Definition FirstEntryFor (dayIndex : Z) (entries : list DailyEntry) (e : DailyEntry) : Prop :=
  exists before after,
    entries = (before ++ e :: after)%list
    /\ day_index e = dayIndex
    /\ Forall (fun e' => day_index e' <> dayIndex) before.

(** The fetch of the current challenge fails: one of its two requests
    does not come back with a usable answer (a 404 for "no active
    challenge", any other failure, or an empty body). *)
Definition fetchFails (responses : CurrentResponses) : Prop :=
  match currentResponse responses, daysResponse responses with
  | ResponseOk (Some _), ResponseOk _ => False
  | _, _ => True
  end.

(** What every render keeps, for a property [Q] of the five levels: the
    form's difficulty has it, and so has every difficulty of the entries
    held. *)
Definition FormInvariant (Q : Z -> Prop) (s : State) : Prop :=
  Q (editDifficulty s) /\ Forall (entryWithin Q) (dailyEntries s).

Definition upsertWithin (Q : Z -> Prop) (r : Request) : Prop :=
  isDayUpsert r = true -> exists d, upsertDifficulty r = Some d /\ Q d.

(** ** A screen without its presentation

    The same screen with the class names and the version string blanked:
    what is shown and what each element does, not how it is styled. *)
Definition plainIcon (i : Icon) : Icon :=
  match i with
  | CheckIcon _ => CheckIcon ""
  | EmojiDiv _ text => EmojiDiv "" text
  | XIcon _ => XIcon ""
  end.

Definition plainBox (b : DayBox) : DayBox :=
  mkDayBox (box_key b) (box_label b) "" (box_openEditDay b) ""
    (plainIcon (box_icon b)) (option_map (fun _ => "") (box_noteIcon b)).

Definition plainMain (m : MainContent) : MainContent :=
  match m with
  | CurrentChallengeView t w grid => CurrentChallengeView t w (map plainBox grid)
  | NoActiveChallengeView message => NoActiveChallengeView message
  end.

Definition plainScreen (sc : Screen) : Screen :=
  match sc with
  | AuthScreen errorBox submitLabel submitDisabled =>
      AuthScreen errorBox submitLabel submitDisabled
  | AppScreen main _ edit new history toast =>
      AppScreen (plainMain main) "" edit new history toast
  end.

(** ** Sample data *)

Definition sampleChallenge : Challenge :=
  mkChallenge 1 "No sugar" true "2025-08-25T09:00:00.000Z" "2025-08-25T09:00:01.000Z".

(** Monday done and rated 3 with a note; Friday opened and left not done,
    unrated, without a note. *)
Definition mondayEntry : DailyEntry :=
  mkDailyEntry 10 1 0 true (Some 3) (Some "tough") "2025-08-25T20:00:00.000Z".

Definition fridayEntry : DailyEntry :=
  mkDailyEntry 11 1 4 false None None "2025-08-29T20:00:00.000Z".

(** A signed-in user who has the edit dialog open on Wednesday. *)
Definition sampleState : State :=
  {| token := Some "jwt"; authMode := login; loading := false; error := "";
     currentChallenge := Some sampleChallenge;
     dailyEntries := [mondayEntry; fridayEntry];
     challenges := [sampleChallenge];
     showEditDay := Some 2; showNewChallenge := false; showHistory := false;
     showPassword := false; email := "a@example.com"; password := "pw123456";
     editCompleted := true; editDifficulty := 2; editNote := "  so so ";
     newChallengeTitle := ""; localStorageToken := Some "jwt" |}.

Definition sampleResponses : CurrentResponses :=
  mkCurrentResponses (ResponseOk (Some sampleChallenge))
    (ResponseOk [mondayEntry; fridayEntry]).

(** The same user with the new-challenge dialog open and a title typed. *)
Definition sampleNewChallenge : State :=
  withNewChallengeTitle "No sugar" (withShowNewChallenge true (withShowEditDay None sampleState)).

(** A session: the effect on the stored token loads the sample week; the
    user opens Friday, clicks the fourth difficulty button and saves. *)
Definition sampleSession : list Event :=
  [ TokenEffect sampleResponses (ResponseOk [sampleChallenge]);
    ClickDayBox 4;
    ClickDifficultyButton 3;
    ClickSave (ResponseOk fridayEntry) sampleResponses ].

(** A server that does not keep to the data model: it delivers a Monday
    entry rated 9.  The user opens Monday and saves. *)
Definition outOfModelEntry : DailyEntry :=
  mkDailyEntry 13 1 0 false (Some 9) None "2025-08-25T20:00:00.000Z".

Definition outOfModelSession : list Event :=
  [ TokenEffect
      (mkCurrentResponses (ResponseOk (Some sampleChallenge)) (ResponseOk [outOfModelEntry]))
      (ResponseOk [sampleChallenge]);
    ClickDayBox 0;
    ClickSave (ResponseOk outOfModelEntry) sampleResponses ].

(** Sunday 31 August 2025, 12:00 UTC. *)
Definition sampleSunday : Js.Date := Js.mkDate 1756641600000.

(** ** Further selectors and observations *)

Definition handleAuthOf (v : Release) :=
  match v with
  | v1_0_0 => V1_0_0.handleAuth
  | v1_1_0 => V1_1_0.handleAuth
  end.

Definition handleLogoutOf (v : Release) : M unit :=
  match v with
  | v1_0_0 => V1_0_0.handleLogout
  | v1_1_0 => V1_1_0.handleLogout
  end.

Definition fetchChallengesOf (v : Release) :=
  match v with
  | v1_0_0 => V1_0_0.fetchChallenges
  | v1_1_0 => V1_1_0.fetchChallenges
  end.

Definition editDialogOf (v : Release) : State -> option EditDialog :=
  match v with
  | v1_0_0 => V1_0_0.editDialog
  | v1_1_0 => V1_1_0.editDialog
  end.

Definition apiBaseOf (v : Release) : option string -> string :=
  match v with
  | v1_0_0 => V1_0_0.API_BASE
  | v1_1_0 => V1_1_0.API_BASE
  end.

(** The value of a request header, if the request has it. *)
Fixpoint header (name : string) (hs : list (string * string)) : option string :=
  match hs with
  | [] => None
  | (n, value) :: hs' => if String.eqb n name then Some value else header name hs'
  end.

Definition authorization (r : Request) : option string := header "Authorization" (headers r).
Definition contentType (r : Request) : option string := header "Content-Type" (headers r).

(** The credential a render has to offer: [Bearer <token>] for a token
    that is set and not empty. *)
Definition bearerOf (s : State) : option string :=
  match token s with
  | Some t => if Js.truthyString t then Some ("Bearer " ++ t) else None
  | None => None
  end.

(** The levels of the difficulty buttons a dialog highlights. *)
Definition highlightedLevels (d : EditDialog) : list Z :=
  map (fun b => fst (fst b)) (filter (fun b => snd b) (dialog_levels d)).

(** A response that is not a success. *)
Definition notOk {A} (response : FetchOutcome A) : Prop :=
  match response with
  | ResponseOk _ => False
  | _ => True
  end.

(** The response [handleAuth] waits for, by mode. *)
Definition authFailed (s : State) (registerResponse : FetchOutcome unit)
    (tokenResponse : FetchOutcome TokenResponse) : Prop :=
  match authMode s with
  | register => notOk registerResponse
  | login => notOk tokenResponse
  end.

(** ** Further sample data *)

(** A visitor who has typed an email and a password into the register
    form, and the same visitor at the login form. *)
Definition sampleRegistering : State :=
  withPassword "pw123456" (withEmail "a@example.com"
    (withAuthMode register (initialState None))).

Definition sampleSigningIn : State :=
  withPassword "pw123456" (withEmail "a@example.com" (initialState None)).

(** ** Properties of handlers as computations *)

(** Every request a computation sends, from whatever state, has [P]. *)
Definition Sends {A} (P : Request -> Prop) (m : M A) : Prop :=
  forall s, Forall P (requestsOf (m s)).

(** A computation started in a state with [I] ends in a state with [I]. *)
Definition Preserves {A} (I : State -> Prop) (m : M A) : Prop :=
  forall s, I s -> I (finalState (m s)).

(** A request as [apiCall] builds it in a render: under the API base,
    with the render's credential, and with the JSON content type exactly
    when its body is not form data. *)
Definition builtBy (v : Release) (env : option string) (props : State) (q : Request) : Prop :=
  (exists endpoint, url q = apiBaseOf v env ++ endpoint)
  /\ authorization q = bearerOf props
  /\ contentType q = (if isFormData (body q) then None else Some "application/json").

(** The two requests that need no credential. *)
Definition isAuthRequest (v : Release) (env : option string) (q : Request) : Prop :=
  method q = Some "POST"
  /\ (url q = apiBaseOf v env ++ "/register" \/ url q = apiBaseOf v env ++ "/token").

(** The token hook and the stored token agree. *)
Definition tokenInSync (s : State) : Prop := token s = localStorageToken s.

(** An event whose answer to the login request, when it is ok, has an
    [access_token] field, as the body the server's /token route returns
    has. *)
Definition loginCarriesToken (ev : Event) : Prop :=
  match ev with
  | SubmitAuth _ (ResponseOk response) => access_token response <> None
  | _ => True
  end.

(** A visitor without a stored token types the credentials and logs in. *)
Definition sampleLogin : list Event :=
  [ ChangeEmail "a@example.com";
    ChangePassword "pw123456";
    SubmitAuth (FetchRejects NotAnError) (ResponseOk (mkTokenResponse (Some "jwt"))) ].

(** The dialog, when open, is open on one of the seven days. *)
Definition editDayInWeek (s : State) : Prop :=
  match showEditDay s with
  | Some d => 0 <= d <= 6
  | None => True
  end.

(** A day-upsert request addresses a day of the week of some challenge. *)
Definition upsertsDayOfWeek (v : Release) (env : option string) (q : Request) : Prop :=
  isDayUpsert q = true ->
  exists challenge d,
    0 <= d <= 6
    /\ method q = Some "PUT"
    /\ url q = apiBaseOf v env ++ "/challenges/" ++ Js.numberToString challenge
               ++ "/days/" ++ Js.numberToString d.

(** Wednesday 27 August 2025, 12:00 UTC. *)
Definition sampleWednesday : Js.Date := Js.mkDate 1756296000000.

(* ===================================================================== *)
(** * Facts about the runtime *)
(* ===================================================================== *)

Example trim_sample :
  Js.trim "  no sugar " = "no sugar"
  /\ Js.trim (String "009" (String "226" (String "128" (String "131" "")))) = "".
Proof. split; reflexivity. Qed.

(** 31 August 2025, noon UTC, was a Sunday. *)
Example date_sample :
  Js.toISOString sampleSunday = "2025-08-31T12:00:00.000Z"
  /\ Js.getDay 0 sampleSunday = 0 /\ Js.getDate 0 sampleSunday = 31
  /\ Js.toISOString (Js.setDate 0 0 sampleSunday 32) = "2025-09-01T12:00:00.000Z".
Proof. repeat split. Qed.

(** Half past midnight on Sunday 26 October 2025 in a zone two hours east
    of UTC that sets its clocks back one hour later that night: the next
    day is built at the new offset, one hour east of UTC. *)
Example date_sample_clock_change :
  Js.toISOString (Js.mkDate 1761431400000) = "2025-10-25T22:30:00.000Z"
  /\ Js.getDay 7200000 (Js.mkDate 1761431400000) = 0
  /\ Js.getDate 7200000 (Js.mkDate 1761431400000) = 26
  /\ Js.toISOString (Js.setDate 7200000 3600000 (Js.mkDate 1761431400000) 27)
     = "2025-10-26T23:30:00.000Z"
  /\ Js.getDay 3600000 (Js.setDate 7200000 3600000 (Js.mkDate 1761431400000) 27) = 1.
Proof. repeat split. Qed.

Lemma afterWhiteSpace_split s r :
  Js.afterWhiteSpace s = Some r ->
  exists w, s = w ++ r /\ Js.isWhiteSpace w = true /\ (String.length r < String.length s)%nat.
Proof.
  unfold Js.isWhiteSpace.
  destruct s as [|c1 [|c2 [|c3 s3]]]; cbn; [discriminate| | |];
    (destruct (Js.whiteSpace1 (nat_of_ascii c1)) eqn:H1;
     [intros [= <-]; exists (String c1 ""); cbn; rewrite H1;
      repeat split; cbn; lia|]);
    try discriminate;
    (destruct (Js.whiteSpace2 (nat_of_ascii c1) (nat_of_ascii c2)) eqn:H2;
     [intros [= <-]; exists (String c1 (String c2 "")); cbn; rewrite H1, H2;
      repeat split; cbn; lia|]);
    try discriminate.
  destruct (Js.whiteSpace3 _ _ _) eqn:H3; [|discriminate].
  intros [= <-]. exists (String c1 (String c2 (String c3 ""))). cbn.
  rewrite H1, H2, H3. repeat split; cbn; lia.
Qed.

Lemma afterWhiteSpace_app p p' w :
  Js.afterWhiteSpace p = Some p' -> Js.afterWhiteSpace (p ++ w) = Some (p' ++ w).
Proof.
  destruct p as [|c1 [|c2 [|c3 s3]]]; cbn; try discriminate.
  - destruct (Js.whiteSpace1 (nat_of_ascii c1)); [|discriminate]. now intros [= <-].
  - destruct (Js.whiteSpace1 (nat_of_ascii c1)); [now intros [= <-]|].
    destruct (Js.whiteSpace2 _ _); [|discriminate]. now intros [= <-].
  - destruct (Js.whiteSpace1 (nat_of_ascii c1)); [now intros [= <-]|].
    destruct (Js.whiteSpace2 _ _); [now intros [= <-]|].
    destruct (Js.whiteSpace3 _ _ _); [|discriminate]. now intros [= <-].
Qed.

Lemma trimStart_step s :
  Js.trimStart s
  = match Js.afterWhiteSpace s with Some r => Js.trimStart r | None => s end.
Proof.
  destruct s as [|c1 [|c2 [|c3 s3]]]; cbn; try reflexivity.
  - now destruct (Js.whiteSpace1 _).
  - destruct (Js.whiteSpace1 _); [reflexivity|]. now destruct (Js.whiteSpace2 _ _).
  - destruct (Js.whiteSpace1 _); [reflexivity|].
    destruct (Js.whiteSpace2 _ _); [reflexivity|]. now destruct (Js.whiteSpace3 _ _ _).
Qed.

Lemma onlyWhiteSpace_step s :
  onlyWhiteSpace s
  = match s with
    | EmptyString => true
    | _ => match Js.afterWhiteSpace s with Some r => onlyWhiteSpace r | None => false end
    end.
Proof.
  destruct s as [|c1 [|c2 [|c3 s3]]]; cbn; try reflexivity.
  - now destruct (Js.whiteSpace1 _).
  - destruct (Js.whiteSpace1 _); [reflexivity|]. now destruct (Js.whiteSpace2 _ _).
  - destruct (Js.whiteSpace1 _); [reflexivity|].
    destruct (Js.whiteSpace2 _ _); [reflexivity|]. now destruct (Js.whiteSpace3 _ _ _).
Qed.

Lemma isWhiteSpace_only w : Js.isWhiteSpace w = true -> onlyWhiteSpace w = true.
Proof.
  unfold Js.isWhiteSpace. intros H. rewrite onlyWhiteSpace_step.
  destruct w as [|c w]; [reflexivity|].
  destruct (Js.afterWhiteSpace (String c w)) as [[|c' r]|]; try discriminate.
  reflexivity.
Qed.

Lemma isWhiteSpace_after w r :
  Js.isWhiteSpace w = true -> Js.afterWhiteSpace (w ++ r) = Some r.
Proof.
  unfold Js.isWhiteSpace. intros H.
  destruct (Js.afterWhiteSpace w) as [[|c' p]|] eqn:Hw; try discriminate.
  now rewrite (afterWhiteSpace_app _ _ r Hw).
Qed.

(** Induction on the length of the text. *)
Lemma string_length_ind (P : string -> Prop) :
  (forall s, (forall r, (String.length r < String.length s)%nat -> P r) -> P s) ->
  forall s, P s.
Proof.
  intros H s.
  assert (forall n r, (String.length r < n)%nat -> P r) as Hn.
  { induction n as [|n IH]; intros r Hr; [lia|].
    apply H. intros r' Hr'. apply IH. lia. }
  apply (Hn (S (String.length s))). lia.
Qed.

Lemma onlyWhiteSpace_app l r :
  onlyWhiteSpace l = true -> onlyWhiteSpace r = true -> onlyWhiteSpace (l ++ r) = true.
Proof.
  revert l. induction l as [l IH] using string_length_ind. intros Hl Hr.
  rewrite onlyWhiteSpace_step in Hl.
  destruct l as [|c l]; [exact Hr|].
  destruct (Js.afterWhiteSpace (String c l)) as [p|] eqn:Hp; [|discriminate].
  destruct (afterWhiteSpace_split _ _ Hp) as (w & _ & _ & Hlen).
  rewrite onlyWhiteSpace_step, (afterWhiteSpace_app _ _ r Hp). cbn [append].
  now apply IH.
Qed.

Lemma trimStart_split s :
  exists l, s = l ++ Js.trimStart s /\ onlyWhiteSpace l = true
            /\ startsWithWhiteSpace (Js.trimStart s) = false.
Proof.
  induction s as [s IH] using string_length_ind.
  rewrite trimStart_step. unfold startsWithWhiteSpace.
  destruct (Js.afterWhiteSpace s) as [r|] eqn:Hr.
  - destruct (afterWhiteSpace_split _ _ Hr) as (w & -> & Hw & Hlen).
    destruct (IH r Hlen) as (l & Hl & Hws & Hstart).
    exists (w ++ l). split; [|split].
    + rewrite Hl at 1. clear. induction w as [|c w IHw]; cbn; [reflexivity | now f_equal].
    + apply onlyWhiteSpace_app; [now apply isWhiteSpace_only | exact Hws].
    + exact Hstart.
  - exists "". rewrite Hr. auto.
Qed.

Lemma trimEnd_split s :
  exists r, s = Js.trimEnd s ++ r /\ onlyWhiteSpace r = true
            /\ endsWithWhiteSpace (Js.trimEnd s) = false.
Proof.
  induction s as [|c s IH]; [exists ""; auto|].
  destruct IH as (r & Hs & Hr & Hend).
  cbn [Js.trimEnd]. cbv zeta.
  destruct (Js.isWhiteSpace (String c (Js.trimEnd s))) eqn:Hw.
  - exists (String c (Js.trimEnd s) ++ r). split; [cbn; now rewrite <- Hs|].
    split; [|reflexivity].
    apply onlyWhiteSpace_app; [now apply isWhiteSpace_only | exact Hr].
  - exists r. split; [cbn; now rewrite <- Hs|]. split; [exact Hr|].
    cbn [endsWithWhiteSpace]. now rewrite Hw, Hend.
Qed.

Lemma trimEnd_empty s : Js.trimEnd s = "" -> onlyWhiteSpace s = true.
Proof.
  intros H. destruct (trimEnd_split s) as (r & Hs & Hr & _).
  rewrite H in Hs. cbn in Hs. now subst.
Qed.

Lemma trimStart_onlyWhiteSpace s : onlyWhiteSpace s = true -> Js.trimStart s = "".
Proof.
  induction s as [s IH] using string_length_ind. intros Hs.
  rewrite onlyWhiteSpace_step in Hs. rewrite trimStart_step.
  destruct s as [|c s]; [reflexivity|].
  destruct (Js.afterWhiteSpace (String c s)) as [r|] eqn:Hr; [|discriminate].
  destruct (afterWhiteSpace_split _ _ Hr) as (w & _ & _ & Hlen).
  now apply IH.
Qed.

(** [trim] yields the empty string exactly on white space. *)
Lemma trim_empty_iff s : Js.trim s = "" <-> onlyWhiteSpace s = true.
Proof.
  unfold Js.trim. split; intros H.
  - destruct (trimStart_split s) as (l & Hs & Hl & _).
    rewrite Hs. apply onlyWhiteSpace_app; [exact Hl | now apply trimEnd_empty].
  - now rewrite trimStart_onlyWhiteSpace.
Qed.

Lemma trimEnd_starts s :
  startsWithWhiteSpace s = false -> startsWithWhiteSpace (Js.trimEnd s) = false.
Proof.
  unfold startsWithWhiteSpace. intros Hs.
  destruct (trimEnd_split s) as (r & Heq & _ & _).
  destruct (Js.afterWhiteSpace (Js.trimEnd s)) as [p|] eqn:Hp; [|reflexivity].
  rewrite Heq, (afterWhiteSpace_app _ _ r Hp) in Hs. discriminate.
Qed.

(** Otherwise it is the text between the white space of the two ends. *)
Lemma trim_TrimmedOf s : Js.trim s <> "" -> TrimmedOf s (Js.trim s).
Proof.
  unfold Js.trim. intros Hne.
  destruct (trimStart_split s) as (l & Hs & Hl & Hfirst).
  destruct (trimEnd_split (Js.trimStart s)) as (r & Ht & Hr & Hlast).
  exists l, r. repeat split; auto.
  - now rewrite <- Ht.
  - now apply trimEnd_starts.
Qed.

Lemma truthyString_false s : Js.truthyString s = false <-> s = "".
Proof. destruct s; simpl; split; congruence. Qed.

Lemma truthyNumber_false d : Js.truthyNumber d = false <-> d = 0.
Proof.
  unfold Js.truthyNumber. destruct (Z.eqb_spec d 0); simpl; split; congruence.
Qed.

Lemma truthyString_true s : Js.truthyString s = true <-> s <> "".
Proof. destruct s; simpl; split; congruence. Qed.

(* ===================================================================== *)
(** * The two releases run the same logic *)
(* ===================================================================== *)

Lemma apiCall_agree env props A :
  @V1_0_0.apiCall env props A = @V1_1_0.apiCall env props A.
Proof. reflexivity. Qed.

Lemma fetchCurrentChallenge_agree env props :
  V1_0_0.fetchCurrentChallenge env props = V1_1_0.fetchCurrentChallenge env props.
Proof. reflexivity. Qed.

Lemma createChallenge_agree env props :
  V1_0_0.createChallenge env props = V1_1_0.createChallenge env props.
Proof. reflexivity. Qed.

Lemma updateDayEntry_agree env props :
  V1_0_0.updateDayEntry env props = V1_1_0.updateDayEntry env props.
Proof. reflexivity. Qed.

Lemma openEditDay_agree props : V1_0_0.openEditDay props = V1_1_0.openEditDay props.
Proof. reflexivity. Qed.

(** The grids differ in class names only: the same boxes open the same
    days. *)
Lemma dayGrid_targets_agree props k :
  option_map box_openEditDay (nth_error (V1_0_0.dayGrid props) k)
  = option_map box_openEditDay (nth_error (V1_1_0.dayGrid props) k).
Proof.
  unfold V1_0_0.dayGrid, V1_1_0.dayGrid, V1_0_0.dayNames, V1_1_0.dayNames,
    Js.mapIndexed.
  do 8 (destruct k as [|k]; [reflexivity|]); simpl.
  now destruct k.
Qed.

Lemma dispatch_agree env props ev :
  V1_0_0.dispatch env props ev = V1_1_0.dispatch env props ev.
Proof.
  unfold V1_0_0.dispatch, V1_1_0.dispatch.
  change (V1_1_0.loggedIn props) with (V1_0_0.loggedIn props).
  destruct (negb (V1_0_0.loggedIn props)); [destruct ev; reflexivity|].
  destruct ev; try reflexivity.
  unfold V1_0_0.mainContent, V1_1_0.mainContent.
  destruct (currentChallenge props); [|reflexivity].
  pose proof (dayGrid_targets_agree props k) as H.
  destruct (nth_error (V1_0_0.dayGrid props) k),
           (nth_error (V1_1_0.dayGrid props) k); simpl in H; try congruence.
  injection H as ->. reflexivity.
Qed.

(* ===================================================================== *)
(** * Requests of the handlers *)
(* ===================================================================== *)

(** The requests of [fetchCurrentChallenge] carry no body. *)
Lemma fetchCurrentChallenge_no_body env props responses s :
  Forall (fun r => body r = NoBody)
    (requestsOf (V1_1_0.fetchCurrentChallenge env props responses s)).
Proof.
  destruct responses as [[e|st ed|[c|]] [e'|st' ed'|entries]];
    cbv [V1_1_0.fetchCurrentChallenge V1_1_0.apiCall tryCatch bind emit throw ret set
         requestsOf currentResponse daysResponse noOptions init_body init_method snd fst app];
    repeat constructor.
Qed.

Lemma updateDayEntry_requests env props dayIndex put refetch s current :
  currentChallenge props = Some current ->
  exists rest,
    requestsOf (V1_1_0.updateDayEntry env props dayIndex put refetch s)
    = putRequestOf env props current dayIndex :: rest
    /\ Forall (fun r => body r = NoBody) rest.
Proof.
  intros Hc. unfold V1_1_0.updateDayEntry. rewrite Hc.
  destruct put as [e|st ed|entry].
  - exists []. split; [reflexivity | constructor].
  - exists []. split; [reflexivity | constructor].
  - exists (requestsOf (V1_1_0.fetchCurrentChallenge env props refetch (withLoading true s))).
    split; [| apply fetchCurrentChallenge_no_body].
    cbv [V1_1_0.apiCall tryCatchFinally tryFinally tryCatch bind emit throw ret set spawn
         requestsOf putRequestOf init_body init_method isFormData negb snd fst].
    destruct (V1_1_0.fetchCurrentChallenge env props refetch (withLoading true s))
      as [[c s1] rs1].
    simpl. now rewrite !app_nil_r.
Qed.

Lemma updateDayEntry_no_challenge env props dayIndex put refetch s :
  currentChallenge props = None ->
  V1_1_0.updateDayEntry env props dayIndex put refetch s = (Normal tt, s, []).
Proof. intros H. unfold V1_1_0.updateDayEntry. now rewrite H. Qed.

Lemma updateDayEntryOf_eq v : updateDayEntryOf v = V1_1_0.updateDayEntry.
Proof. destruct v; reflexivity. Qed.

(** The day-upsert requests of [updateDayEntry]: none without a current
    challenge, otherwise the PUT and nothing else. *)
Lemma updateDayEntry_upserts env props dayIndex put refetch s r :
  In r (requestsOf (V1_1_0.updateDayEntry env props dayIndex put refetch s)) ->
  isDayUpsert r = true ->
  exists current,
    currentChallenge props = Some current /\ r = putRequestOf env props current dayIndex.
Proof.
  intros Hin Hup.
  destruct (currentChallenge props) as [current|] eqn:Hc.
  - exists current. split; [reflexivity|].
    destruct (updateDayEntry_requests env props dayIndex put refetch s current Hc)
      as (rest & Heq & Hrest).
    rewrite Heq in Hin. destruct Hin as [<-|Hin]; [reflexivity|].
    rewrite Forall_forall in Hrest. specialize (Hrest r Hin).
    unfold isDayUpsert in Hup. rewrite Hrest in Hup. discriminate.
  - rewrite updateDayEntry_no_challenge in Hin by assumption. destruct Hin.
Qed.

(** C9. For every note text of the edit dialog, the day-upsert request of
    [updateDayEntry] carries [null] as its note when the text is empty or
    white space only, and otherwise the text without the white space at
    its ends; it never carries the empty string.  With a current challenge
    there is such a request. *)
Theorem upsert_note_null_or_trimmed (v : Release) env props dayIndex put refetch s :
  let sent := requestsOf (updateDayEntryOf v env props dayIndex put refetch s) in
  (forall current, currentChallenge props = Some current ->
     exists r, In r sent /\ isDayUpsert r = true)
  /\ (forall r, In r sent -> isDayUpsert r = true ->
        upsertNote r <> Some ""
        /\ (onlyWhiteSpace (editNote props) = true -> upsertNote r = None)
        /\ (onlyWhiteSpace (editNote props) = false ->
              upsertNote r = Some (Js.trim (editNote props))
              /\ TrimmedOf (editNote props) (Js.trim (editNote props)))).
Proof.
  rewrite updateDayEntryOf_eq. cbv zeta. split.
  - intros current Hc.
    destruct (updateDayEntry_requests env props dayIndex put refetch s current Hc)
      as (rest & Heq & _).
    rewrite Heq. exists (putRequestOf env props current dayIndex).
    split; [now left | reflexivity].
  - intros r Hin Hup.
    destruct (updateDayEntry_upserts _ _ _ _ _ _ _ Hin Hup) as (current & _ & ->).
    unfold upsertNote, putRequestOf. cbn [body].
    destruct (Js.truthyString (Js.trim (editNote props))) eqn:Ht.
    + apply truthyString_true in Ht.
      split; [intros [= E]; congruence|].
      split.
      * intros Hws. apply trim_empty_iff in Hws. congruence.
      * intros _. split; [reflexivity | now apply trim_TrimmedOf].
    + apply truthyString_false in Ht.
      split; [discriminate|].
      split; [reflexivity|].
      intros Hws. apply trim_empty_iff in Ht. congruence.
Qed.

(** Witness of C9: the sample note "  so so " is sent as "so so". *)
Lemma upsert_note_null_or_trimmed_witness :
  exists r,
    In r (requestsOf (V1_1_0.updateDayEntry None sampleState 2
                        (FetchRejects NotAnError) sampleResponses sampleState))
    /\ isDayUpsert r = true /\ upsertNote r = Some "so so".
Proof.
  destruct (upsert_note_null_or_trimmed v1_1_0 None sampleState 2
              (FetchRejects NotAnError) sampleResponses sampleState) as [Hex Hall].
  destruct (Hex sampleChallenge eq_refl) as (r & Hin & Hup).
  exists r. split; [exact Hin|]. split; [exact Hup|].
  destruct (Hall r Hin Hup) as (_ & _ & Htrim).
  exact (proj1 (Htrim eq_refl)).
Defined.

(* ===================================================================== *)
(** * The week start sent by [createChallenge] *)
(* ===================================================================== *)

Lemma Day_MakeDate day t : Js.Day (Js.MakeDate day (Js.TimeWithinDay t)) = day.
Proof.
  unfold Js.Day, Js.MakeDate, Js.TimeWithinDay, Js.msPerDay.
  pose proof (Z.mod_pos_bound t 86400000 ltac:(lia)) as Hb.
  rewrite Z.add_comm, Z.div_add by lia.
  rewrite Z.div_small by lia. lia.
Qed.

(** [setDate] moves the local calendar day by whole days: the date sent is
    the local day of [now], minus its week day (Sunday = 0), plus one. *)
Lemma localDay_mondayOf tza tzaSet now :
  localDay tzaSet (mondayOf tza tzaSet now) = localDay tza now - Js.getDay tza now + 1.
Proof.
  unfold localDay, mondayOf, Js.setDate, Js.copyDate, Js.getDate, Js.getDay,
    Js.LocalTime, Js.UTC, Js.MakeDayInMonthOf. cbn [Js.timeValue].
  replace (_ - tzaSet + tzaSet) with
    (Js.MakeDate
       (Js.Day (Js.timeValue now + tza) - Js.DateFromTime (Js.timeValue now + tza) + 1
        + (Js.DateFromTime (Js.timeValue now + tza) - Js.WeekDay (Js.timeValue now + tza) + 1)
        - 1)
       (Js.TimeWithinDay (Js.timeValue now + tza))) by lia.
  rewrite Day_MakeDate. lia.
Qed.

(** Monday to Saturday, that is the Monday of the ISO week of [now]. *)
Lemma mondayOf_weekdays tza tzaSet now :
  Js.getDay tza now <> 0 ->
  localDay tzaSet (mondayOf tza tzaSet now) = isoWeekMonday (localDay tza now).
Proof.
  intros Hd. rewrite localDay_mondayOf.
  unfold isoWeekMonday, Js.getDay, Js.WeekDay, localDay in *.
  set (d := Js.Day _) in *. clearbody d.
  pose proof (Z.mod_pos_bound (d + 4) 7 ltac:(lia)).
  pose proof (Z.mod_pos_bound (d + 3) 7 ltac:(lia)).
  pose proof (Z.div_mod (d + 4) 7 ltac:(lia)).
  pose proof (Z.div_mod (d + 3) 7 ltac:(lia)).
  lia.
Qed.

(** On a Sunday it is the day after: the Monday of the next ISO week. *)
Lemma mondayOf_sunday tza tzaSet now :
  Js.getDay tza now = 0 ->
  localDay tzaSet (mondayOf tza tzaSet now) = isoWeekMonday (localDay tza now) + 7.
Proof.
  intros Hd. rewrite localDay_mondayOf.
  unfold isoWeekMonday, Js.getDay, Js.WeekDay, localDay in *.
  set (d := Js.Day _) in *. clearbody d.
  pose proof (Z.mod_pos_bound (d + 4) 7 ltac:(lia)).
  pose proof (Z.mod_pos_bound (d + 3) 7 ltac:(lia)).
  pose proof (Z.div_mod (d + 4) 7 ltac:(lia)).
  pose proof (Z.div_mod (d + 3) 7 ltac:(lia)).
  lia.
Qed.

Lemma fetchChallenges_no_body env props listResponse s :
  Forall (fun r => body r = NoBody)
    (requestsOf (V1_1_0.fetchChallenges env props listResponse s)).
Proof.
  destruct listResponse as [e|st ed|l];
    cbv [V1_1_0.fetchChallenges V1_1_0.apiCall tryCatch bind emit throw ret set
         requestsOf noOptions init_body init_method snd fst app];
    repeat constructor.
Qed.

Lemma createChallengeOf_eq v : createChallengeOf v = V1_1_0.createChallenge.
Proof. destruct v; reflexivity. Qed.

(** With a title that is not blank, [createChallenge] first POSTs the
    title and the ISO string of [mondayOf]; what follows are body-less
    GETs. *)
Lemma createChallenge_requests env props tza tzaSet now post refetch lst s :
  Js.truthyString (Js.trim (newChallengeTitle props)) = true ->
  exists r rest,
    requestsOf (V1_1_0.createChallenge env props tza tzaSet now post refetch lst s) = r :: rest
    /\ method r = Some "POST"
    /\ url r = V1_1_0.API_BASE env ++ "/challenges"
    /\ body r = ChallengeJson (newChallengeTitle props) (Js.toISOString (mondayOf tza tzaSet now))
    /\ Forall (fun r' => body r' = NoBody) rest.
Proof.
  intros Ht. unfold V1_1_0.createChallenge. rewrite Ht. cbn [negb].
  fold (mondayOf tza tzaSet now).
  destruct post as [e|st ed|c].
  - eexists _, []. repeat split; constructor.
  - eexists _, []. repeat split; constructor.
  - pose proof (fetchCurrentChallenge_no_body env props refetch
                  (withShowNewChallenge false (withNewChallengeTitle "" (withLoading true s))))
      as H1.
    cbv [V1_1_0.apiCall tryCatchFinally tryFinally tryCatch bind emit throw ret set spawn
         requestsOf init_body init_method isFormData negb snd fst] in *.
    destruct (V1_1_0.fetchCurrentChallenge env props refetch _) as [[c1 s1] rs1].
    pose proof (fetchChallenges_no_body env props lst s1) as H2.
    cbv [requestsOf snd] in H2.
    destruct (V1_1_0.fetchChallenges env props lst s1) as [[c2 s2] rs2].
    cbn in *. eexists _, _. split; [reflexivity|].
    repeat split. rewrite !app_nil_r. apply Forall_app. split; assumption.
Qed.

(** C3. The week start [createChallenge] sends is the ISO string of
    [mondayOf], and on a Sunday that date is the day after, the Monday of
    the next ISO week, seven days after the Monday of the ISO week that
    contains the request date. *)
Theorem week_start_on_sunday (v : Release) env props tza tzaSet now post refetch lst s :
  Js.truthyString (Js.trim (newChallengeTitle props)) = true ->
  Js.getDay tza now = 0 ->
  exists r rest,
    requestsOf (createChallengeOf v env props tza tzaSet now post refetch lst s) = r :: rest
    /\ challengeWeekStart r = Some (Js.toISOString (mondayOf tza tzaSet now))
    /\ localDay tzaSet (mondayOf tza tzaSet now) = localDay tza now + 1
    /\ localDay tzaSet (mondayOf tza tzaSet now) = isoWeekMonday (localDay tza now) + 7.
Proof.
  intros Ht Hd. rewrite createChallengeOf_eq.
  destruct (createChallenge_requests env props tza tzaSet now post refetch lst s Ht)
    as (r & rest & Heq & _ & _ & Hbody & _).
  exists r, rest. split; [exact Heq|].
  split; [unfold challengeWeekStart; now rewrite Hbody|].
  split; [rewrite localDay_mondayOf; lia | now apply mondayOf_sunday].
Qed.

(** Witness of C3: submitted on Sunday 31 August 2025 at 12:00 UTC, the
    week start sent is Monday 1 September; the ISO week of that Sunday
    began on Monday 25 August (day 20325). *)
Lemma week_start_on_sunday_witness :
  exists r rest,
    requestsOf (V1_1_0.createChallenge None sampleNewChallenge 0 0 sampleSunday
                  (FetchRejects NotAnError) sampleResponses (ResponseOk [])
                  sampleNewChallenge) = r :: rest
    /\ challengeWeekStart r = Some "2025-09-01T12:00:00.000Z"
    /\ localDay 0 (mondayOf 0 0 sampleSunday) = 20332
    /\ isoWeekMonday (localDay 0 sampleSunday) = 20325.
Proof.
  destruct (week_start_on_sunday v1_1_0 None sampleNewChallenge 0 0 sampleSunday
              (FetchRejects NotAnError) sampleResponses (ResponseOk [])
              sampleNewChallenge eq_refl eq_refl)
    as (r & rest & Heq & Hweek & Hnext & Hiso).
  exists r, rest. split; [exact Heq|]. split; [exact Hweek|].
  split; [exact Hnext | reflexivity].
Defined.

(* ===================================================================== *)
(** * [createChallenge] with no title *)
(* ===================================================================== *)

(** C5. createChallenge with an empty title fails with a ValidationError,
    which is what the caller gets back, and no Challenge is created: the
    store, and with it every user's list of challenges and current
    challenge, is as before.  The empty title is the only one refused: with
    any other title the call returns the new Challenge, which is then in
    the store.  The client, for its part, never makes that call: with the
    title field empty its handler returns before sending anything. *)
Theorem createChallenge_empty_title_rejected user week clock store :
  Backend.createChallenge user "" week clock store = (inl Backend.ValidationError, store)
  /\ (forall u,
        Backend.listChallenges u (snd (Backend.createChallenge user "" week clock store))
        = Backend.listChallenges u store
        /\ Backend.getCurrentChallenge u
             (snd (Backend.createChallenge user "" week clock store))
           = Backend.getCurrentChallenge u store)
  /\ (forall title,
        fst (Backend.createChallenge user title week clock store)
        = inl Backend.ValidationError <-> title = "")
  /\ (forall title, title <> "" ->
        exists row,
          fst (Backend.createChallenge user title week clock store) = inr row
          /\ Backend.row_title row = title /\ Backend.row_user row = user
          /\ In row (snd (Backend.createChallenge user title week clock store)))
  /\ (forall (v : Release) env props tza tzaSet now post refetch lst s,
        newChallengeTitle props = "" ->
        createChallengeOf v env props tza tzaSet now post refetch lst s = (Normal tt, s, [])).
Proof.
  split; [reflexivity|].
  split; [intros u; split; reflexivity|].
  split; [intros [|c t]; cbn; split; intros H; try reflexivity; discriminate|].
  split.
  - intros [|c t] Hne; [congruence|]. eexists. cbn.
    split; [reflexivity|]. split; [reflexivity|]. split; [reflexivity | now left].
  - intros v env props tza tzaSet now post refetch lst s Hempty.
    rewrite createChallengeOf_eq. unfold V1_1_0.createChallenge. now rewrite Hempty.
Qed.

Lemma createChallenge_empty_title_rejected_witness :
  let store := snd (Backend.createChallenge 7 "No sugar" "2025-08-25" 100 []) in
  Backend.createChallenge 7 "" "2025-09-01" 200 store = (inl Backend.ValidationError, store)
  /\ List.length (Backend.listChallenges 7
                    (snd (Backend.createChallenge 7 "" "2025-09-01" 200 store))) = 1%nat.
Proof.
  cbv zeta.
  destruct (createChallenge_empty_title_rejected 7 "2025-09-01" 200
              (snd (Backend.createChallenge 7 "No sugar" "2025-08-25" 100 [])))
    as (Hfail & Hsame & _).
  split; [exact Hfail|]. rewrite (proj1 (Hsame 7)). reflexivity.
Defined.

(* ===================================================================== *)
(** * A failed fetch of the current challenge *)
(* ===================================================================== *)

Lemma fetchCurrentChallengeOf_eq v : fetchCurrentChallengeOf v = V1_1_0.fetchCurrentChallenge.
Proof. destruct v; reflexivity. Qed.

Lemma fetchCurrentChallenge_fails env props responses s :
  fetchFails responses ->
  exists rs,
    V1_1_0.fetchCurrentChallenge env props responses s
    = (Normal tt, withDailyEntries [] (withCurrentChallenge None s), rs).
Proof.
  destruct s.
  destruct responses as [[e|st ed|[c|]] [e'|st' ed'|entries]]; cbn;
    intros H; try destruct H; eexists; reflexivity.
Qed.

(** C6. When the fetch of the current challenge fails, with a 404 as with
    any other failure, [fetchCurrentChallenge] completes normally, sets
    the current challenge to none and the entries to empty, and writes
    nothing else: the error message is as before.  For a signed-in user
    the next render is the previous one with the "No active challenge"
    view as its main content, error toast unchanged. *)
Theorem fetch_failure_is_no_active_challenge (v : Release) env props responses s :
  fetchFails responses ->
  let r := fetchCurrentChallengeOf v env props responses s in
  fst (fst r) = Normal tt
  /\ currentChallenge (finalState r) = None
  /\ dailyEntries (finalState r) = []
  /\ finalState r = withDailyEntries [] (withCurrentChallenge None s)
  /\ error (finalState r) = error s
  /\ (forall main version edit new history toast,
        renderOf v s = AppScreen main version edit new history toast ->
        renderOf v (finalState r)
        = AppScreen (NoActiveChallengeView "No active challenge") version edit new
            history toast).
Proof.
  intros Hf. rewrite fetchCurrentChallengeOf_eq.
  destruct (fetchCurrentChallenge_fails env props responses s Hf) as (rs & ->).
  cbv zeta. cbn [fst snd finalState].
  repeat split.
  intros main version edit new history toast.
  destruct v; cbv [renderOf V1_0_0.render V1_1_0.render V1_0_0.loggedIn V1_1_0.loggedIn];
    destruct s as [tok ? ? ? ? ? ? ? ? ? ? ? ? ? ? ? ? ?]; cbn;
    destruct (Js.truthyOpt Js.truthyString tok); cbn; intros [=]; subst; reflexivity.
Qed.

(** Witness of C6: the server answers 404 "No active challenge". *)
Lemma fetch_failure_is_no_active_challenge_witness :
  let responses :=
    mkCurrentResponses (ResponseNotOk 404 (Some (Some (JsonString "No active challenge"))))
      (ResponseOk []) in
  let r := V1_1_0.fetchCurrentChallenge None sampleState responses sampleState in
  currentChallenge (finalState r) = None
  /\ dailyEntries (finalState r) = []
  /\ error (finalState r) = ""
  /\ exists version edit new history,
       V1_1_0.render (finalState r)
       = AppScreen (NoActiveChallengeView "No active challenge") version edit new history None.
Proof.
  cbv zeta.
  destruct (fetch_failure_is_no_active_challenge v1_1_0 None sampleState
              (mkCurrentResponses (ResponseNotOk 404 (Some (Some (JsonString "No active challenge"))))
                 (ResponseOk []))
              sampleState I) as (_ & Hc & He & _ & Herr & Hview).
  split; [exact Hc|]. split; [exact He|]. split; [exact Herr|].
  eexists _, _, _, _. eapply Hview. reflexivity.
Defined.

(* ===================================================================== *)
(** * Looking up the entry of a day *)
(* ===================================================================== *)

Lemma find_FirstEntryFor dayIndex entries e :
  find (fun e' => day_index e' =? dayIndex) entries = Some e
  <-> FirstEntryFor dayIndex entries e.
Proof.
  split.
  - induction entries as [|x l IH]; simpl; [discriminate|].
    destruct (day_index x =? dayIndex) eqn:Hx.
    + intros [= ->]. exists [], l. repeat split; [now apply Z.eqb_eq | constructor].
    + intros Hf. destruct (IH Hf) as (before & after & -> & Hd & Hb).
      exists (x :: before), after. repeat split; auto.
      constructor; [now apply Z.eqb_neq | exact Hb].
  - intros (before & after & -> & Hd & Hb).
    induction Hb as [|x l Hx _ IH]; simpl.
    + apply Z.eqb_eq in Hd. now rewrite Hd.
    + apply Z.eqb_neq in Hx. now rewrite Hx.
Qed.

Lemma find_no_entry dayIndex entries :
  find (fun e' => day_index e' =? dayIndex) entries = None
  <-> (forall e, In e entries -> day_index e <> dayIndex).
Proof.
  split.
  - intros Hf e Hin. apply (find_none _ _ Hf) in Hin. now apply Z.eqb_neq.
  - intros H. destruct (find _ entries) as [e|] eqn:Hf; [|reflexivity].
    apply find_some in Hf as [Hin He]. apply Z.eqb_eq in He.
    now destruct (H e Hin).
Qed.

(** Some entry of the day exists exactly when a first one does, and with
    one entry per day (the natural key of the data model) it is that one. *)
Lemma FirstEntryFor_exists dayIndex entries e :
  In e entries -> day_index e = dayIndex ->
  exists e0, FirstEntryFor dayIndex entries e0
             /\ ((forall e', In e' entries -> day_index e' = dayIndex -> e' = e) -> e0 = e).
Proof.
  intros Hin Hd.
  destruct (find (fun e' => day_index e' =? dayIndex) entries) as [e0|] eqn:Hf.
  - exists e0. split; [now apply find_FirstEntryFor|].
    intros Huniq. apply find_some in Hf as [Hin0 He0]. apply Z.eqb_eq in He0. auto.
  - rewrite find_no_entry in Hf. now destruct (Hf e Hin).
Qed.

(* ===================================================================== *)
(** * Opening the edit dialog *)
(* ===================================================================== *)

Lemma openEditDayOf_eq v : openEditDayOf v = V1_1_0.openEditDay.
Proof. destruct v; reflexivity. Qed.

(** C7. [openEditDay] opens the dialog on the day asked for.  When the
    entries hold one for that day, the form takes its values: its
    completed flag, its difficulty (1 when the entry has none) and its
    note (empty when the entry has none).  When they hold none, the form
    starts as not completed, difficulty 1, empty note. *)
Theorem openEditDay_preloads (v : Release) props dayIndex s :
  let s' := finalState (openEditDayOf v props dayIndex s) in
  showEditDay s' = Some dayIndex
  /\ (forall e, FirstEntryFor dayIndex (dailyEntries props) e ->
        editCompleted s' = completed e
        /\ (forall d, difficulty e = Some d -> d <> 0 -> editDifficulty s' = d)
        /\ (difficulty e = None \/ difficulty e = Some 0 -> editDifficulty s' = 1)
        /\ (forall n, note e = Some n -> editNote s' = n)
        /\ (note e = None -> editNote s' = ""))
  /\ ((forall e, In e (dailyEntries props) -> day_index e <> dayIndex) ->
        editCompleted s' = false /\ editDifficulty s' = 1 /\ editNote s' = "").
Proof.
  rewrite openEditDayOf_eq. cbv zeta. unfold V1_1_0.openEditDay.
  destruct (find _ (dailyEntries props)) as [e0|] eqn:Hf.
  - split; [reflexivity|]. split.
    + intros e He. apply find_FirstEntryFor in He.
      rewrite Hf in He. injection He as ->. cbn.
      split; [reflexivity|]. split; [|split; [|split]].
      * intros d -> Hd. cbn. apply Z.eqb_neq in Hd.
        unfold Js.truthyNumber. now rewrite Hd.
      * intros [-> | ->]; reflexivity.
      * intros n ->. cbn. now destruct n.
      * now intros ->.
    + intros Hnone. apply find_no_entry in Hnone. congruence.
  - split; [reflexivity|]. split.
    + intros e He. apply find_FirstEntryFor in He. congruence.
    + intros _. repeat split.
Qed.

(** Witness of C7: the Monday entry (done, difficulty 3, note "tough") is
    loaded into the form. *)
Lemma openEditDay_preloads_witness :
  let s' := finalState (V1_1_0.openEditDay sampleState 0 sampleState) in
  showEditDay s' = Some 0 /\ editCompleted s' = true /\ editDifficulty s' = 3
  /\ editNote s' = "tough".
Proof.
  cbv zeta.
  destruct (openEditDay_preloads v1_1_0 sampleState 0 sampleState) as (Hshow & Hsome & _).
  assert (FirstEntryFor 0 (dailyEntries sampleState) mondayEntry) as Hfirst.
  { exists [], [fridayEntry]. repeat split. constructor. }
  destruct (Hsome mondayEntry Hfirst) as (Hc & Hd & _ & Hn & _).
  split; [exact Hshow|]. split; [exact Hc|].
  split; [apply (Hd 3 eq_refl); discriminate | exact (Hn "tough" eq_refl)].
Defined.

(* ===================================================================== *)
(** * The seven-day grid *)
(* ===================================================================== *)

Lemma dayGridOf_unfold v props :
  dayGridOf v props
  = Js.mapIndexed
      (fun day index =>
         dayBoxOf v day index
           (find (fun e => day_index e =? Z.of_nat index) (dailyEntries props)))
      ["Mon"; "Tue"; "Wed"; "Thu"; "Fri"; "Sat"; "Sun"].
Proof. destruct v; reflexivity. Qed.

Lemma dayBoxOf_key_label v day index entry :
  box_key (dayBoxOf v day index entry) = index
  /\ box_label (dayBoxOf v day index entry) = day
  /\ box_openEditDay (dayBoxOf v day index entry) = Z.of_nat index.
Proof. destruct v; repeat split. Qed.

(** What a box shows of the entry it is drawn from. *)
Lemma dayBoxOf_shows v day index entry :
  let box := dayBoxOf v day index entry in
  (entry = None -> (exists cls, box_icon box = XIcon cls) /\ box_noteIcon box = None)
  /\ (forall e, entry = Some e ->
        (completed e = true -> exists cls, box_icon box = CheckIcon cls)
        /\ (completed e = false -> forall d, difficulty e = Some d -> d <> 0 ->
              exists cls,
                box_icon box = EmojiDiv cls (V1_1_0.at_ V1_1_0.difficultyEmojis d))
        /\ (completed e = false -> difficulty e = None \/ difficulty e = Some 0 ->
              exists cls, box_icon box = XIcon cls)
        /\ (box_noteIcon box <> None <-> exists n, note e = Some n /\ n <> "")
        /\ (box_className box <> box_className (dayBoxOf v day index None)
              <-> completed e = true)).
Proof.
  cbv zeta. split.
  - intros ->. destruct v; (split; [eexists; reflexivity | reflexivity]).
  - intros e ->.
    assert (forall d, d <> 0 -> Js.truthyNumber d = true) as Htruthy
      by (intros d Hd; unfold Js.truthyNumber; destruct (Z.eqb_spec d 0); [contradiction | reflexivity]).
    split; [|split; [|split; [|split]]].
    + intros Hc. destruct v; cbn; rewrite Hc; eexists; reflexivity.
    + intros Hc d Hd Hne.
      destruct v; cbn -[V1_0_0.at_ V1_1_0.at_]; rewrite Hc, Hd, (Htruthy d Hne);
        eexists; reflexivity.
    + intros Hc [Hd | Hd]; destruct v; cbn; rewrite Hc, Hd; eexists; reflexivity.
    + assert (box_noteIcon (dayBoxOf v day index (Some e))
              = if Js.truthyOpt Js.truthyString (note e)
                then Some "text-gray-400 mt-1" else None) as ->
        by (destruct v; reflexivity).
      destruct (note e) as [[|c n]|]; cbn; split.
      * intros H. exfalso. apply H. reflexivity.
      * intros (n0 & Hn & Hne). injection Hn as <-. congruence.
      * intros _. eexists. split; [reflexivity | discriminate].
      * intros _. discriminate.
      * intros H. exfalso. apply H. reflexivity.
      * intros (n0 & Hn & _). discriminate Hn.
    + destruct v; cbn; destruct (completed e); cbn; split; intros H;
        first [reflexivity | discriminate H | discriminate
              | exfalso; apply H; reflexivity].
Qed.

(** C4. The grid has exactly seven slots, keyed 0 to 6 in that order and
    labelled Mon to Sun; the button of slot [i] opens day [i]; and slot
    [i] is drawn from the entry of the list whose day index is [i] when
    there is one (the first, should the list hold several), from no entry
    otherwise.  Of its entry the slot shows: a check mark and its own
    border when the entry is completed; otherwise the emoji of the
    entry's difficulty, or a cross when the difficulty is unset or 0;
    and a note icon exactly when the entry has a non-empty note.  The
    five levels 1 to 5 have five different emojis. *)
Theorem dayGrid_seven_slots (v : Release) props :
  List.length (dayGridOf v props) = 7%nat
  /\ map box_key (dayGridOf v props) = [0; 1; 2; 3; 4; 5; 6]%nat
  /\ map box_label (dayGridOf v props) = ["Mon"; "Tue"; "Wed"; "Thu"; "Fri"; "Sat"; "Sun"]
  /\ map box_openEditDay (dayGridOf v props) = [0; 1; 2; 3; 4; 5; 6]
  /\ (forall i, (i < 7)%nat ->
       exists day entry,
         nth_error (dayNamesOf v) i = Some day
         /\ nth_error (dayGridOf v props) i = Some (dayBoxOf v day i entry)
         /\ (forall e, FirstEntryFor (Z.of_nat i) (dailyEntries props) e -> entry = Some e)
         /\ (forall e, In e (dailyEntries props) -> day_index e = Z.of_nat i ->
               (forall e', In e' (dailyEntries props) -> day_index e' = Z.of_nat i -> e' = e) ->
               entry = Some e)
         /\ ((forall e, In e (dailyEntries props) -> day_index e <> Z.of_nat i) ->
               entry = None))
  /\ (forall i box, nth_error (dayGridOf v props) i = Some box ->
       ((forall e, In e (dailyEntries props) -> day_index e <> Z.of_nat i) ->
          (exists cls, box_icon box = XIcon cls) /\ box_noteIcon box = None)
       /\ (forall e, FirstEntryFor (Z.of_nat i) (dailyEntries props) e ->
            (completed e = true -> exists cls, box_icon box = CheckIcon cls)
            /\ (completed e = false -> forall d, difficulty e = Some d -> d <> 0 ->
                  exists cls,
                    box_icon box = EmojiDiv cls (V1_1_0.at_ V1_1_0.difficultyEmojis d))
            /\ (completed e = false -> difficulty e = None \/ difficulty e = Some 0 ->
                  exists cls, box_icon box = XIcon cls)
            /\ (box_noteIcon box <> None <-> exists n, note e = Some n /\ n <> "")
            /\ (forall box0, nth_error (dayGridOf v (withDailyEntries [] props)) i = Some box0 ->
                  (box_className box <> box_className box0 <-> completed e = true))))
  /\ (forall d d', 1 <= d <= 5 -> 1 <= d' <= 5 ->
       V1_1_0.at_ V1_1_0.difficultyEmojis d = V1_1_0.at_ V1_1_0.difficultyEmojis d' ->
       d = d').
Proof.
  assert (forall i, (i < 7)%nat ->
            nth_error (dayNamesOf v) i
            = Some (nth i ["Mon"; "Tue"; "Wed"; "Thu"; "Fri"; "Sat"; "Sun"] "")) as Hnames
    by (intros i Hi; do 7 (destruct i as [|i]; [destruct v; reflexivity|]); lia).
  assert (forall entries i, (i < 7)%nat ->
            nth_error (dayGridOf v (withDailyEntries entries props)) i
            = Some (dayBoxOf v (nth i ["Mon"; "Tue"; "Wed"; "Thu"; "Fri"; "Sat"; "Sun"] "") i
                      (find (fun e => day_index e =? Z.of_nat i) entries))) as Hbox.
  { intros entries i Hi. rewrite dayGridOf_unfold.
    replace (dailyEntries (withDailyEntries entries props)) with entries
      by (destruct props; reflexivity).
    do 7 (destruct i as [|i]; [reflexivity|]). lia. }
  assert (withDailyEntries (dailyEntries props) props = props) as Hsame
    by (destruct props; reflexivity).
  assert (forall i box, nth_error (dayGridOf v props) i = Some box -> (i < 7)%nat) as Hlt.
  { intros i box H.
    assert (nth_error (dayGridOf v props) i <> None) as Hsome by congruence.
    apply nth_error_Some in Hsome. rewrite dayGridOf_unfold in Hsome. exact Hsome. }
  rewrite dayGridOf_unfold.
  split; [reflexivity|].
  split; [destruct v; reflexivity|].
  split; [destruct v; reflexivity|].
  split; [destruct v; reflexivity|].
  rewrite <- dayGridOf_unfold.
  split; [|split].
  - intros i Hi.
    exists (nth i ["Mon"; "Tue"; "Wed"; "Thu"; "Fri"; "Sat"; "Sun"] ""),
           (find (fun e => day_index e =? Z.of_nat i) (dailyEntries props)).
    split; [exact (Hnames i Hi)|].
    split; [rewrite <- Hsame at 1; exact (Hbox _ i Hi)|].
    split; [|split].
    + intros e He. now apply find_FirstEntryFor.
    + intros e Hin Hd Huniq.
      destruct (FirstEntryFor_exists _ _ _ Hin Hd) as (e0 & Hfirst & Heq).
      rewrite (Heq Huniq) in Hfirst. now apply find_FirstEntryFor.
    + intros Hnone. now apply find_no_entry.
  - intros i box Hnth. pose proof (Hlt i box Hnth) as Hi.
    rewrite <- Hsame in Hnth. rewrite (Hbox _ i Hi) in Hnth. injection Hnth as <-.
    set (day := nth i ["Mon"; "Tue"; "Wed"; "Thu"; "Fri"; "Sat"; "Sun"] "").
    split.
    + intros Hnone. rewrite (proj2 (find_no_entry _ _) Hnone).
      exact (proj1 (dayBoxOf_shows v day i None) eq_refl).
    + intros e Hfirst. rewrite (proj2 (find_FirstEntryFor _ _ _) Hfirst).
      destruct (proj2 (dayBoxOf_shows v day i (Some e)) e eq_refl)
        as (Hcheck & Hemoji & Hcross & Hnote & Hclass).
      split; [exact Hcheck|]. split; [exact Hemoji|]. split; [exact Hcross|].
      split; [exact Hnote|].
      intros box0 Hnth0. rewrite (Hbox [] i Hi) in Hnth0. injection Hnth0 as <-.
      exact Hclass.
  - intros d d' Hd Hd' Heq.
    assert (d = 1 \/ d = 2 \/ d = 3 \/ d = 4 \/ d = 5) as Hcase by lia.
    assert (d' = 1 \/ d' = 2 \/ d' = 3 \/ d' = 4 \/ d' = 5) as Hcase' by lia.
    destruct Hcase as [-> | [-> | [-> | [-> | ->]]]];
      destruct Hcase' as [-> | [-> | [-> | [-> | ->]]]];
      try reflexivity; discriminate Heq.
Qed.

(** Witness of C4: in the sample week, slot 4 is drawn from the Friday
    entry and slot 2 from no entry; slot 0, of the completed Monday
    entry with its note, shows the check mark and the note icon. *)
Lemma dayGrid_seven_slots_witness :
  nth_error (dayGridOf v1_1_0 sampleState) 4 = Some (dayBoxOf v1_1_0 "Fri" 4 (Some fridayEntry))
  /\ nth_error (dayGridOf v1_1_0 sampleState) 2 = Some (dayBoxOf v1_1_0 "Wed" 2 None)
  /\ (forall box, nth_error (dayGridOf v1_1_0 sampleState) 0 = Some box ->
        (exists cls, box_icon box = CheckIcon cls) /\ box_noteIcon box <> None).
Proof.
  destruct (dayGrid_seven_slots v1_1_0 sampleState) as (_ & _ & _ & _ & Hslot & Hshows & _).
  split; [|split].
  - destruct (Hslot 4%nat ltac:(lia)) as (day & entry & Hday & Hbox & Hfirst & _).
    injection Hday as <-.
    assert (FirstEntryFor 4 (dailyEntries sampleState) fridayEntry) as Hf.
    { exists [mondayEntry], []. repeat split. repeat constructor. discriminate. }
    rewrite (Hfirst fridayEntry Hf) in Hbox. exact Hbox.
  - destruct (Hslot 2%nat ltac:(lia)) as (day & entry & Hday & Hbox & _ & _ & Hnone).
    injection Hday as <-.
    assert (forall e, In e (dailyEntries sampleState) -> day_index e <> 2) as Hn.
    { intros e [<-|[<-|[]]]; discriminate. }
    rewrite (Hnone Hn) in Hbox. exact Hbox.
  - intros box Hnth.
    assert (FirstEntryFor 0 (dailyEntries sampleState) mondayEntry) as Hf.
    { exists [], [fridayEntry]. repeat split. constructor. }
    destruct (proj2 (Hshows 0%nat box Hnth) mondayEntry Hf) as (Hcheck & _ & _ & Hnote & _).
    split; [exact (Hcheck eq_refl)|].
    apply Hnote. exists "tough". split; [reflexivity | discriminate].
Defined.

(** C1, as stated, fails: the Friday entry exists and is marked not
    completed, yet its box is the box of a day without entry, and the
    whole grid is the grid of the week without that entry, in both
    releases. *)
Lemma grid_conflates_no_entry_with_incomplete :
  completed fridayEntry = false
  /\ V1_0_0.dayBox "Fri" 4 (Some fridayEntry) = V1_0_0.dayBox "Fri" 4 None
  /\ V1_1_0.dayBox "Fri" 4 (Some fridayEntry) = V1_1_0.dayBox "Fri" 4 None
  /\ V1_0_0.dayGrid (withDailyEntries [mondayEntry; fridayEntry] sampleState)
     = V1_0_0.dayGrid (withDailyEntries [mondayEntry] sampleState)
  /\ V1_1_0.dayGrid (withDailyEntries [mondayEntry; fridayEntry] sampleState)
     = V1_1_0.dayGrid (withDailyEntries [mondayEntry] sampleState).
Proof. repeat split. Qed.

(** C1, amended. The box of a day with an entry is the box of a day
    without entry exactly when the entry is not completed, has no (or a
    zero) difficulty and no (or an empty) note; an entry that is
    completed, rated or annotated is drawn differently from an empty
    day. *)
Theorem empty_day_drawn_as_blank_entry (v : Release) day index e :
  dayBoxOf v day index (Some e) = dayBoxOf v day index None
  <-> completed e = false
      /\ (difficulty e = None \/ difficulty e = Some 0)
      /\ (note e = None \/ note e = Some "").
Proof.
  destruct e as [eid cid di comp diff nt cr].
  assert (forall d, Js.truthyNumber d = false -> Some d = Some 0) as Hzero
    by (intros d Hd; apply truthyNumber_false in Hd; congruence).
  destruct v;
    unfold dayBoxOf, V1_0_0.dayBox, V1_1_0.dayBox,
      V1_0_0.entryCompleted, V1_0_0.entryDifficulty, V1_0_0.entryNote,
      V1_1_0.entryCompleted, V1_1_0.entryDifficulty, V1_1_0.entryNote;
    cbn [completed difficulty note Js.truthyOpt];
    (destruct comp; [split; [intros [=] | intros ([=] & _)]|]);
    (destruct diff as [d|]; [destruct (Js.truthyNumber d) eqn:Ht|]);
    (destruct nt as [[|c n]|]; cbn [Js.truthyString]);
    (split;
     [ intros [=]; repeat split; auto
     | intros (_ & [Hd1|Hd1] & [Hn1|Hn1]); try discriminate; try reflexivity;
       try (injection Hd1 as ->; discriminate) ]).
Qed.

(** Witness of C1: the Monday entry, completed, is not drawn as an empty
    day; the Friday entry, blank, is. *)
Lemma empty_day_drawn_as_blank_entry_witness :
  V1_1_0.dayBox "Mon" 0 (Some mondayEntry) <> V1_1_0.dayBox "Mon" 0 None
  /\ V1_1_0.dayBox "Fri" 4 (Some fridayEntry) = V1_1_0.dayBox "Fri" 4 None.
Proof.
  split.
  - intros H.
    apply (proj1 (empty_day_drawn_as_blank_entry v1_1_0 "Mon" 0%nat mondayEntry)) in H.
    destruct H as [H _]. discriminate H.
  - apply (proj2 (empty_day_drawn_as_blank_entry v1_1_0 "Fri" 4%nat fridayEntry)).
    repeat split; left; reflexivity.
Defined.

(* ===================================================================== *)
(** * The difficulty the client sends *)
(* ===================================================================== *)

Section Levels.

(** A property of difficulties that the five buttons have. *)
Variable Q : Z -> Prop.
Hypothesis Q_levels : Q 1 /\ Q 2 /\ Q 3 /\ Q 4 /\ Q 5.

Lemma no_body_upsertWithin rs :
  Forall (fun r => body r = NoBody) rs -> Forall (upsertWithin Q) rs.
Proof.
  intros H. eapply Forall_impl; [|exact H].
  intros r Hr Hup. unfold isDayUpsert in Hup. rewrite Hr in Hup. discriminate.
Qed.

Lemma fetchCurrentChallenge_effect env props responses s :
  exists cc de,
    finalState (V1_1_0.fetchCurrentChallenge env props responses s)
    = withDailyEntries de (withCurrentChallenge cc s)
    /\ (de = [] \/ daysResponse responses = ResponseOk de).
Proof.
  destruct s.
  destruct responses as [[e|st ed|[c|]] [e'|st' ed'|entries]]; cbn;
    eexists _, _; (split; [reflexivity|]); auto.
Qed.

Lemma fetchCurrentChallenge_invariant env props responses s :
  FormInvariant Q s -> daysWithin Q responses ->
  FormInvariant Q (finalState (V1_1_0.fetchCurrentChallenge env props responses s)).
Proof.
  intros [Hd He] Hm.
  destruct (fetchCurrentChallenge_effect env props responses s) as (cc & de & -> & Hde).
  split; [exact Hd|]. cbn.
  destruct Hde as [->|Hok]; [constructor|].
  unfold daysWithin in Hm. now rewrite Hok in Hm.
Qed.

Lemma fetchChallenges_effect env props listResponse s :
  finalState (V1_1_0.fetchChallenges env props listResponse s) = s
  \/ exists l, finalState (V1_1_0.fetchChallenges env props listResponse s)
               = withChallenges l s.
Proof.
  destruct listResponse as [e|st ed|l]; cbn; [left..|right]; try reflexivity.
  now exists l.
Qed.

Lemma fetchChallenges_invariant env props listResponse s :
  FormInvariant Q s ->
  FormInvariant Q (finalState (V1_1_0.fetchChallenges env props listResponse s)).
Proof.
  intros H. destruct (fetchChallenges_effect env props listResponse s) as [->|[l ->]];
    exact H.
Qed.

Lemma createChallenge_invariant env props tza tzaSet now post refetch lst s :
  FormInvariant Q s -> daysWithin Q refetch ->
  let r := V1_1_0.createChallenge env props tza tzaSet now post refetch lst s in
  FormInvariant Q (finalState r) /\ Forall (upsertWithin Q) (requestsOf r).
Proof.
  intros Hs Hm. cbv zeta.
  destruct (Js.truthyString (Js.trim (newChallengeTitle props))) eqn:Ht.
  - split.
    + unfold V1_1_0.createChallenge. rewrite Ht. cbn [negb].
      destruct post as [e|st ed|c];
        [destruct s; destruct Hs; split; assumption ..|].
      pose proof (fetchCurrentChallenge_invariant env props refetch
                    (withShowNewChallenge false
                       (withNewChallengeTitle "" (withLoading true s)))) as H1.
      cbv [V1_1_0.apiCall tryCatchFinally tryFinally tryCatch bind emit throw ret set
           spawn finalState snd fst] in *.
      destruct (V1_1_0.fetchCurrentChallenge env props refetch _) as [[c1 s1] rs1].
      pose proof (fetchChallenges_invariant env props lst s1) as H2.
      cbv [finalState snd fst] in H2.
      destruct (V1_1_0.fetchChallenges env props lst s1) as [[c2 s2] rs2].
      cbn in *.
      assert (FormInvariant Q s2) as [Hd2 He2].
      { apply H2, H1; [|exact Hm]. destruct s, Hs. split; assumption. }
      destruct s2. split; assumption.
    + destruct (createChallenge_requests env props tza tzaSet now post refetch lst s Ht)
        as (r & rest & -> & _ & _ & Hbody & Hrest).
      constructor; [|now apply no_body_upsertWithin].
      intros Hup. unfold isDayUpsert in Hup. rewrite Hbody in Hup. discriminate.
  - unfold V1_1_0.createChallenge. rewrite Ht. cbn. split; [exact Hs | constructor].
Qed.

Lemma updateDayEntry_invariant env s dayIndex put refetch :
  FormInvariant Q s -> daysWithin Q refetch ->
  let r := V1_1_0.updateDayEntry env s dayIndex put refetch s in
  FormInvariant Q (finalState r) /\ Forall (upsertWithin Q) (requestsOf r).
Proof.
  intros Hs Hm. cbv zeta.
  destruct (currentChallenge s) as [current|] eqn:Hc.
  - split.
    + unfold V1_1_0.updateDayEntry. rewrite Hc.
      destruct put as [e|st ed|c];
        [destruct s; destruct Hs; split; assumption ..|].
      pose proof (fetchCurrentChallenge_invariant env s refetch (withLoading true s)) as H1.
      cbv [V1_1_0.apiCall tryCatchFinally tryFinally tryCatch bind emit throw ret set
           spawn finalState snd fst] in *.
      destruct (V1_1_0.fetchCurrentChallenge env s refetch _) as [[c1 s1] rs1].
      cbn in *.
      assert (FormInvariant Q s1) as [Hd1 He1].
      { apply H1; [|exact Hm]. destruct s, Hs. split; assumption. }
      destruct s1. split; assumption.
    + destruct (updateDayEntry_requests env s dayIndex put refetch s current Hc)
        as (rest & -> & Hrest).
      constructor; [|now apply no_body_upsertWithin].
      intros _. exists (editDifficulty s). split; [reflexivity | apply Hs].
  - rewrite updateDayEntry_no_challenge by assumption. split; [exact Hs | constructor].
Qed.

Lemma openEditDay_invariant s dayIndex :
  FormInvariant Q s -> FormInvariant Q (finalState (V1_1_0.openEditDay s dayIndex s)).
Proof.
  intros [Hd He]. unfold V1_1_0.openEditDay.
  destruct (find _ (dailyEntries s)) as [e|] eqn:Hf.
  - apply find_some in Hf as [Hin _].
    rewrite Forall_forall in He. pose proof (He e Hin) as Hmodel.
    split; [|destruct s; cbn in *; now apply Forall_forall].
    unfold entryWithin in Hmodel. cbn.
    destruct (difficulty e) as [d|]; cbn; [|apply Q_levels].
    destruct (Js.truthyNumber d); [exact Hmodel | apply Q_levels].
  - split; [cbn; apply Q_levels | destruct s; exact He].
Qed.

Lemma openEditDay_no_request props dayIndex s :
  requestsOf (V1_1_0.openEditDay props dayIndex s) = [].
Proof.
  unfold V1_1_0.openEditDay. now destruct (find _ (dailyEntries props)).
Qed.

Lemma handleAuth_invariant env s registerResponse tokenResponse :
  FormInvariant Q s ->
  let r := V1_1_0.handleAuth env s registerResponse tokenResponse s in
  FormInvariant Q (finalState r) /\ Forall (fun r' => isDayUpsert r' = false) (requestsOf r).
Proof.
  intros [Hd He]. cbv zeta. unfold V1_1_0.handleAuth.
  destruct (authMode s);
    [destruct tokenResponse as [e|st ed|t] | destruct registerResponse as [e|st ed|t]];
    cbn; (split; [destruct s; split; assumption | repeat constructor]).
Qed.

Lemma dispatchOf_eq v env s ev : dispatchOf v env s ev = V1_1_0.dispatch env s ev.
Proof. destruct v; [apply dispatch_agree | reflexivity]. Qed.

Ltac plain_setter Hs :=
  cbn; split; [destruct Hs; split; assumption | constructor].

(** One event keeps the invariant, and the requests it sends carry a
    difficulty in range. *)
Lemma step_invariant v env s ev s' rs :
  step (dispatchOf v env) s ev = Some (s', rs) ->
  eventWithin Q ev -> FormInvariant Q s ->
  FormInvariant Q s' /\ Forall (upsertWithin Q) rs.
Proof.
  unfold step. rewrite dispatchOf_eq.
  destruct (V1_1_0.dispatch env s ev) as [h|] eqn:Hdisp; [|discriminate].
  intros [= <- <-] Hev Hs.
  unfold V1_1_0.dispatch in Hdisp.
  destruct (negb (V1_1_0.loggedIn s)).
  - destruct ev; try discriminate Hdisp.
    + injection Hdisp as <-. plain_setter Hs.
    + injection Hdisp as <-. plain_setter Hs.
    + injection Hdisp as <-. plain_setter Hs.
    + destruct (_ && _); [|discriminate]. injection Hdisp as <-.
      destruct (handleAuth_invariant env s registerResponse tokenResponse Hs) as [H1 H2].
      split; [exact H1|].
      eapply Forall_impl; [|exact H2]. intros r Hr Hup. congruence.
    + injection Hdisp as <-. plain_setter Hs.
  - destruct ev; try discriminate Hdisp.
    + (* log out *)
      injection Hdisp as <-. cbn. split; [|constructor].
      destruct Hs. split; [assumption | constructor].
    + (* a day box *)
      destruct (V1_1_0.mainContent s) as [t w grid|]; [|discriminate].
      destruct (nth_error grid k) as [box|]; [|discriminate].
      injection Hdisp as <-.
      split; [now apply openEditDay_invariant|].
      rewrite openEditDay_no_request. constructor.
    + injection Hdisp as <-. plain_setter Hs.
    + injection Hdisp as <-. plain_setter Hs.
    + destruct (V1_1_0.editDialog s); [|discriminate].
      injection Hdisp as <-. plain_setter Hs.
    + (* a difficulty button: one of the five levels *)
      unfold V1_1_0.editDialog in Hdisp.
      destruct (showEditDay s); [|discriminate]. cbn [dialog_levels] in Hdisp.
      destruct Hs as [Hd He].
      do 5 (destruct k as [|k];
            [injection Hdisp as <-; cbn;
             split; [split; [cbn; apply Q_levels | destruct s; assumption]
                    | constructor]|]).
      destruct k; discriminate.
    + destruct (V1_1_0.editDialog s); [|discriminate].
      injection Hdisp as <-. plain_setter Hs.
    + destruct (V1_1_0.editDialog s); [|discriminate].
      injection Hdisp as <-. plain_setter Hs.
    + (* save *)
      destruct (showEditDay s) as [day|]; [|discriminate].
      destruct (loading s); [discriminate|]. injection Hdisp as <-.
      now apply updateDayEntry_invariant.
    + destruct (showNewChallenge s); [|discriminate].
      injection Hdisp as <-. plain_setter Hs.
    + destruct (showNewChallenge s); [|discriminate].
      injection Hdisp as <-. plain_setter Hs.
    + (* submit of the new challenge *)
      destruct (_ && _); [|discriminate]. injection Hdisp as <-.
      now apply createChallenge_invariant.
    + destruct (showHistory s); [|discriminate].
      injection Hdisp as <-. plain_setter Hs.
    + destruct (Js.truthyString (error s)); [|discriminate].
      injection Hdisp as <-. plain_setter Hs.
    + (* the effect on [token] *)
      injection Hdisp as <-.
      pose proof (fetchCurrentChallenge_invariant env s refetch s Hs Hev) as H1.
      pose proof (fetchCurrentChallenge_no_body env s refetch s) as R1.
      cbv [bind spawn finalState requestsOf snd fst] in *.
      destruct (V1_1_0.fetchCurrentChallenge env s refetch s) as [[c1 s1] rs1].
      pose proof (fetchChallenges_invariant env s listResponse s1 H1) as H2.
      pose proof (fetchChallenges_no_body env s listResponse s1) as R2.
      cbv [finalState requestsOf snd fst] in *.
      destruct (V1_1_0.fetchChallenges env s listResponse s1) as [[c2 s2] rs2].
      cbn in *. split; [exact H2|].
      apply no_body_upsertWithin, Forall_app. split; assumption.
Qed.

Lemma initialState_invariant stored : FormInvariant Q (initialState stored).
Proof. split; [cbn; apply Q_levels | constructor]. Qed.

Lemma runFrom_invariant v env evs : forall s s' log,
  runFrom (dispatchOf v env) s evs = Some (s', log) ->
  Forall (eventWithin Q) evs -> FormInvariant Q s ->
  FormInvariant Q s' /\ Forall (upsertWithin Q) log.
Proof.
  induction evs as [|ev evs IH]; intros s s' log Hrun Hevs Hs.
  - injection Hrun as <- <-. split; [exact Hs | constructor].
  - cbn in Hrun.
    destruct (step (dispatchOf v env) s ev) as [[s1 rs1]|] eqn:Hstep; [|discriminate].
    destruct (runFrom (dispatchOf v env) s1 evs) as [[s2 rs2]|] eqn:Hrest; [|discriminate].
    injection Hrun as <- <-.
    inversion Hevs as [|? ? Hev Hevs']; subst.
    destruct (step_invariant _ _ _ _ _ _ Hstep Hev Hs) as [Hs1 Hrs1].
    destruct (IH _ _ _ Hrest Hevs' Hs1) as [Hs2 Hrs2].
    split; [exact Hs2 | apply Forall_app; split; assumption].
Qed.

End Levels.

(** C8, as stated, fails: the form takes over the difficulty of an
    existing entry, whatever it is.  When the server delivers a Monday
    entry rated 9 and the user opens Monday and saves, the day-upsert
    request carries 9, in both releases. *)
Lemma upsert_repeats_server_difficulty :
  (exists s log,
     runFrom (dispatchOf v1_0_0 None) (initialState (Some "jwt")) outOfModelSession
     = Some (s, log)
     /\ map upsertDifficulty (filter isDayUpsert log) = [Some 9])
  /\ (exists s log,
        runFrom (dispatchOf v1_1_0 None) (initialState (Some "jwt")) outOfModelSession
        = Some (s, log)
        /\ map upsertDifficulty (filter isDayUpsert log) = [Some 9]
        /\ ~ (forall r, In r log -> isDayUpsert r = true ->
                exists d, upsertDifficulty r = Some d /\ 1 <= d <= 5)).
Proof.
  split.
  - eexists _, _. split; [vm_compute; reflexivity | reflexivity].
  - eexists _, _. split; [vm_compute; reflexivity|]. split; [reflexivity|].
    intros H. destruct (H _ ltac:(do 3 right; left; reflexivity) eq_refl) as (d & Hd & Hrange).
    injection Hd as <-. lia.
Qed.

(** C8, amended. Along every execution of the client from its first render, every
    day-upsert request carries a difficulty, never [null], and that
    difficulty is one of 1 to 5 or the difficulty of an entry the server
    delivered: the form's difficulty comes from nowhere else.  Fed by a
    server whose entries are within the data model, the difficulty sent
    is therefore one of 1 to 5, as is the form's difficulty in every
    state reached. *)
Theorem upsert_difficulty_in_range (v : Release) env stored evs s log :
  runFrom (dispatchOf v env) (initialState stored) evs = Some (s, log) ->
  (forall r, In r log -> isDayUpsert r = true -> upsertDifficulty r <> None)
  /\ (forall r, In r log -> isDayUpsert r = true ->
        exists d, upsertDifficulty r = Some d
                  /\ (1 <= d <= 5 \/ deliveredDifficulty evs d))
  /\ (1 <= editDifficulty s <= 5 \/ deliveredDifficulty evs (editDifficulty s))
  /\ (Forall eventWithinModel evs ->
      1 <= editDifficulty s <= 5
      /\ forall r, In r log -> isDayUpsert r = true ->
           exists d, upsertDifficulty r = Some d /\ 1 <= d <= 5).
Proof.
  intros Hrun.
  pose (fromServer := fun d : Z => 1 <= d <= 5 \/ deliveredDifficulty evs d).
  assert (fromServer 1 /\ fromServer 2 /\ fromServer 3 /\ fromServer 4 /\ fromServer 5)
    as Hserver by (unfold fromServer; repeat split; left; lia).
  assert (Forall (eventWithin fromServer) evs) as Hevs.
  { apply Forall_forall. intros ev Hin.
    assert (forall refetch,
              deliveredEntries ev
              = match daysResponse refetch with ResponseOk entries => entries | _ => [] end ->
              daysWithin fromServer refetch) as Hdays.
    { intros refetch Hdel. unfold daysWithin.
      destruct (daysResponse refetch) as [e|st ed|entries]; [exact I | exact I |].
      apply Forall_forall. intros e He. unfold entryWithin.
      destruct (difficulty e) as [d|] eqn:Hd; [|exact I].
      right. exists ev, e. rewrite Hdel. auto. }
    destruct ev; cbn; try exact I; apply Hdays; reflexivity. }
  destruct (runFrom_invariant fromServer Hserver v env evs _ _ _ Hrun Hevs
              (initialState_invariant _ Hserver stored)) as [[Hform _] Hlog].
  rewrite Forall_forall in Hlog.
  split; [|split; [|split]].
  - intros r Hin Hup. destruct (Hlog r Hin Hup) as (d & -> & _). discriminate.
  - intros r Hin Hup. exact (Hlog r Hin Hup).
  - exact Hform.
  - intros Hmodel.
    assert (difficultyInRange 1 /\ difficultyInRange 2 /\ difficultyInRange 3
            /\ difficultyInRange 4 /\ difficultyInRange 5) as Hlevels
      by (unfold difficultyInRange; lia).
    destruct (runFrom_invariant difficultyInRange Hlevels v env evs _ _ _ Hrun Hmodel
                (initialState_invariant _ Hlevels stored)) as [[Hd _] Hrange].
    split; [exact Hd|].
    intros r Hin Hup. rewrite Forall_forall in Hrange. exact (Hrange r Hin Hup).
Qed.

(** Witness of C8: the sample session sends one day-upsert, with
    difficulty 4. *)
Lemma upsert_difficulty_in_range_witness :
  exists s log,
    runFrom (dispatchOf v1_1_0 None) (initialState (Some "jwt")) sampleSession = Some (s, log)
    /\ map upsertDifficulty (filter isDayUpsert log) = [Some 4]
    /\ 1 <= editDifficulty s <= 5
    /\ (forall r, In r log -> isDayUpsert r = true ->
          exists d, upsertDifficulty r = Some d /\ 1 <= d <= 5).
Proof.
  eexists _, _. split; [vm_compute; reflexivity|].
  split; [reflexivity|].
  refine (proj2 (proj2 (proj2
            (upsert_difficulty_in_range v1_1_0 None (Some "jwt") sampleSession _ _ _))) _).
  - vm_compute. reflexivity.
  - unfold sampleSession, sampleResponses.
    repeat (constructor; cbn; unfold difficultyInRange; try lia).
Defined.

(* ===================================================================== *)
(** * One active challenge per user *)
(* ===================================================================== *)

Lemma activeCount_cons_other user r store :
  (Backend.row_user r =? user) = false ->
  Backend.activeCount user (r :: store) = Backend.activeCount user store.
Proof.
  intros H. unfold Backend.activeCount, Backend.listChallenges. cbn. now rewrite H.
Qed.

Lemma activeCount_deactivate_same user store :
  Backend.activeCount user (map (Backend.deactivate user) store) = 0%nat.
Proof.
  unfold Backend.activeCount, Backend.listChallenges.
  induction store as [|r store IH]; [reflexivity|].
  cbn [map]. unfold Backend.deactivate at 1.
  destruct (Backend.row_user r =? user) eqn:Hu; cbn [filter]; cbn [Backend.row_user Backend.row_active].
  - rewrite Hu. cbn. exact IH.
  - rewrite Hu. exact IH.
Qed.

Lemma activeCount_deactivate_other user other store :
  other <> user ->
  Backend.activeCount other (map (Backend.deactivate user) store)
  = Backend.activeCount other store.
Proof.
  intros Hne. unfold Backend.activeCount, Backend.listChallenges.
  induction store as [|r store IH]; [reflexivity|].
  cbn [map]. unfold Backend.deactivate at 1.
  destruct (Backend.row_user r =? user) eqn:Hu; cbn [filter]; cbn [Backend.row_user Backend.row_active].
  - apply Z.eqb_eq in Hu.
    assert ((Backend.row_user r =? other) = false) as -> by (apply Z.eqb_neq; congruence).
    exact IH.
  - destruct (Backend.row_user r =? other); cbn [filter];
      [destruct (Backend.row_active r); cbn [List.length]; now rewrite IH | exact IH].
Qed.

(** What a call of [createChallenge] does to the number of active
    challenges: unchanged on a validation error; on success one for the
    caller and unchanged for every other user. *)
Lemma createChallenge_activeCount caller title week clock store user :
  let after := snd (Backend.createChallenge caller title week clock store) in
  (title = "" -> after = store)
  /\ (title <> "" ->
      Backend.activeCount caller after = 1%nat
      /\ (user <> caller -> Backend.activeCount user after = Backend.activeCount user store)).
Proof.
  cbv zeta. destruct title as [|c t]; cbn [Backend.createChallenge snd].
  - split; [reflexivity | congruence].
  - split; [discriminate|]. intros _. split.
    + unfold Backend.activeCount at 1, Backend.listChallenges. cbn [filter Backend.row_user].
      rewrite Z.eqb_refl. cbn [filter Backend.row_active List.length].
      f_equal. apply activeCount_deactivate_same.
    + intros Hne. rewrite activeCount_cons_other
        by (cbn [Backend.row_user]; apply Z.eqb_neq; congruence).
      now apply activeCount_deactivate_other.
Qed.

(** C2. In every reachable store, every user has at most one active
    challenge; that holds in particular right after any [createChallenge]
    call, whoever makes it and whether it succeeds or not.  After a
    successful call the caller has exactly one, the new one. *)
Theorem at_most_one_active_challenge store :
  Backend.Reachable store ->
  (forall user, (Backend.activeCount user store <= 1)%nat)
  /\ (forall caller title week clock user,
        (Backend.activeCount user
           (snd (Backend.createChallenge caller title week clock store)) <= 1)%nat)
  /\ (forall caller title week clock row,
        fst (Backend.createChallenge caller title week clock store) = inr row ->
        Backend.getCurrentChallenge caller
          (snd (Backend.createChallenge caller title week clock store)) = inr row
        /\ Backend.row_active row = true).
Proof.
  intros Hreach.
  assert (forall st, Backend.Reachable st ->
            forall user, (Backend.activeCount user st <= 1)%nat) as Hinv.
  { clear. intros st Hst. induction Hst as [|st caller title week clock _ IH].
    - intros user. cbn. lia.
    - intros user.
      destruct (createChallenge_activeCount caller title week clock st user)
        as [Hfail Hok].
      destruct (string_dec title "") as [->|Hne]; [now rewrite Hfail|].
      destruct (Hok Hne) as [Hcaller Hother].
      destruct (Z.eq_dec user caller) as [->|Hu]; [lia|].
      rewrite (Hother Hu). apply IH. }
  split; [now apply Hinv|]. split.
  - intros caller title week clock user.
    apply Hinv. now constructor.
  - intros caller title week clock row.
    destruct title as [|c t]; cbn [Backend.createChallenge fst snd]; [discriminate|].
    intros [= <-]. split; [|reflexivity].
    unfold Backend.getCurrentChallenge, Backend.listChallenges.
    cbn [filter Backend.row_user]. rewrite Z.eqb_refl. reflexivity.
Qed.

(** Witness of C2: a second challenge for the same user leaves one active
    challenge, the newer. *)
Lemma at_most_one_active_challenge_witness :
  let first := snd (Backend.createChallenge 7 "No sugar" "2025-08-25" 100 []) in
  let second := snd (Backend.createChallenge 7 "No sugar" "2025-08-25" 200 first) in
  Backend.Reachable second
  /\ (Backend.activeCount 7 second <= 1)%nat
  /\ List.length (Backend.listChallenges 7 second) = 2%nat
  /\ exists row, Backend.getCurrentChallenge 7 second = inr row
                 /\ Backend.row_created_at row = 200.
Proof.
  cbv zeta.
  assert (Backend.Reachable
            (snd (Backend.createChallenge 7 "No sugar" "2025-08-25" 100 []))) as Hfirst
    by (repeat constructor).
  pose proof (at_most_one_active_challenge _ Hfirst) as (_ & Hafter & Hnew).
  split; [now constructor|].
  split; [apply Hafter|].
  split; [reflexivity|].
  eexists. split; [apply Hnew; reflexivity | reflexivity].
Defined.

(* ===================================================================== *)
(** * Version 1.0.0 against version 1.1.0 *)
(* ===================================================================== *)

Lemma plainBox_agree day index entry :
  plainBox (V1_0_0.dayBox day index entry) = plainBox (V1_1_0.dayBox day index entry).
Proof.
  unfold plainBox, V1_0_0.dayBox, V1_1_0.dayBox. cbn.
  change (V1_1_0.entryCompleted entry) with (V1_0_0.entryCompleted entry).
  change (V1_1_0.entryDifficulty entry) with (V1_0_0.entryDifficulty entry).
  change (V1_1_0.entryNote entry) with (V1_0_0.entryNote entry).
  destruct (V1_0_0.entryCompleted entry); [reflexivity|].
  destruct (V1_0_0.entryDifficulty entry) as [d|]; [|reflexivity].
  now destruct (Js.truthyNumber d).
Qed.

Lemma plainGrid_agree props :
  map plainBox (V1_0_0.dayGrid props) = map plainBox (V1_1_0.dayGrid props).
Proof.
  unfold V1_0_0.dayGrid, V1_1_0.dayGrid, V1_0_0.dayNames, V1_1_0.dayNames, Js.mapIndexed.
  cbn [Js.mapIndexedFrom map]. now rewrite !plainBox_agree.
Qed.

Lemma plainScreen_agree props :
  plainScreen (V1_0_0.render props) = plainScreen (V1_1_0.render props).
Proof.
  unfold V1_0_0.render, V1_1_0.render.
  change (V1_1_0.loggedIn props) with (V1_0_0.loggedIn props).
  destruct (negb (V1_0_0.loggedIn props)); [reflexivity|].
  unfold plainScreen, V1_0_0.mainContent, V1_1_0.mainContent.
  destruct (currentChallenge props); [|reflexivity].
  cbn [plainMain]. now rewrite plainGrid_agree.
Qed.

Lemma runFrom_agree env evs : forall s,
  runFrom (V1_0_0.dispatch env) s evs = runFrom (V1_1_0.dispatch env) s evs.
Proof.
  induction evs as [|ev evs IH]; intros s; [reflexivity|].
  cbn [runFrom]. unfold step. rewrite dispatch_agree.
  destruct (V1_1_0.dispatch env s ev) as [h|]; [|reflexivity].
  now rewrite IH.
Qed.

(** C10. The two releases run the same state and API logic: [apiCall] and
    each handler of one is the handler of the other, every event is
    offered by the renders of both in the same states with the same
    handler, and so every sequence of events leads both to the same state
    and the same requests.  Their renders differ in class names and in
    the version string only. *)
Theorem releases_agree_on_logic env props :
  (forall A, @V1_0_0.apiCall env props A = @V1_1_0.apiCall env props A)
  /\ V1_0_0.handleAuth env props = V1_1_0.handleAuth env props
  /\ V1_0_0.handleLogout = V1_1_0.handleLogout
  /\ V1_0_0.fetchCurrentChallenge env props = V1_1_0.fetchCurrentChallenge env props
  /\ V1_0_0.fetchChallenges env props = V1_1_0.fetchChallenges env props
  /\ V1_0_0.createChallenge env props = V1_1_0.createChallenge env props
  /\ V1_0_0.updateDayEntry env props = V1_1_0.updateDayEntry env props
  /\ V1_0_0.openEditDay props = V1_1_0.openEditDay props
  /\ (forall ev, V1_0_0.dispatch env props ev = V1_1_0.dispatch env props ev)
  /\ (forall evs,
        runFrom (V1_0_0.dispatch env) props evs = runFrom (V1_1_0.dispatch env) props evs)
  /\ plainScreen (V1_0_0.render props) = plainScreen (V1_1_0.render props)
  /\ V1_0_0.APP_VERSION <> V1_1_0.APP_VERSION.
Proof.
  split; [intros A; apply apiCall_agree|].
  split; [reflexivity|].
  split; [reflexivity|].
  split; [apply fetchCurrentChallenge_agree|].
  split; [reflexivity|].
  split; [apply createChallenge_agree|].
  split; [apply updateDayEntry_agree|].
  split; [apply openEditDay_agree|].
  split; [intros ev; apply dispatch_agree|].
  split; [intros evs; apply runFrom_agree|].
  split; [apply plainScreen_agree | discriminate].
Qed.


(* ===================================================================== *)
(** * Signing in and out *)
(* ===================================================================== *)

Lemma handleAuthOf_eq v : handleAuthOf v = V1_1_0.handleAuth.
Proof. destruct v; reflexivity. Qed.

Lemma renderOf_auth v s :
  bearerOf s = None ->
  renderOf v s
  = AuthScreen (if Js.truthyString (error s) then Some (error s) else None)
      (if loading s then "Please wait..."
       else match authMode s with login => "Log In" | register => "Register" end)
      (loading s).
Proof.
  unfold bearerOf. intros H.
  assert (Js.truthyOpt Js.truthyString (token s) = false) as Hl.
  { destruct (token s) as [t|]; [|reflexivity]. cbn.
    destruct (Js.truthyString t); [discriminate | reflexivity]. }
  destruct v; cbv [renderOf V1_0_0.render V1_1_0.render V1_0_0.loggedIn V1_1_0.loggedIn];
    rewrite Hl; reflexivity.
Qed.

(** X1. An HTTP error answer to the register or login request changes
    nothing but the error message and the loading flag, which ends false.
    The message is "Network error" when the body is not JSON; the
    [detail] of the body when that is a non-empty string; what
    [String(detail)] gives when [detail] is another truthy value
    ("[object Object]" for the list of problems a validation error
    carries); and "HTTP <status>" when there is no [detail] or a falsy
    one.  The message is empty only for a truthy [detail] that is no
    string and is shown as "" (an empty list); every other message is
    non-empty and is shown in the error box of the auth screen. *)
Theorem handleAuth_http_error_shown (v : Release) env s status errorData
    registerResponse tokenResponse :
  (authMode s = register -> registerResponse = ResponseNotOk status errorData) ->
  (authMode s = login -> tokenResponse = ResponseNotOk status errorData) ->
  let r := handleAuthOf v env s registerResponse tokenResponse s in
  exists message,
    finalState r = withLoading false (withError message s)
    /\ fst (fst r) = Normal tt
    /\ (errorData = None -> message = "Network error")
    /\ (forall detail, errorData = Some (Some (JsonString detail)) -> detail <> "" ->
        message = detail)
    /\ (forall shown, errorData = Some (Some (JsonOther true shown)) -> message = shown)
    /\ (forall detail, errorData = Some (Some detail) -> truthyJson detail = true ->
        message = showJson detail)
    /\ (errorData = Some None
        \/ (exists detail, errorData = Some (Some detail) /\ truthyJson detail = false) ->
        message = "HTTP " ++ Js.numberToString status)
    /\ (message = "" <-> errorData = Some (Some (JsonOther true "")))
    /\ (message <> "" -> bearerOf s = None ->
        exists label, renderOf v (finalState r) = AuthScreen (Some message) label false).
Proof.
  intros Hreg Hlog. rewrite handleAuthOf_eq. cbv zeta.
  pose (message :=
          match errorData with
          | None => "Network error"
          | Some detail =>
              showJson (Js.orElse truthyJson detail
                          (JsonString ("HTTP " ++ Js.numberToString status)))
          end).
  assert (finalState (V1_1_0.handleAuth env s registerResponse tokenResponse s)
          = withLoading false (withError message s)
          /\ fst (fst (V1_1_0.handleAuth env s registerResponse tokenResponse s)) = Normal tt)
    as [Hstate Hnormal].
  { unfold V1_1_0.handleAuth, message.
    destruct (authMode s) eqn:Hmode;
      [rewrite (Hlog eq_refl) | rewrite (Hreg eq_refl)];
      (destruct errorData as [detail|]; cbn; (split; [destruct s; reflexivity | reflexivity])). }
  exists message. rewrite Hstate.
  split; [reflexivity|]. split; [exact Hnormal|].
  split; [intros ->; reflexivity|].
  split; [intros detail -> Hne; destruct detail; [congruence | reflexivity]|].
  split; [intros shown ->; reflexivity|].
  split; [intros detail -> Htruthy; unfold message; cbn; rewrite Htruthy; reflexivity|].
  split.
  { intros [-> | (detail & -> & Hfalsy)]; unfold message; cbn.
    - reflexivity.
    - rewrite Hfalsy. reflexivity. }
  split.
  { unfold message. split.
    - destruct errorData as [[[[|c d]|[|] shown]|]|]; cbn; intros H;
        try discriminate H; subst; reflexivity.
    - intros ->. reflexivity. }
  intros Hne Hbearer.
  rewrite renderOf_auth by (destruct s; exact Hbearer).
  replace (error (withLoading false (withError message s))) with message
    by (destruct s; reflexivity).
  replace (loading (withLoading false (withError message s))) with false
    by (destruct s; reflexivity).
  destruct message as [|c m]; [congruence|]. cbn. eexists. reflexivity.
Qed.

Lemma handleAuth_http_error_shown_witness :
  let r := handleAuthOf v1_1_0 None (initialState None)
             (FetchRejects NotAnError)
             (ResponseNotOk 401 (Some (Some (JsonString "Incorrect email or password"))))
             (initialState None) in
  error (finalState r) = "Incorrect email or password" /\ loading (finalState r) = false.
Proof.
  cbv zeta.
  destruct (handleAuth_http_error_shown v1_1_0 None (initialState None) 401
              (Some (Some (JsonString "Incorrect email or password")))
              (FetchRejects NotAnError)
              (ResponseNotOk 401 (Some (Some (JsonString "Incorrect email or password")))))
    as (message & Hstate & _ & _ & Hdetail & _);
    [discriminate | reflexivity |].
  rewrite Hstate, (Hdetail _ eq_refl) by discriminate. split; reflexivity.
Defined.

(** X2. When the register or login request is rejected outright (the
    network fails), the attempt leaves the token, the stored token, the
    mode and the typed credentials as they were and ends with loading
    false.  The message shown is the one of the thrown [Error], or
    "Authentication failed" for a thrown value that is no [Error]; a
    thrown [Error] with an empty message leaves no visible error at all. *)
Theorem handleAuth_rejected (v : Release) env s e registerResponse tokenResponse :
  (authMode s = register -> registerResponse = FetchRejects e) ->
  (authMode s = login -> tokenResponse = FetchRejects e) ->
  let r := handleAuthOf v env s registerResponse tokenResponse s in
  fst (fst r) = Normal tt
  /\ List.length (requestsOf r) = 1%nat
  /\ finalState r
     = withLoading false
         (withError (match e with JsError m => m | NotAnError => "Authentication failed" end) s)
  /\ (e = JsError "" -> forall box label disabled,
        renderOf v (finalState r) = AuthScreen box label disabled -> box = None).
Proof.
  intros Hreg Hlog. rewrite handleAuthOf_eq. cbv zeta. unfold V1_1_0.handleAuth.
  destruct (authMode s) eqn:Hmode;
    [rewrite (Hlog eq_refl) | rewrite (Hreg eq_refl)];
    cbn; (split; [reflexivity|]); (split; [reflexivity|]);
    (split; [destruct s, e; reflexivity|]);
    intros -> box label disabled;
    destruct v; cbv [renderOf V1_0_0.render V1_1_0.render V1_0_0.loggedIn V1_1_0.loggedIn
                     V1_0_0.errorToast V1_1_0.errorToast];
    destruct s as [tok ? ? ? ? ? ? ? ? ? ? ? ? ? ? ? ? ?]; cbn;
    destruct (Js.truthyOpt Js.truthyString tok); cbn; intros [=]; subst; reflexivity.
Qed.

Lemma handleAuth_rejected_witness :
  let r := V1_1_0.handleAuth None (initialState None) (FetchRejects NotAnError)
             (FetchRejects (JsError "Failed to fetch")) (initialState None) in
  error (finalState r) = "Failed to fetch" /\ token (finalState r) = None.
Proof.
  cbv zeta.
  destruct (handleAuth_rejected v1_1_0 None (initialState None) (JsError "Failed to fetch")
              (FetchRejects NotAnError) (FetchRejects (JsError "Failed to fetch")))
    as (_ & _ & Hstate & _); [discriminate | reflexivity |].
  unfold handleAuthOf in Hstate. rewrite Hstate. split; reflexivity.
Defined.

(** X3. A successful registration does not sign the user in: it sends one
    POST to /register with the typed email and password as JSON, stores no
    token, switches the form to login, clears the password, keeps the
    email, and shows "Registration successful! Please log in." in the
    error box of the auth screen, whose submit button reads "Log In". *)
Theorem register_success_returns_to_login (v : Release) env s tokenResponse :
  authMode s = register ->
  bearerOf s = None ->
  let r := handleAuthOf v env s (ResponseOk tt) tokenResponse s in
  finalState r
  = withLoading false
      (withError "Registration successful! Please log in."
         (withPassword "" (withAuthMode login s)))
  /\ token (finalState r) = token s
  /\ localStorageToken (finalState r) = localStorageToken s
  /\ email (finalState r) = email s
  /\ requestsOf r
     = [mkRequest (apiBaseOf v env ++ "/register") (Some "POST")
          [("Content-Type", "application/json")]
          (RegisterJson (email s) (password s))]
  /\ renderOf v (finalState r)
     = AuthScreen (Some "Registration successful! Please log in.") "Log In" false.
Proof.
  intros Hmode Hbearer.
  assert (apiBaseOf v env = V1_1_0.API_BASE env) as -> by (destruct v; reflexivity).
  assert (finalState (V1_1_0.handleAuth env s (ResponseOk tt) tokenResponse s)
          = withLoading false
              (withError "Registration successful! Please log in."
                 (withPassword "" (withAuthMode login s)))) as Hstate.
  { unfold V1_1_0.handleAuth. rewrite Hmode. destruct s; reflexivity. }
  rewrite handleAuthOf_eq. cbv zeta. rewrite Hstate.
  split; [reflexivity|].
  split; [destruct s; reflexivity|].
  split; [destruct s; reflexivity|].
  split; [destruct s; reflexivity|].
  split.
  - unfold V1_1_0.handleAuth, V1_1_0.apiCall. rewrite Hmode.
    unfold bearerOf in Hbearer.
    destruct (token s) as [t|]; [destruct (Js.truthyString t); [discriminate|]|];
      reflexivity.
  - rewrite renderOf_auth; [destruct s; reflexivity|].
    unfold bearerOf in *. destruct s; exact Hbearer.
Qed.

Lemma register_success_returns_to_login_witness :
  let r := handleAuthOf v1_1_0 None sampleRegistering (ResponseOk tt)
             (FetchRejects NotAnError) sampleRegistering in
  authMode (finalState r) = login /\ password (finalState r) = ""
  /\ token (finalState r) = None
  /\ renderOf v1_1_0 (finalState r)
     = AuthScreen (Some "Registration successful! Please log in.") "Log In" false.
Proof.
  cbv zeta.
  destruct (register_success_returns_to_login v1_1_0 None sampleRegistering
              (FetchRejects NotAnError) eq_refl eq_refl)
    as (Hstate & Htoken & _ & _ & _ & Hrender).
  split; [rewrite Hstate; reflexivity|].
  split; [rewrite Hstate; reflexivity|].
  split; [exact Htoken | exact Hrender].
Defined.

(** X4. A successful login sends one POST to /token with the email and
    password as form data and without a JSON content type, clears the
    error, and puts the access token of the answer both in the [token]
    hook and in [localStorage]; with a token that is not empty the next
    render is the application screen, with an empty one it is still the
    auth screen.  An answer without an access token leaves the hook
    [undefined] and the auth screen in place, but stores the string
    "undefined", which the next load of the page takes for a token. *)
Theorem login_success_stores_token (v : Release) env s registerResponse response :
  authMode s = login ->
  bearerOf s = None ->
  let r := handleAuthOf v env s registerResponse (ResponseOk response) s in
  finalState r
  = withLoading false
      (withToken (access_token response)
         (withLocalStorageToken (Some (Js.toStringOr (access_token response)))
            (withError "" s)))
  /\ requestsOf r
     = [mkRequest (apiBaseOf v env ++ "/token") (Some "POST") []
          (LoginForm (email s) (password s))]
  /\ (forall t, access_token response = Some t ->
      token (finalState r) = Some t /\ localStorageToken (finalState r) = Some t)
  /\ (forall t, access_token response = Some t -> t <> "" ->
      exists main edit new history,
        renderOf v (finalState r)
        = AppScreen main (match v with v1_0_0 => "1.0.0" | v1_1_0 => "1.1.0" end)
            edit new history None)
  /\ (access_token response = Some "" \/ access_token response = None ->
      renderOf v (finalState r) = AuthScreen None "Log In" false)
  /\ (access_token response = None ->
      token (finalState r) = None
      /\ localStorageToken (finalState r) = Some "undefined"
      /\ exists main edit new history toast,
          renderOf v (initialState (localStorageToken (finalState r)))
          = AppScreen main (match v with v1_0_0 => "1.0.0" | v1_1_0 => "1.1.0" end)
              edit new history toast).
Proof.
  intros Hmode Hbearer.
  assert (apiBaseOf v env = V1_1_0.API_BASE env) as -> by (destruct v; reflexivity).
  assert (finalState (V1_1_0.handleAuth env s registerResponse (ResponseOk response) s)
          = withLoading false
              (withToken (access_token response)
                 (withLocalStorageToken (Some (Js.toStringOr (access_token response)))
                    (withError "" s))))
    as Hstate.
  { unfold V1_1_0.handleAuth. rewrite Hmode. destruct s; reflexivity. }
  rewrite handleAuthOf_eq. cbv zeta. rewrite Hstate.
  split; [reflexivity|]. split; [|split; [|split; [|split]]].
  - unfold V1_1_0.handleAuth, V1_1_0.apiCall. rewrite Hmode.
    unfold bearerOf in Hbearer.
    destruct (token s) as [t|]; [destruct (Js.truthyString t); [discriminate|]|];
      reflexivity.
  - intros t ->. destruct s; split; reflexivity.
  - intros t -> Hne. apply truthyString_true in Hne.
    destruct v; cbv [renderOf V1_0_0.render V1_1_0.render V1_0_0.loggedIn V1_1_0.loggedIn
                     V1_0_0.errorToast V1_1_0.errorToast V1_0_0.APP_VERSION
                     V1_1_0.APP_VERSION];
      destruct s; cbn; rewrite Hne; cbn; eexists _, _, _, _; reflexivity.
  - intros Hempty. rewrite renderOf_auth.
    + destruct s; cbn in *. rewrite Hmode. reflexivity.
    + unfold bearerOf. destruct s; cbn. destruct Hempty as [-> | ->]; reflexivity.
  - intros ->. split; [destruct s; reflexivity|]. split; [destruct s; reflexivity|].
    replace (localStorageToken
               (withLoading false
                  (withToken None
                     (withLocalStorageToken (Some (Js.toStringOr None)) (withError "" s)))))
      with (Some "undefined") by (destruct s; reflexivity).
    destruct v; eexists _, _, _, _, _; reflexivity.
Qed.

Lemma login_success_stores_token_witness :
  let r := handleAuthOf v1_1_0 None sampleSigningIn (FetchRejects NotAnError)
             (ResponseOk (mkTokenResponse (Some "jwt"))) sampleSigningIn in
  token (finalState r) = Some "jwt" /\ localStorageToken (finalState r) = Some "jwt"
  /\ requestsOf r
     = [mkRequest "http://localhost:8000/token" (Some "POST") []
          (LoginForm "a@example.com" "pw123456")].
Proof.
  cbv zeta.
  destruct (login_success_stores_token v1_1_0 None sampleSigningIn
              (FetchRejects NotAnError) (mkTokenResponse (Some "jwt")) eq_refl eq_refl)
    as (Hstate & Hreq & _).
  split; [rewrite Hstate; reflexivity|].
  split; [rewrite Hstate; reflexivity | exact Hreq].
Defined.

(** X5. Logging out, from any state, sends nothing, removes the token from
    the hook and from [localStorage], drops the current challenge, the
    entries and the history, and leaves the auth screen as the next
    render; the typed email and password and the dialogs' flags stay. *)
Theorem logout_clears_session (v : Release) s :
  let r := handleLogoutOf v s in
  fst (fst r) = Normal tt
  /\ requestsOf r = []
  /\ finalState r
     = withChallenges [] (withDailyEntries [] (withCurrentChallenge None
         (withToken None (withLocalStorageToken None s))))
  /\ bearerOf (finalState r) = None
  /\ exists box label disabled, renderOf v (finalState r) = AuthScreen box label disabled.
Proof.
  assert (handleLogoutOf v = V1_1_0.handleLogout) as -> by (destruct v; reflexivity).
  cbv zeta. split; [reflexivity|]. split; [reflexivity|].
  split; [destruct s; reflexivity|]. split; [reflexivity|].
  eexists _, _, _. apply renderOf_auth. reflexivity.
Qed.

(* ===================================================================== *)
(** * Outcomes of creating a challenge and of saving a day *)
(* ===================================================================== *)



(** X7. After a successful POST, [createChallenge] clears the title,
    closes the dialog, leaves the error message alone and ends with
    loading false.  The challenge it then shows is not the one the POST
    returned but whatever the fetch of the current challenge that follows
    delivers: its challenge and entries when both requests succeed, no
    challenge and no entries when that fetch fails.  The history is
    replaced when its fetch succeeds and kept when it fails. *)
Theorem createChallenge_success_refetches (v : Release) env props tza tzaSet now created
    refetch lst s :
  Js.truthyString (Js.trim (newChallengeTitle props)) = true ->
  let r := createChallengeOf v env props tza tzaSet now (ResponseOk created) refetch lst s in
  fst (fst r) = Normal tt
  /\ newChallengeTitle (finalState r) = ""
  /\ showNewChallenge (finalState r) = false
  /\ loading (finalState r) = false
  /\ error (finalState r) = error s
  /\ (forall c entries,
        currentResponse refetch = ResponseOk (Some c) ->
        daysResponse refetch = ResponseOk entries ->
        currentChallenge (finalState r) = Some c /\ dailyEntries (finalState r) = entries)
  /\ (fetchFails refetch ->
        currentChallenge (finalState r) = None /\ dailyEntries (finalState r) = [])
  /\ (forall l, lst = ResponseOk l -> challenges (finalState r) = l)
  /\ (notOk lst -> challenges (finalState r) = challenges s).
Proof.
  intros Ht. rewrite createChallengeOf_eq. cbv zeta.
  unfold V1_1_0.createChallenge. rewrite Ht. cbn [negb].
  destruct s.
  destruct refetch as [[e|st ed|[c|]] [e'|st' ed'|entries]];
    destruct lst as [e2|st2 ed2|l]; cbn;
    (split; [reflexivity|]); (split; [reflexivity|]); (split; [reflexivity|]);
    (split; [reflexivity|]); (split; [reflexivity|]);
    (split; [intros c0 entries0 H1 H2;
             try discriminate H1; try discriminate H2;
             injection H1 as <-; injection H2 as <-; split; reflexivity|]);
    (split; [intros H; try (destruct H); split; reflexivity|]);
    (split; [intros l0 H; try discriminate H; injection H as <-; reflexivity
            | intros H; try (destruct H); reflexivity]).
Qed.

Lemma createChallenge_success_refetches_witness :
  let r := createChallengeOf v1_1_0 None sampleNewChallenge 0 0 sampleSunday
             (ResponseOk sampleChallenge)
             (mkCurrentResponses (ResponseNotOk 500 None) (ResponseOk []))
             (ResponseOk [sampleChallenge]) sampleNewChallenge in
  currentChallenge (finalState r) = None /\ dailyEntries (finalState r) = []
  /\ challenges (finalState r) = [sampleChallenge]
  /\ showNewChallenge (finalState r) = false.
Proof.
  cbv zeta.
  destruct (createChallenge_success_refetches v1_1_0 None sampleNewChallenge 0 0
              sampleSunday sampleChallenge
              (mkCurrentResponses (ResponseNotOk 500 None) (ResponseOk []))
              (ResponseOk [sampleChallenge]) sampleNewChallenge eq_refl)
    as (_ & _ & Hshow & _ & _ & _ & Hfail & Hlist & _).
  destruct (Hfail I) as [Hc He].
  split; [exact Hc|]. split; [exact He|].
  split; [exact (Hlist _ eq_refl) | exact Hshow].
Defined.

(** X8. [updateDayEntry] without a current challenge does nothing at all.
    With one, a failed PUT fetches nothing, leaves the dialog open with
    the form as typed, and shows the failure's message: the message of
    the thrown [Error], "Failed to update day" for a thrown value that is
    no [Error], "Network error" for an error answer whose body is not
    JSON, the [detail] of the answer when it is a non-empty string, what
    [String(detail)] gives for another truthy [detail], and
    "HTTP <status>" when there is no [detail] or a falsy one.  A
    successful PUT closes the dialog, leaves the error message alone, and
    the entries shown afterwards are those of the fetch that follows, not
    the entry the PUT returned.  Either way loading ends false. *)
Theorem updateDayEntry_outcomes (v : Release) env props dayIndex put refetch s :
  let r := updateDayEntryOf v env props dayIndex put refetch s in
  (currentChallenge props = None -> r = (Normal tt, s, []))
  /\ (currentChallenge props <> None -> notOk put ->
      exists message,
        fst (fst r) = Normal tt
        /\ finalState r = withLoading false (withError message s)
        /\ List.length (requestsOf r) = 1%nat
        /\ showEditDay (finalState r) = showEditDay s
        /\ (forall m, put = FetchRejects (JsError m) -> message = m)
        /\ (put = FetchRejects NotAnError -> message = "Failed to update day")
        /\ (forall status, put = ResponseNotOk status None -> message = "Network error")
        /\ (forall status detail,
              put = ResponseNotOk status (Some (Some (JsonString detail))) ->
              detail <> "" -> message = detail)
        /\ (forall status shown,
              put = ResponseNotOk status (Some (Some (JsonOther true shown))) ->
              message = shown)
        /\ (forall status,
              put = ResponseNotOk status (Some None)
              \/ (exists detail, put = ResponseNotOk status (Some (Some detail))
                                 /\ truthyJson detail = false) ->
              message = "HTTP " ++ Js.numberToString status))
  /\ (currentChallenge props <> None -> forall saved, put = ResponseOk saved ->
      fst (fst r) = Normal tt
      /\ showEditDay (finalState r) = None
      /\ loading (finalState r) = false
      /\ error (finalState r) = error s
      /\ editNote (finalState r) = editNote s
      /\ (forall c entries,
            currentResponse refetch = ResponseOk (Some c) ->
            daysResponse refetch = ResponseOk entries ->
            currentChallenge (finalState r) = Some c
            /\ dailyEntries (finalState r) = entries)
      /\ (fetchFails refetch ->
            currentChallenge (finalState r) = None /\ dailyEntries (finalState r) = [])).
Proof.
  rewrite updateDayEntryOf_eq. cbv zeta. split; [|split].
  - intros Hc. now apply updateDayEntry_no_challenge.
  - intros Hc Hput. unfold V1_1_0.updateDayEntry.
    destruct (currentChallenge props) as [current|]; [|congruence].
    exists (match put with
            | FetchRejects (JsError m) => m
            | FetchRejects NotAnError => "Failed to update day"
            | ResponseNotOk status None => "Network error"
            | ResponseNotOk status (Some detail) =>
                showJson (Js.orElse truthyJson detail
                            (JsonString ("HTTP " ++ Js.numberToString status)))
            | ResponseOk _ => ""
            end).
    split; [destruct put as [[m|]|status [detail|]|saved]; [..|destruct Hput]; reflexivity|].
    split; [destruct put as [[m|]|status [detail|]|saved]; [..|destruct Hput];
            destruct s; reflexivity|].
    split; [destruct put as [[m|]|status [detail|]|saved]; [..|destruct Hput]; reflexivity|].
    split; [destruct put as [[m|]|status [detail|]|saved]; [..|destruct Hput];
            destruct s; reflexivity|].
    split; [intros m ->; reflexivity|].
    split; [intros ->; reflexivity|].
    split; [intros status ->; reflexivity|].
    split; [intros status detail -> Hne; destruct detail; [congruence | reflexivity]|].
    split; [intros status shown ->; reflexivity|].
    intros status [-> | (detail & -> & Hfalsy)]; [reflexivity|].
    unfold Js.orElse. rewrite Hfalsy. reflexivity.
  - intros Hc saved ->. unfold V1_1_0.updateDayEntry.
    destruct (currentChallenge props) as [current|]; [|congruence].
    destruct s.
    destruct refetch as [[e|st ed|[c|]] [e'|st' ed'|entries]]; cbn;
      (split; [reflexivity|]); (split; [reflexivity|]); (split; [reflexivity|]);
      (split; [reflexivity|]); (split; [reflexivity|]);
      (split; [intros c0 entries0 H1 H2;
               try discriminate H1; try discriminate H2;
               injection H1 as <-; injection H2 as <-; split; reflexivity
              | intros H; try (destruct H); split; reflexivity]).
Qed.

Lemma updateDayEntry_outcomes_witness :
  let r := updateDayEntryOf v1_1_0 None sampleState 2 (ResponseNotOk 422 None)
             sampleResponses sampleState in
  error (finalState r) = "Network error" /\ showEditDay (finalState r) = Some 2.
Proof.
  cbv zeta.
  destruct (updateDayEntry_outcomes v1_1_0 None sampleState 2 (ResponseNotOk 422 None)
              sampleResponses sampleState) as (_ & Hfail & _).
  destruct (Hfail ltac:(discriminate) I)
    as (message & _ & Hstate & _ & Hshow & _ & _ & Hbody & _).
  split; [rewrite Hstate, (Hbody 422 eq_refl); reflexivity | exact Hshow].
Defined.

(* ===================================================================== *)
(** * Opening a day and saving it unchanged *)
(* ===================================================================== *)

Lemma trimEnd_fixed n : endsWithWhiteSpace n = false -> Js.trimEnd n = n.
Proof.
  induction n as [|c n IH]; [reflexivity|].
  cbn [endsWithWhiteSpace Js.trimEnd]. intros H.
  apply orb_false_iff in H as [Hw Hn]. rewrite (IH Hn). cbv zeta. now rewrite Hw.
Qed.

Lemma trim_fixed n :
  startsWithWhiteSpace n = false -> endsWithWhiteSpace n = false -> Js.trim n = n.
Proof.
  intros Hf Hl. unfold Js.trim.
  assert (Js.trimStart n = n) as ->; [|now apply trimEnd_fixed].
  rewrite trimStart_step. unfold startsWithWhiteSpace in Hf.
  now destruct (Js.afterWhiteSpace n).
Qed.

(** X9. Opening the dialog on a day that has an entry and saving without
    touching the form sends one PUT to that day of the current challenge
    which repeats the entry's completed flag; its difficulty when it has
    one, but 1 when it has none, so an unrated day comes back rated 1; and
    its note, [null] for no note or a blank one, otherwise trimmed, which
    for a note already without white space at its ends is the note itself. *)
Theorem open_then_save_resends_entry (v : Release) env s dayIndex e current put refetch :
  currentChallenge s = Some current ->
  FirstEntryFor dayIndex (dailyEntries s) e ->
  let opened := finalState (openEditDayOf v s dayIndex s) in
  exists q rest d n,
    requestsOf (updateDayEntryOf v env opened dayIndex put refetch opened) = q :: rest
    /\ method q = Some "PUT"
    /\ url q = apiBaseOf v env ++ "/challenges/" ++ Js.numberToString (id current)
               ++ "/days/" ++ Js.numberToString dayIndex
    /\ body q = DayJson (completed e) (Some d) n
    /\ (forall k, difficulty e = Some k -> k <> 0 -> d = k)
    /\ (difficulty e = None -> d = 1)
    /\ (note e = None -> n = None)
    /\ (forall t, note e = Some t -> onlyWhiteSpace t = true -> n = None)
    /\ (forall t, note e = Some t -> onlyWhiteSpace t = false -> n = Some (Js.trim t))
    /\ (forall t, note e = Some t -> t <> "" ->
          startsWithWhiteSpace t = false -> endsWithWhiteSpace t = false -> n = Some t).
Proof.
  intros Hc He.
  assert (apiBaseOf v env = V1_1_0.API_BASE env) as -> by (destruct v; reflexivity).
  rewrite openEditDayOf_eq, updateDayEntryOf_eq. cbv zeta.
  apply find_FirstEntryFor in He.
  set (opened := finalState (V1_1_0.openEditDay s dayIndex s)).
  assert (currentChallenge opened = Some current
          /\ editCompleted opened = completed e
          /\ editDifficulty opened = Js.orElse Js.truthyNumber (difficulty e) 1
          /\ editNote opened = Js.orElse Js.truthyString (note e) "") as (Ho & Hcomp & Hd & Hn).
  { subst opened. unfold V1_1_0.openEditDay. rewrite He.
    destruct s; cbn in *. auto. }
  destruct (updateDayEntry_requests env opened dayIndex put refetch opened current Ho)
    as (rest & Hreq & _).
  exists (putRequestOf env opened current dayIndex), rest,
    (Js.orElse Js.truthyNumber (difficulty e) 1),
    (if Js.truthyString (Js.trim (Js.orElse Js.truthyString (note e) ""))
     then Some (Js.trim (Js.orElse Js.truthyString (note e) "")) else None).
  split; [exact Hreq|]. split; [reflexivity|]. split; [reflexivity|].
  split; [unfold putRequestOf; cbn [body]; now rewrite Hcomp, Hd, Hn|].
  split; [intros k -> Hk; cbn; unfold Js.truthyNumber;
          apply Z.eqb_neq in Hk; now rewrite Hk|].
  split; [now intros ->|].
  split; [now intros ->|].
  assert (forall t, Js.orElse Js.truthyString (Some t) "" = t) as Hor
    by (intros [|c t]; reflexivity).
  split; [|split].
  - intros t -> Hws. rewrite Hor. apply trim_empty_iff in Hws. now rewrite Hws.
  - intros t -> Hws. rewrite Hor.
    destruct (Js.truthyString (Js.trim t)) eqn:Ht; [reflexivity|].
    apply truthyString_false, trim_empty_iff in Ht. congruence.
  - intros t -> Hne Hf Hl. rewrite Hor, trim_fixed by assumption.
    apply truthyString_true in Hne. now rewrite Hne.
Qed.

(** The Friday entry of the sample week has no difficulty; opened and
    saved as it is, it is sent with difficulty 1. *)
Lemma open_then_save_resends_entry_witness :
  let opened := finalState (openEditDayOf v1_1_0 sampleState 4 sampleState) in
  exists q rest,
    requestsOf (updateDayEntryOf v1_1_0 None opened 4 (FetchRejects NotAnError)
                  sampleResponses opened) = q :: rest
    /\ url q = "http://localhost:8000/challenges/1/days/4"
    /\ body q = DayJson false (Some 1) None.
Proof.
  cbv zeta.
  assert (FirstEntryFor 4 (dailyEntries sampleState) fridayEntry) as Hfirst.
  { exists [mondayEntry], []. repeat split. repeat constructor. discriminate. }
  destruct (open_then_save_resends_entry v1_1_0 None sampleState 4 fridayEntry
              sampleChallenge (FetchRejects NotAnError) sampleResponses eq_refl Hfirst)
    as (q & rest & d & n & Hreq & _ & Hurl & Hbody & _ & Hd & Hn & _).
  exists q, rest. split; [exact Hreq|]. split; [exact Hurl|].
  rewrite Hbody, (Hd eq_refl), (Hn eq_refl). reflexivity.
Defined.

(* ===================================================================== *)
(** * The two fetches *)
(* ===================================================================== *)

(** X10. [fetchCurrentChallenge] asks for the days only after the current
    challenge has arrived: when the first request does not deliver a
    challenge it is the only request; when it does, the second request
    goes to the days of that challenge's id, and when both succeed the
    state holds that challenge and exactly the entries delivered.  Both
    are GETs without a body. *)
Theorem fetchCurrentChallenge_two_requests (v : Release) env props responses s :
  let r := fetchCurrentChallengeOf v env props responses s in
  fst (fst r) = Normal tt
  /\ ((forall c, currentResponse responses <> ResponseOk (Some c)) ->
      map (fun q => (method q, url q, body q)) (requestsOf r)
      = [(None, apiBaseOf v env ++ "/challenges/current", NoBody)])
  /\ (forall c, currentResponse responses = ResponseOk (Some c) ->
      map (fun q => (method q, url q, body q)) (requestsOf r)
      = [(None, apiBaseOf v env ++ "/challenges/current", NoBody);
         (None, apiBaseOf v env ++ "/challenges/" ++ Js.numberToString (id c) ++ "/days",
          NoBody)]
      /\ forall entries, daysResponse responses = ResponseOk entries ->
           finalState r = withDailyEntries entries (withCurrentChallenge (Some c) s)).
Proof.
  assert (apiBaseOf v env = V1_1_0.API_BASE env) as -> by (destruct v; reflexivity).
  rewrite fetchCurrentChallengeOf_eq. cbv zeta.
  destruct responses as [[e|st ed|[c|]] [e'|st' ed'|entries]];
    (split; [reflexivity|]);
    (split;
     [ intros Hno; try reflexivity; now destruct (Hno c)
     | intros c0 H; try discriminate H; injection H as <-;
       (split; [reflexivity|]);
       intros entries0 H; try discriminate H; injection H as <-;
       destruct s; reflexivity ]).
Qed.

Lemma fetchCurrentChallenge_two_requests_witness :
  let r := fetchCurrentChallengeOf v1_1_0 None sampleState sampleResponses
             (initialState (Some "jwt")) in
  map url (requestsOf r)
  = ["http://localhost:8000/challenges/current"; "http://localhost:8000/challenges/1/days"]
  /\ dailyEntries (finalState r) = [mondayEntry; fridayEntry].
Proof.
  cbv zeta.
  destruct (fetchCurrentChallenge_two_requests v1_1_0 None sampleState sampleResponses
              (initialState (Some "jwt"))) as (_ & _ & Hok).
  destruct (Hok sampleChallenge eq_refl) as [Hreq Hstate].
  split.
  - apply (f_equal (map (fun t => snd (fst t)))) in Hreq.
    rewrite map_map in Hreq. exact Hreq.
  - rewrite (Hstate _ eq_refl). reflexivity.
Defined.

Lemma fetchChallengesOf_eq v : fetchChallengesOf v = V1_1_0.fetchChallenges.
Proof. destruct v; reflexivity. Qed.

(** X11. [fetchChallenges] sends one GET to /challenges and never lets a
    failure out: on success the history is replaced by the list
    delivered, on any failure the state, history and error message
    included, is exactly as before. *)
Theorem fetchChallenges_swallows_failure (v : Release) env props lst s :
  let r := fetchChallengesOf v env props lst s in
  fst (fst r) = Normal tt
  /\ map (fun q => (method q, url q, body q)) (requestsOf r)
     = [(None, apiBaseOf v env ++ "/challenges", NoBody)]
  /\ (forall l, lst = ResponseOk l -> finalState r = withChallenges l s)
  /\ (notOk lst -> finalState r = s).
Proof.
  assert (apiBaseOf v env = V1_1_0.API_BASE env) as -> by (destruct v; reflexivity).
  rewrite fetchChallengesOf_eq. cbv zeta.
  destruct lst as [e|st ed|l]; (split; [reflexivity|]); (split; [reflexivity|]);
    (split; [intros l0 [= <-]; reflexivity | intros H; try destruct H; reflexivity]).
Qed.

Lemma fetchChallenges_swallows_failure_witness :
  let r := fetchChallengesOf v1_1_0 None sampleState (ResponseNotOk 500 None) sampleState in
  challenges (finalState r) = [sampleChallenge] /\ error (finalState r) = "".
Proof.
  cbv zeta.
  destruct (fetchChallenges_swallows_failure v1_1_0 None sampleState
              (ResponseNotOk 500 None) sampleState) as (_ & _ & _ & Hfail).
  rewrite (Hfail I). split; reflexivity.
Defined.

(* ===================================================================== *)
(** * What the client sends, and with which credential *)
(* ===================================================================== *)

Section SendsRules.

Context {A B : Type} (P : Request -> Prop).

Lemma Sends_ret (a : A) : Sends P (ret a).
Proof. intros s. constructor. Qed.

Lemma Sends_throw (e : Exn) : Sends P (@throw A e).
Proof. intros s. constructor. Qed.

Lemma Sends_set f : Sends P (set f).
Proof. intros s. constructor. Qed.

Lemma Sends_emit q : P q -> Sends P (emit q).
Proof. intros H s. repeat constructor. exact H. Qed.

Lemma Sends_bind (m : M A) (k : A -> M B) :
  Sends P m -> (forall a, Sends P (k a)) -> Sends P (bind m k).
Proof.
  intros Hm Hk s. specialize (Hm s). unfold bind, requestsOf in *.
  destruct (m s) as [[[a|e] s1] rs1]; cbn in *; [|exact Hm].
  specialize (Hk a s1). unfold requestsOf in Hk.
  destruct (k a s1) as [[c s2] rs2]; cbn in *.
  apply Forall_app. split; assumption.
Qed.

Lemma Sends_tryCatch (body : M A) (handler : Exn -> M A) :
  Sends P body -> (forall e, Sends P (handler e)) -> Sends P (tryCatch body handler).
Proof.
  intros Hm Hk s. specialize (Hm s). unfold tryCatch, requestsOf in *.
  destruct (body s) as [[[a|e] s1] rs1]; cbn in *; [exact Hm|].
  specialize (Hk e s1). unfold requestsOf in Hk.
  destruct (handler e s1) as [[c s2] rs2]; cbn in *.
  apply Forall_app. split; assumption.
Qed.

Lemma Sends_tryFinally (body : M A) (fin : M unit) :
  Sends P body -> Sends P fin -> Sends P (tryFinally body fin).
Proof.
  intros Hm Hk s. specialize (Hm s). unfold tryFinally, requestsOf in *.
  destruct (body s) as [[c s1] rs1]; cbn in *.
  specialize (Hk s1). unfold requestsOf in Hk.
  destruct (fin s1) as [[[u|e] s2] rs2]; cbn in *;
    apply Forall_app; split; assumption.
Qed.

Lemma Sends_tryCatchFinally (body : M A) (handler : Exn -> M A) (fin : M unit) :
  Sends P body -> (forall e, Sends P (handler e)) -> Sends P fin ->
  Sends P (tryCatchFinally body handler fin).
Proof.
  intros Hb Hh Hf. apply Sends_tryFinally; [now apply Sends_tryCatch | exact Hf].
Qed.

End SendsRules.

Lemma Sends_spawn P (m : M unit) : Sends P m -> Sends P (spawn m).
Proof.
  intros Hm s. specialize (Hm s). unfold spawn, requestsOf in *.
  now destruct (m s) as [[c s1] rs1].
Qed.

Lemma Sends_apiCall P env props A endpoint options (response : FetchOutcome A) :
  (forall hs,
     header "Authorization" hs = bearerOf props ->
     header "Content-Type" hs
     = (if isFormData (init_body options) then None else Some "application/json") ->
     P (mkRequest (V1_1_0.API_BASE env ++ endpoint) (init_method options) hs
          (init_body options))) ->
  Sends P (V1_1_0.apiCall env props endpoint options response).
Proof.
  intros HP. unfold V1_1_0.apiCall.
  apply Sends_bind.
  - apply Sends_emit, HP.
    + unfold bearerOf.
      destruct (token props) as [t|]; [destruct (Js.truthyString t)|];
        destruct (isFormData (init_body options)); reflexivity.
    + destruct (token props) as [t|]; [destruct (Js.truthyString t)|];
        destruct (isFormData (init_body options)); reflexivity.
  - intros _. destruct response; [apply Sends_throw .. | apply Sends_ret].
Qed.

Lemma builtBy_apiCall v env props A endpoint options (response : FetchOutcome A) :
  Sends (builtBy v env props) (V1_1_0.apiCall env props endpoint options response).
Proof.
  apply Sends_apiCall. intros hs Hauth Hct.
  assert (apiBaseOf v env = V1_1_0.API_BASE env) as Hb by (destruct v; reflexivity).
  split; [exists endpoint; cbn; now rewrite Hb|].
  split; [exact Hauth | exact Hct].
Qed.

(** Walks through a handler: the monad's combinators by their rules, a
    branch of the handler by cases. *)
Ltac sends_step rule :=
  first
    [ rule
    | apply Sends_ret | apply Sends_throw | apply Sends_set
    | apply Sends_spawn
    | apply Sends_bind; [|intros ?]
    | apply Sends_tryCatchFinally; [|intros ?|]
    | apply Sends_tryCatch; [|intros ?]
    | match goal with
      | |- Sends _ (match ?x with _ => _ end) => destruct x
      | |- Sends _ (if ?x then _ else _) => destruct x
      end ].

Ltac sends rule := repeat (sends_step rule).

Lemma handlers_builtBy v env props :
  (forall a b, Sends (builtBy v env props) (V1_1_0.handleAuth env props a b))
  /\ Sends (builtBy v env props) V1_1_0.handleLogout
  /\ (forall a, Sends (builtBy v env props) (V1_1_0.fetchCurrentChallenge env props a))
  /\ (forall a, Sends (builtBy v env props) (V1_1_0.fetchChallenges env props a))
  /\ (forall tza tzaSet now a b c,
        Sends (builtBy v env props) (V1_1_0.createChallenge env props tza tzaSet now a b c))
  /\ (forall d a b, Sends (builtBy v env props) (V1_1_0.updateDayEntry env props d a b))
  /\ (forall d, Sends (builtBy v env props) (V1_1_0.openEditDay props d)).
Proof.
  assert (forall a, Sends (builtBy v env props) (V1_1_0.fetchCurrentChallenge env props a))
    as Hcur
    by (intros a; unfold V1_1_0.fetchCurrentChallenge;
        sends ltac:(apply builtBy_apiCall)).
  assert (forall a, Sends (builtBy v env props) (V1_1_0.fetchChallenges env props a))
    as Hlist
    by (intros a; unfold V1_1_0.fetchChallenges; sends ltac:(apply builtBy_apiCall)).
  repeat split; intros;
    try apply Hcur; try apply Hlist;
    unfold V1_1_0.handleAuth, V1_1_0.handleLogout, V1_1_0.createChallenge,
      V1_1_0.updateDayEntry, V1_1_0.openEditDay;
    sends ltac:(first [apply builtBy_apiCall | apply Hcur | apply Hlist]).
Qed.

Lemma handleAuth_isAuthRequest v env props a b :
  Sends (isAuthRequest v env) (V1_1_0.handleAuth env props a b).
Proof.
  assert (apiBaseOf v env = V1_1_0.API_BASE env) as Hb by (destruct v; reflexivity).
  unfold V1_1_0.handleAuth.
  sends ltac:(apply Sends_apiCall; intros hs _ _; split; cbn; rewrite ?Hb; auto).
Qed.

Lemma loggedIn_bearerOf s : V1_1_0.loggedIn s = false <-> bearerOf s = None.
Proof.
  unfold V1_1_0.loggedIn, bearerOf.
  destruct (token s) as [t|]; cbn; [destruct (Js.truthyString t)|]; split; congruence.
Qed.

Lemma dispatch_sends v env s ev h :
  V1_1_0.dispatch env s ev = Some h ->
  Sends (builtBy v env s) h
  /\ (bearerOf s = None -> Sends (isAuthRequest v env) h).
Proof.
  destruct (handlers_builtBy v env s) as (Hauth & Hout & Hcur & Hlist & Hnew & Hput & Hopen).
  intros Hd. unfold V1_1_0.dispatch in Hd.
  destruct (V1_1_0.loggedIn s) eqn:Hl; cbn [negb] in Hd.
  - split.
    + destruct ev; try discriminate Hd;
        repeat match type of Hd with
               | match ?x with _ => _ end = Some _ => destruct x; try discriminate Hd
               | (if ?x then _ else _) = Some _ => destruct x; try discriminate Hd
               end;
        injection Hd as <-;
        sends ltac:(first [apply Hauth | apply Hout | apply Hcur | apply Hlist
                          | apply Hnew | apply Hput | apply Hopen]).
    + intros Hb. apply loggedIn_bearerOf in Hb. congruence.
  - destruct ev; try discriminate Hd;
      repeat match type of Hd with
             | (if ?x then _ else _) = Some _ => destruct x; try discriminate Hd
             end;
      injection Hd as <-;
      (split; [|intros _]);
      sends ltac:(first [apply Hauth | apply handleAuth_isAuthRequest]).
Qed.

(** X12. Whatever the event, every request it makes the client send goes
    to an address under the API base, carries as its [Authorization]
    exactly the credential of the render that handled the event ([Bearer]
    and the token, or none when there is no token), and has the JSON
    content type exactly when its body is not form data.  A render
    without a token sends nothing but POSTs to /register and /token. *)
Theorem requests_carry_render_credential (v : Release) env s ev s' rs :
  step (dispatchOf v env) s ev = Some (s', rs) ->
  Forall (builtBy v env s) rs
  /\ (bearerOf s = None -> Forall (isAuthRequest v env) rs).
Proof.
  unfold step. rewrite dispatchOf_eq.
  destruct (V1_1_0.dispatch env s ev) as [h|] eqn:Hd; [|discriminate].
  intros [= <- <-].
  destruct (dispatch_sends v env s ev h Hd) as [Hbuilt Hauth].
  split; [apply Hbuilt | intros Hb; now apply Hauth].
Qed.

Lemma requests_carry_render_credential_witness :
  Forall (fun q => authorization q = Some "Bearer jwt")
    (requestsOf (updateDayEntryOf v1_1_0 None sampleState 2 (ResponseOk fridayEntry)
                   sampleResponses sampleState)).
Proof.
  destruct (requests_carry_render_credential v1_1_0 None sampleState
              (ClickSave (ResponseOk fridayEntry) sampleResponses)
              _ _ eq_refl) as [Hbuilt _].
  eapply Forall_impl; [|exact Hbuilt].
  intros q (_ & Hauth & _). exact Hauth.
Defined.

(* ===================================================================== *)
(** * The token and its stored copy *)
(* ===================================================================== *)

Section PreservesRules.

Context {A B : Type} (I : State -> Prop).

Lemma Preserves_ret (a : A) : Preserves I (ret a).
Proof. intros s H. exact H. Qed.

Lemma Preserves_throw (e : Exn) : Preserves I (@throw A e).
Proof. intros s H. exact H. Qed.

Lemma Preserves_emit q : Preserves I (emit q).
Proof. intros s H. exact H. Qed.

Lemma Preserves_set f : (forall s, I s -> I (f s)) -> Preserves I (set f).
Proof. intros Hf s H. apply Hf, H. Qed.

Lemma Preserves_bind (m : M A) (k : A -> M B) :
  Preserves I m -> (forall a, Preserves I (k a)) -> Preserves I (bind m k).
Proof.
  intros Hm Hk s H. specialize (Hm s H). unfold bind, finalState in *.
  destruct (m s) as [[[a|e] s1] rs1]; cbn in *; [|exact Hm].
  specialize (Hk a s1 Hm). unfold finalState in Hk.
  now destruct (k a s1) as [[c s2] rs2].
Qed.

Lemma Preserves_tryCatch (body : M A) (handler : Exn -> M A) :
  Preserves I body -> (forall e, Preserves I (handler e)) ->
  Preserves I (tryCatch body handler).
Proof.
  intros Hm Hk s H. specialize (Hm s H). unfold tryCatch, finalState in *.
  destruct (body s) as [[[a|e] s1] rs1]; cbn in *; [exact Hm|].
  specialize (Hk e s1 Hm). unfold finalState in Hk.
  now destruct (handler e s1) as [[c s2] rs2].
Qed.

Lemma Preserves_tryFinally (body : M A) (fin : M unit) :
  Preserves I body -> Preserves I fin -> Preserves I (tryFinally body fin).
Proof.
  intros Hm Hk s H. specialize (Hm s H). unfold tryFinally, finalState in *.
  destruct (body s) as [[c s1] rs1]; cbn in *.
  specialize (Hk s1 Hm). unfold finalState in Hk.
  now destruct (fin s1) as [[[u|e] s2] rs2].
Qed.

Lemma Preserves_tryCatchFinally (body : M A) (handler : Exn -> M A) (fin : M unit) :
  Preserves I body -> (forall e, Preserves I (handler e)) -> Preserves I fin ->
  Preserves I (tryCatchFinally body handler fin).
Proof.
  intros Hb Hh Hf.
  apply Preserves_tryFinally; [now apply Preserves_tryCatch | exact Hf].
Qed.

End PreservesRules.

Lemma Preserves_spawn I (m : M unit) : Preserves I m -> Preserves I (spawn m).
Proof.
  intros Hm s H. specialize (Hm s H). unfold spawn, finalState in *.
  now destruct (m s) as [[c s1] rs1].
Qed.

Lemma Preserves_apiCall I env props A endpoint options (response : FetchOutcome A) :
  Preserves I (V1_1_0.apiCall env props endpoint options response).
Proof.
  unfold V1_1_0.apiCall. apply Preserves_bind; [apply Preserves_emit|].
  intros _. destruct response; [apply Preserves_throw .. | apply Preserves_ret].
Qed.

Ltac preserves_step rule :=
  first
    [ rule
    | apply Preserves_apiCall
    | apply Preserves_ret | apply Preserves_throw
    | apply Preserves_set; intros [] ?; assumption
    | apply Preserves_spawn
    | apply Preserves_bind; [|intros ?]
    | apply Preserves_tryCatchFinally; [|intros ?|]
    | apply Preserves_tryCatch; [|intros ?]
    | match goal with
      | |- Preserves _ (match ?x with _ => _ end) => destruct x
      | |- Preserves _ (if ?x then _ else _) => destruct x
      end ].

Ltac preserves rule := repeat (preserves_step rule).

(** [handleAuth] and [handleLogout] write the hook and the stored copy one
    after the other; they agree again when the handler is done, provided
    the login answer carried a token to write. *)
Lemma handleAuth_tokenInSync env props a b :
  loginCarriesToken (SubmitAuth a b) ->
  Preserves tokenInSync (V1_1_0.handleAuth env props a b).
Proof.
  intros Hb s H. unfold V1_1_0.handleAuth.
  destruct (authMode props);
    [destruct b as [e|st ed|[[t|]]] | destruct a as [e|st ed|t]];
    destruct s; unfold tokenInSync in *; cbn in *; auto; congruence.
Qed.

Lemma handleLogout_tokenInSync : Preserves tokenInSync V1_1_0.handleLogout.
Proof. intros s _. reflexivity. Qed.

Lemma dispatch_tokenInSync env s ev h :
  loginCarriesToken ev ->
  V1_1_0.dispatch env s ev = Some h -> Preserves tokenInSync h.
Proof.
  assert (forall a, Preserves tokenInSync (V1_1_0.fetchCurrentChallenge env s a)) as Hcur
    by (intros a; unfold V1_1_0.fetchCurrentChallenge; preserves fail).
  assert (forall a, Preserves tokenInSync (V1_1_0.fetchChallenges env s a)) as Hlist
    by (intros a; unfold V1_1_0.fetchChallenges; preserves fail).
  intros Hev Hd. unfold V1_1_0.dispatch in Hd.
  destruct (negb (V1_1_0.loggedIn s));
    destruct ev; try discriminate Hd;
    repeat match type of Hd with
           | match ?x with _ => _ end = Some _ => destruct x; try discriminate Hd
           | (if ?x then _ else _) = Some _ => destruct x; try discriminate Hd
           end;
    injection Hd as <-;
    unfold V1_1_0.createChallenge, V1_1_0.updateDayEntry, V1_1_0.openEditDay;
    preserves ltac:(first [apply handleAuth_tokenInSync; exact Hev
                          | apply handleLogout_tokenInSync
                          | apply Hcur | apply Hlist]).
Qed.

Lemma runFrom_tokenInSync v env evs : forall s s' log,
  Forall loginCarriesToken evs ->
  runFrom (dispatchOf v env) s evs = Some (s', log) -> tokenInSync s -> tokenInSync s'.
Proof.
  induction evs as [|ev evs IH]; intros s s' log Hevs Hrun Hs.
  - now injection Hrun as <- <-.
  - cbn in Hrun. unfold step in Hrun. rewrite dispatchOf_eq in Hrun.
    destruct (V1_1_0.dispatch env s ev) as [h|] eqn:Hd; [|discriminate].
    destruct (runFrom (dispatchOf v env) (finalState (h s)) evs) as [[s2 rs2]|] eqn:Hrest;
      [|discriminate].
    injection Hrun as <- <-.
    eapply IH; [exact (Forall_inv_tail Hevs) | exact Hrest|].
    exact (dispatch_tokenInSync env s ev h (Forall_inv Hevs) Hd s Hs).
Qed.

(** X13. From the first render on, whatever the events and the answers of
    the server, as long as every successful answer to a login carries an
    access token, the [token] hook and the token kept in [localStorage]
    agree in every state reached: a reload, which starts from the stored
    token, finds the user signed in exactly when the running client did.
    (A successful answer without a token breaks the agreement: the hook
    is then [undefined] and the stored string "undefined".) *)
Theorem token_and_storage_agree (v : Release) env stored evs s log :
  Forall loginCarriesToken evs ->
  runFrom (dispatchOf v env) (initialState stored) evs = Some (s, log) ->
  token s = localStorageToken s
  /\ renderOf v (initialState (localStorageToken s))
     = match renderOf v s with
       | AuthScreen _ _ _ => AuthScreen None "Log In" false
       | AppScreen _ version _ _ _ _ =>
           AppScreen (NoActiveChallengeView "No active challenge") version None None None None
       end.
Proof.
  intros Hevs Hrun.
  assert (token s = localStorageToken s) as Hsync
    by (eapply (runFrom_tokenInSync v env evs); [exact Hevs | exact Hrun | reflexivity]).
  split; [exact Hsync|]. rewrite <- Hsync.
  destruct v; cbv [renderOf V1_0_0.render V1_1_0.render V1_0_0.loggedIn V1_1_0.loggedIn];
    cbn [token initialState];
    destruct (Js.truthyOpt Js.truthyString (token s)); reflexivity.
Qed.

Lemma token_and_storage_agree_witness :
  exists s log,
    Forall loginCarriesToken sampleLogin
    /\ runFrom (dispatchOf v1_1_0 None) (initialState None) sampleLogin = Some (s, log)
    /\ localStorageToken s = Some "jwt" /\ token s = localStorageToken s.
Proof.
  assert (Forall loginCarriesToken sampleLogin) as Hevs
    by (repeat constructor; discriminate).
  eexists _, _. split; [exact Hevs|]. split; [vm_compute; reflexivity|].
  split; [reflexivity|].
  refine (proj1 (token_and_storage_agree v1_1_0 None None sampleLogin _ _ Hevs _)).
  vm_compute. reflexivity.
Defined.

(* ===================================================================== *)
(** * The difficulty buttons *)
(* ===================================================================== *)

(** X14. In every state the client reaches, fed by a server whose entries
    are within the data model, an open edit dialog offers the five levels
    1 to 5 in order and highlights exactly one button, the one of the
    form's difficulty. *)
Theorem dialog_highlights_one_level (v : Release) env stored evs s log dialog :
  runFrom (dispatchOf v env) (initialState stored) evs = Some (s, log) ->
  Forall eventWithinModel evs ->
  editDialogOf v s = Some dialog ->
  map (fun b => fst (fst b)) (dialog_levels dialog) = [1; 2; 3; 4; 5]
  /\ highlightedLevels dialog = [editDifficulty s].
Proof.
  intros Hrun Hevs Hdialog.
  assert (difficultyInRange 1 /\ difficultyInRange 2 /\ difficultyInRange 3
          /\ difficultyInRange 4 /\ difficultyInRange 5) as Hlevels
    by (unfold difficultyInRange; lia).
  destruct (runFrom_invariant difficultyInRange Hlevels v env evs _ _ _ Hrun Hevs
              (initialState_invariant _ Hlevels stored)) as [[Hd _] _].
  assert (editDialogOf v s = V1_1_0.editDialog s) as Heq by (destruct v; reflexivity).
  rewrite Heq in Hdialog. unfold V1_1_0.editDialog in Hdialog.
  destruct (showEditDay s) as [day|]; [|discriminate].
  injection Hdialog as <-. unfold highlightedLevels. cbn [dialog_levels].
  unfold difficultyInRange in Hd.
  assert (editDifficulty s = 1 \/ editDifficulty s = 2 \/ editDifficulty s = 3
          \/ editDifficulty s = 4 \/ editDifficulty s = 5) as Hcases by lia.
  split; [reflexivity|].
  destruct Hcases as [-> | [-> | [-> | [-> | ->]]]]; reflexivity.
Qed.

Lemma dialog_highlights_one_level_witness :
  exists s log dialog,
    runFrom (dispatchOf v1_1_0 None) (initialState (Some "jwt"))
      [ TokenEffect sampleResponses (ResponseOk [sampleChallenge]);
        ClickDayBox 0; ClickDifficultyButton 4 ] = Some (s, log)
    /\ editDialogOf v1_1_0 s = Some dialog
    /\ highlightedLevels dialog = [5].
Proof.
  eexists _, _, _. split; [vm_compute; reflexivity|]. split; [reflexivity|].
  match goal with
  | |- highlightedLevels ?d = _ =>
      match d with
      | context [editNote ?s0] =>
          change (highlightedLevels d = [editDifficulty s0]);
          refine (proj2 (dialog_highlights_one_level v1_1_0 None (Some "jwt")
                           [ TokenEffect sampleResponses (ResponseOk [sampleChallenge]);
                             ClickDayBox 0; ClickDifficultyButton 4 ] s0 _ d _ _ _))
      end
  end.
  - vm_compute. reflexivity.
  - unfold sampleResponses.
    repeat (constructor; cbn; unfold difficultyInRange; try lia).
  - reflexivity.
Defined.

(* ===================================================================== *)
(** * More on the week start *)
(* ===================================================================== *)

Lemma TimeWithinDay_MakeDate day t :
  Js.TimeWithinDay (Js.MakeDate day (Js.TimeWithinDay t)) = Js.TimeWithinDay t.
Proof.
  unfold Js.MakeDate, Js.TimeWithinDay, Js.msPerDay.
  rewrite Z.add_comm, Z.mod_add by lia. apply Z.mod_mod. lia.
Qed.

Lemma localTime_mondayOf tza tzaSet now :
  Js.LocalTime tzaSet (Js.timeValue (mondayOf tza tzaSet now))
  = Js.MakeDate (localDay tza now - Js.getDay tza now + 1)
      (Js.TimeWithinDay (Js.LocalTime tza (Js.timeValue now))).
Proof.
  unfold localDay, mondayOf, Js.setDate, Js.copyDate, Js.getDate, Js.getDay,
    Js.LocalTime, Js.UTC, Js.MakeDayInMonthOf. cbn [Js.timeValue].
  match goal with |- ?a - tzaSet + tzaSet = _ => replace (a - tzaSet + tzaSet) with a by lia end.
  f_equal. lia.
Qed.

Lemma getDay_mondayOf tza tzaSet now : Js.getDay tzaSet (mondayOf tza tzaSet now) = 1.
Proof.
  pose proof (localDay_mondayOf tza tzaSet now) as Hday.
  unfold Js.getDay at 1, Js.WeekDay.
  change (Js.Day (Js.LocalTime tzaSet (Js.timeValue (mondayOf tza tzaSet now))))
    with (localDay tzaSet (mondayOf tza tzaSet now)).
  rewrite Hday. unfold Js.getDay, Js.WeekDay.
  change (Js.Day (Js.LocalTime tza (Js.timeValue now))) with (localDay tza now).
  set (d := localDay tza now). clearbody d.
  pose proof (Z.mod_pos_bound (d + 4) 7 ltac:(lia)).
  pose proof (Z.div_mod (d + 4) 7 ltac:(lia)).
  replace (d - (d + 4) mod 7 + 1 + 4) with (1 + ((d + 4) / 7) * 7) by lia.
  rewrite Z.mod_add by lia. reflexivity.
Qed.

(** X15. Whatever the day and the zone, also when the zone changes its
    clocks between the request and the date computed ([tza] is the offset
    at the request, [tzaSet] the one at the date computed), the date
    [createChallenge] computes as the week start is a Monday in local
    time, at the local time of day of the request, and lies between five
    days before the request day and one day after it. *)
Theorem week_start_is_a_local_monday tza tzaSet now :
  Js.getDay tzaSet (mondayOf tza tzaSet now) = 1
  /\ Js.TimeWithinDay (Js.LocalTime tzaSet (Js.timeValue (mondayOf tza tzaSet now)))
     = Js.TimeWithinDay (Js.LocalTime tza (Js.timeValue now))
  /\ localDay tza now - 5 <= localDay tzaSet (mondayOf tza tzaSet now) <= localDay tza now + 1.
Proof.
  pose proof (localDay_mondayOf tza tzaSet now) as Hday.
  split; [|split].
  - apply getDay_mondayOf.
  - rewrite localTime_mondayOf. apply TimeWithinDay_MakeDate.
  - rewrite Hday. unfold Js.getDay, Js.WeekDay.
    pose proof (Z.mod_pos_bound (Js.Day (Js.LocalTime tza (Js.timeValue now)) + 4) 7
                  ltac:(lia)).
    lia.
Qed.

(** X16. Submitted on a Monday to Saturday, the week start sent with the
    create request is the ISO string of the Monday of the ISO week of the
    request day, in local time: the request day itself or one of the five
    days before it.  This holds whatever the zone's offsets at the request
    ([tza]) and at that Monday ([tzaSet]) are. *)
Theorem week_start_on_weekdays (v : Release) env props tza tzaSet now post refetch lst s :
  Js.truthyString (Js.trim (newChallengeTitle props)) = true ->
  Js.getDay tza now <> 0 ->
  exists q rest,
    requestsOf (createChallengeOf v env props tza tzaSet now post refetch lst s) = q :: rest
    /\ challengeWeekStart q = Some (Js.toISOString (mondayOf tza tzaSet now))
    /\ localDay tzaSet (mondayOf tza tzaSet now) = isoWeekMonday (localDay tza now)
    /\ localDay tza now - 5 <= localDay tzaSet (mondayOf tza tzaSet now) <= localDay tza now.
Proof.
  intros Ht Hd. rewrite createChallengeOf_eq.
  destruct (createChallenge_requests env props tza tzaSet now post refetch lst s Ht)
    as (q & rest & Heq & _ & _ & Hbody & _).
  exists q, rest. split; [exact Heq|].
  split; [unfold challengeWeekStart; now rewrite Hbody|].
  split; [now apply mondayOf_weekdays|].
  rewrite localDay_mondayOf.
  unfold Js.getDay, Js.WeekDay in *.
  pose proof (Z.mod_pos_bound (Js.Day (Js.LocalTime tza (Js.timeValue now)) + 4) 7
                ltac:(lia)).
  lia.
Qed.

(** Submitted on Wednesday 27 August 2025, the week start is Monday
    25 August. *)
Lemma week_start_on_weekdays_witness :
  exists q rest,
    requestsOf (createChallengeOf v1_1_0 None sampleNewChallenge 0 0 sampleWednesday
                  (FetchRejects NotAnError) sampleResponses (ResponseOk [])
                  sampleNewChallenge) = q :: rest
    /\ challengeWeekStart q = Some "2025-08-25T12:00:00.000Z".
Proof.
  destruct (week_start_on_weekdays v1_1_0 None sampleNewChallenge 0 0 sampleWednesday
              (FetchRejects NotAnError) sampleResponses (ResponseOk [])
              sampleNewChallenge eq_refl ltac:(discriminate))
    as (q & rest & Heq & Hweek & _).
  exists q, rest. split; [exact Heq | exact Hweek].
Defined.

(** X17. The week start is sent as a UTC string, so its calendar date need
    not be the local Monday.  With [tzaSet] the zone's offset at the
    Monday computed: east of UTC, a request made in the first hours of
    the local day, earlier than that offset, is sent with the UTC date of
    the day before, a Sunday; west of UTC, a request made within that
    offset of the end of the local day is sent with the UTC date of the
    day after, a Tuesday; at offset 0 the UTC date is the local Monday. *)
Theorem week_start_utc_date_shifts tza tzaSet now :
  let sent := Js.timeValue (mondayOf tza tzaSet now) in
  let timeOfDay := Js.TimeWithinDay (Js.LocalTime tza (Js.timeValue now)) in
  (0 < tzaSet <= Js.msPerDay -> timeOfDay < tzaSet ->
     Js.Day sent = localDay tzaSet (mondayOf tza tzaSet now) - 1 /\ Js.WeekDay sent = 0)
  /\ (- Js.msPerDay <= tzaSet < 0 -> Js.msPerDay + tzaSet <= timeOfDay ->
     Js.Day sent = localDay tzaSet (mondayOf tza tzaSet now) + 1 /\ Js.WeekDay sent = 2)
  /\ (tzaSet = 0 ->
      Js.Day sent = localDay tzaSet (mondayOf tza tzaSet now) /\ Js.WeekDay sent = 1).
Proof.
  cbv zeta.
  pose proof (getDay_mondayOf tza tzaSet now) as Hmon.
  pose proof (localTime_mondayOf tza tzaSet now) as Hlocal.
  pose proof (localDay_mondayOf tza tzaSet now) as Hday.
  unfold Js.getDay, Js.WeekDay in Hmon.
  change (Js.Day (Js.LocalTime tzaSet (Js.timeValue (mondayOf tza tzaSet now))))
    with (localDay tzaSet (mondayOf tza tzaSet now)) in Hmon.
  rewrite <- Hday in Hlocal.
  set (m := localDay tzaSet (mondayOf tza tzaSet now)) in *.
  set (tw := Js.TimeWithinDay (Js.LocalTime tza (Js.timeValue now))) in *.
  assert (0 <= tw < Js.msPerDay) as Htw
    by (subst tw; unfold Js.TimeWithinDay, Js.msPerDay; apply Z.mod_pos_bound; lia).
  unfold Js.LocalTime, Js.MakeDate in Hlocal.
  set (t := Js.timeValue (mondayOf tza tzaSet now)) in *.
  clearbody m tw t. unfold Js.WeekDay, Js.Day, Js.msPerDay in *.
  assert (forall k, k * 86400000 <= t < (k + 1) * 86400000 -> t / 86400000 = k) as Hdiv.
  { intros k Hk. symmetry. apply (Z.div_unique t 86400000 k (t - k * 86400000)); lia. }
  assert (forall k r, 0 <= r < 7 -> (m + 4) mod 7 = 1 -> k = m + (r - 1) ->
                      (k + 4) mod 7 = r) as Hweek.
  { intros k r Hr Hm ->.
    pose proof (Z.div_mod (m + 4) 7 ltac:(lia)).
    replace (m + (r - 1) + 4) with (r + ((m + 4) / 7) * 7) by lia.
    rewrite Z.mod_add by lia. apply Z.mod_small. lia. }
  split; [|split].
  - intros Hz Hlt. assert (t / 86400000 = m - 1) as -> by (apply Hdiv; lia).
    split; [reflexivity | apply Hweek; [lia | exact Hmon | lia]].
  - intros Hz Hge. assert (t / 86400000 = m + 1) as -> by (apply Hdiv; lia).
    split; [reflexivity | apply Hweek; [lia | exact Hmon | lia]].
  - intros Hz. assert (t / 86400000 = m) as -> by (apply Hdiv; lia).
    split; [reflexivity | exact Hmon].
Qed.

(** Half past midnight on Monday 25 August 2025, two hours east of UTC:
    the string sent is dated Sunday 24 August. *)
Lemma week_start_utc_date_shifts_witness :
  Js.toISOString (mondayOf 7200000 7200000 (Js.mkDate 1756074600000)) = "2025-08-24T22:30:00.000Z"
  /\ Js.WeekDay (Js.timeValue (mondayOf 7200000 7200000 (Js.mkDate 1756074600000))) = 0.
Proof.
  split; [reflexivity|].
  apply (proj1 (week_start_utc_date_shifts 7200000 7200000 (Js.mkDate 1756074600000)));
    [unfold Js.msPerDay; lia | reflexivity].
Defined.

(* ===================================================================== *)
(** * The day a save addresses *)
(* ===================================================================== *)

Lemma runFrom_induction (I : State -> Prop) (P : Request -> Prop) v env :
  (forall s ev h, V1_1_0.dispatch env s ev = Some h -> I s ->
                  I (finalState (h s)) /\ Forall P (requestsOf (h s))) ->
  forall evs s s' log,
    runFrom (dispatchOf v env) s evs = Some (s', log) -> I s -> I s' /\ Forall P log.
Proof.
  intros Hstep. induction evs as [|ev evs IH]; intros s s' log Hrun Hs.
  - injection Hrun as <- <-. split; [exact Hs | constructor].
  - cbn in Hrun. unfold step in Hrun. rewrite dispatchOf_eq in Hrun.
    destruct (V1_1_0.dispatch env s ev) as [h|] eqn:Hd; [|discriminate].
    destruct (runFrom (dispatchOf v env) (finalState (h s)) evs) as [[s2 rs2]|] eqn:Hrest;
      [|discriminate].
    injection Hrun as <- <-.
    destruct (Hstep s ev h Hd Hs) as [Hs1 Hrs1].
    destruct (IH _ _ _ Hrest Hs1) as [Hs2 Hrs2].
    split; [exact Hs2 | apply Forall_app; split; assumption].
Qed.

Lemma dayGrid_target_in_week s k box :
  nth_error (V1_1_0.dayGrid s) k = Some box -> 0 <= box_openEditDay box <= 6.
Proof.
  unfold V1_1_0.dayGrid, V1_1_0.dayNames, Js.mapIndexed. cbn [Js.mapIndexedFrom].
  do 7 (destruct k as [|k]; [intros [= <-]; cbn; lia|]).
  destruct k; discriminate.
Qed.

Ltac week_setter :=
  apply Preserves_set; intros [] ?; unfold editDayInWeek; cbn;
  first [exact I | assumption].

Lemma openEditDay_editDayInWeek props d :
  0 <= d <= 6 -> Preserves editDayInWeek (V1_1_0.openEditDay props d).
Proof. intros Hd. unfold V1_1_0.openEditDay. preserves week_setter. Qed.

Lemma dispatch_editDayInWeek v env s ev h :
  V1_1_0.dispatch env s ev = Some h ->
  editDayInWeek s ->
  editDayInWeek (finalState (h s)) /\ Forall (upsertsDayOfWeek v env) (requestsOf (h s)).
Proof.
  assert (apiBaseOf v env = V1_1_0.API_BASE env) as Hb by (destruct v; reflexivity).
  intros Hd Hs.
  assert (forall a, Preserves editDayInWeek (V1_1_0.fetchCurrentChallenge env s a)) as Hcur
    by (intros a; unfold V1_1_0.fetchCurrentChallenge; preserves week_setter).
  assert (forall a, Preserves editDayInWeek (V1_1_0.fetchChallenges env s a)) as Hlist
    by (intros a; unfold V1_1_0.fetchChallenges; preserves week_setter).
  assert (forall day, showEditDay s = Some day -> 0 <= day <= 6) as Hday
    by (intros day Hday; unfold editDayInWeek in Hs; now rewrite Hday in Hs).
  assert (forall k box, nth_error (V1_1_0.dayGrid s) k = Some box ->
                        Preserves editDayInWeek (V1_1_0.openEditDay s (box_openEditDay box)))
    as Hopen
    by (intros k box Hbox; eapply openEditDay_editDayInWeek, dayGrid_target_in_week, Hbox).
  unfold V1_1_0.dispatch in Hd.
  split.
  - revert Hs. generalize s. change (Preserves editDayInWeek h).
    destruct (negb (V1_1_0.loggedIn s)); destruct ev; try discriminate Hd;
      try (unfold V1_1_0.mainContent in Hd;
           destruct (currentChallenge s); [|discriminate Hd];
           destruct (nth_error (V1_1_0.dayGrid s) k) as [box|] eqn:Hbox;
           [|discriminate Hd];
           injection Hd as <-; exact (Hopen k box Hbox));
      repeat match type of Hd with
             | match ?x with _ => _ end = Some _ => destruct x; try discriminate Hd
             | (if ?x then _ else _) = Some _ => destruct x; try discriminate Hd
             end;
      injection Hd as <-;
      unfold V1_1_0.handleAuth, V1_1_0.handleLogout, V1_1_0.createChallenge,
        V1_1_0.updateDayEntry;
      preserves ltac:(first [week_setter | apply Hcur | apply Hlist]).
  - clear Hs. generalize s. change (Sends (upsertsDayOfWeek v env) h).
    destruct (negb (V1_1_0.loggedIn s)); destruct ev; try discriminate Hd;
      try (destruct (showEditDay s) as [day|] eqn:Hshow; [|discriminate Hd];
           pose proof (Hday day eq_refl) as Hrange);
      repeat match type of Hd with
             | match ?x with _ => _ end = Some _ => destruct x; try discriminate Hd
             | (if ?x then _ else _) = Some _ => destruct x; try discriminate Hd
             end;
      injection Hd as <-;
      unfold V1_1_0.handleAuth, V1_1_0.handleLogout, V1_1_0.createChallenge,
        V1_1_0.updateDayEntry, V1_1_0.openEditDay, V1_1_0.fetchCurrentChallenge,
        V1_1_0.fetchChallenges;
      sends ltac:(apply Sends_apiCall; intros hs _ _ Hup;
                  first [ discriminate Hup
                        | eexists _, _; split; [exact Hrange|];
                          split; [reflexivity | cbn; rewrite Hb; reflexivity] ]).
Qed.

(** X18. From the first render on, an open edit dialog is always open on
    one of the days 0 to 6, so its heading names a day; and every
    day-upsert request the client sends is a PUT to
    /challenges/<id>/days/<d> with [d] between 0 and 6. *)
Theorem upserts_address_a_day_of_the_week (v : Release) env stored evs s log :
  runFrom (dispatchOf v env) (initialState stored) evs = Some (s, log) ->
  Forall (upsertsDayOfWeek v env) log
  /\ (forall d, showEditDay s = Some d -> 0 <= d <= 6)
  /\ (forall dialog, editDialogOf v s = Some dialog -> dialog_heading dialog <> None).
Proof.
  intros Hrun.
  destruct (runFrom_induction editDayInWeek (upsertsDayOfWeek v env) v env
              (dispatch_editDayInWeek v env) evs _ _ _ Hrun I) as [Hs Hlog].
  split; [exact Hlog|].
  assert (forall d, showEditDay s = Some d -> 0 <= d <= 6) as Hday
    by (intros d Hd; unfold editDayInWeek in Hs; now rewrite Hd in Hs).
  split; [exact Hday|].
  intros dialog Hdialog.
  assert (editDialogOf v s = V1_1_0.editDialog s) as Heq by (destruct v; reflexivity).
  rewrite Heq in Hdialog. unfold V1_1_0.editDialog in Hdialog.
  destruct (showEditDay s) as [d|]; [|discriminate].
  injection Hdialog as <-. cbn [dialog_heading].
  specialize (Hday d eq_refl). unfold V1_1_0.at_, V1_1_0.dayNames.
  assert (d = 0 \/ d = 1 \/ d = 2 \/ d = 3 \/ d = 4 \/ d = 5 \/ d = 6) as Hcases by lia.
  destruct Hcases as [-> | [-> | [-> | [-> | [-> | [-> | ->]]]]]]; discriminate.
Qed.

Lemma upserts_address_a_day_of_the_week_witness :
  exists s log q,
    runFrom (dispatchOf v1_1_0 None) (initialState (Some "jwt")) sampleSession = Some (s, log)
    /\ In q log /\ url q = "http://localhost:8000/challenges/1/days/4"
    /\ Forall (upsertsDayOfWeek v1_1_0 None) log.
Proof.
  eexists _, _, _. split; [vm_compute; reflexivity|].
  split; [do 3 right; left; reflexivity|]. split; [reflexivity|].
  refine (proj1 (upserts_address_a_day_of_the_week v1_1_0 None (Some "jwt")
                   sampleSession _ _ _)).
  vm_compute. reflexivity.
Defined.

(* ===================================================================== *)
(** * Which entries the grid shows *)
(* ===================================================================== *)

Lemma find_app_entries (p : DailyEntry -> bool) l1 l2 :
  find p (l1 ++ l2) = match find p l1 with Some x => Some x | None => find p l2 end.
Proof.
  induction l1 as [|x l1 IH]; [reflexivity|].
  cbn. destruct (p x); [reflexivity | exact IH].
Qed.

Lemma dayGridOf_entries v s l l' :
  (forall i, (i < 7)%nat ->
     find (fun e => day_index e =? Z.of_nat i) l
     = find (fun e => day_index e =? Z.of_nat i) l') ->
  dayGridOf v (withDailyEntries l s) = dayGridOf v (withDailyEntries l' s).
Proof.
  intros H. rewrite !dayGridOf_unfold.
  assert (forall k, dailyEntries (withDailyEntries k s) = k) as Hk by (intros k; reflexivity).
  rewrite !Hk. unfold Js.mapIndexed. cbn [Js.mapIndexedFrom].
  rewrite (H 0%nat), (H 1%nat), (H 2%nat), (H 3%nat), (H 4%nat), (H 5%nat), (H 6%nat)
    by lia.
  reflexivity.
Qed.

(** X19. An entry the grid cannot place is never shown: one whose day
    index is outside 0 to 6, or one that comes after another entry of the
    same day in the list.  The grid with it is the grid without it. *)
Theorem grid_ignores_hidden_entries (v : Release) s before e after :
  day_index e < 0 \/ 6 < day_index e
  \/ (exists e0, In e0 before /\ day_index e0 = day_index e) ->
  dayGridOf v (withDailyEntries (before ++ e :: after) s)
  = dayGridOf v (withDailyEntries (before ++ after) s).
Proof.
  intros Hhidden. apply dayGridOf_entries. intros i Hi.
  rewrite !find_app_entries.
  destruct (find (fun e' => day_index e' =? Z.of_nat i) before) as [x|] eqn:Hf;
    [reflexivity|].
  cbn [find]. destruct (Z.eqb_spec (day_index e) (Z.of_nat i)) as [Heq|Hne];
    [|reflexivity].
  exfalso. destruct Hhidden as [Hlow | [Hhigh | (e0 & Hin & He0)]]; [lia | lia |].
  rewrite find_no_entry in Hf. apply (Hf e0 Hin). congruence.
Qed.

Lemma grid_ignores_hidden_entries_witness :
  dayGridOf v1_1_0
    (withDailyEntries
       ([mondayEntry]
        ++ mkDailyEntry 12 1 7 true (Some 5) (Some "eighth day") "2025-09-01T20:00:00.000Z"
        :: [fridayEntry]) sampleState)
  = dayGridOf v1_1_0 sampleState.
Proof.
  apply (grid_ignores_hidden_entries v1_1_0 sampleState [mondayEntry]
           (mkDailyEntry 12 1 7 true (Some 5) (Some "eighth day")
              "2025-09-01T20:00:00.000Z") [fridayEntry]).
  right. left. cbn. lia.
Defined.

Lemma find_day_permutation i l l' :
  Permutation l l' -> NoDup (map day_index l) ->
  find (fun e => day_index e =? i) l = find (fun e => day_index e =? i) l'.
Proof.
  intros Hperm. induction Hperm as [|x l l' Hperm IH|x y l|l l' l'' H1 IH1 H2 IH2];
    intros Hnd.
  - reflexivity.
  - cbn. destruct (day_index x =? i); [reflexivity|].
    apply IH. now inversion Hnd.
  - cbn. destruct (Z.eqb_spec (day_index y) i) as [Hy|Hy];
      destruct (Z.eqb_spec (day_index x) i) as [Hx|Hx]; try reflexivity.
    exfalso. cbn in Hnd. inversion Hnd as [|? ? Hnotin _]; subst.
    apply Hnotin. left. congruence.
  - rewrite IH1 by exact Hnd. apply IH2.
    eapply Permutation_NoDup; [|exact Hnd]. now apply Permutation_map.
Qed.

(** X20. With at most one entry per day, the grid does not depend on the
    order in which the server lists the entries. *)
Theorem grid_independent_of_order (v : Release) s l l' :
  Permutation l l' -> NoDup (map day_index l) ->
  dayGridOf v (withDailyEntries l s) = dayGridOf v (withDailyEntries l' s).
Proof.
  intros Hperm Hnd. apply dayGridOf_entries. intros i _.
  now apply find_day_permutation.
Qed.

Lemma grid_independent_of_order_witness :
  dayGridOf v1_1_0 (withDailyEntries [mondayEntry; fridayEntry] sampleState)
  = dayGridOf v1_1_0 (withDailyEntries [fridayEntry; mondayEntry] sampleState).
Proof.
  apply (grid_independent_of_order v1_1_0 sampleState [mondayEntry; fridayEntry]
           [fridayEntry; mondayEntry]).
  - apply perm_swap.
  - repeat constructor; cbn; intuition discriminate.
Defined.
